(** * Relay tunnelling core of the remote-control host: model and properties

    The development follows the Go sources: the host program (registration
    loop, tunnel bridge, shutdown helper, identity generation, close-error
    classification), the launcher's [connectViaRelay], and the feed service's
    [getScaleFactors].  Go strings are byte strings and are modelled by
    [string]; [len] is [String.length]. *)

From Stdlib Require Import List String Ascii ZArith Lia Bool Arith.
From Stdlib Require QArith_base.
Import ListNotations.
Open Scope string_scope.

(** ** Go's [strings] package, as far as the program uses it *)

Module GoStr.

(** [strings.HasPrefix s prefix]. *)
Fixpoint HasPrefix (s prefix : string) {struct prefix} : bool :=
  match prefix with
  | EmptyString => true
  | String p prefix' =>
      match s with
      | EmptyString => false
      | String c s' => Ascii.eqb c p && HasPrefix s' prefix'
      end
  end.

(** [strings.Contains s substr]: [substr] occurs at some offset of [s]. *)
Fixpoint Contains (s substr : string) : bool :=
  HasPrefix s substr ||
  match s with
  | EmptyString => false
  | String _ s' => Contains s' substr
  end.

(** [strings.Join elems sep]. *)
Fixpoint Join (elems : list string) (sep : string) : string :=
  match elems with
  | [] => ""
  | [e] => e
  | e :: rest => e ++ sep ++ Join rest sep
  end.

(** The slice expression [s[:n]]: Go panics when [n > len(s)], which is
    [None] here. *)
Fixpoint sliceTo (s : string) (n : nat) {struct n} : option string :=
  match n with
  | O => Some ""
  | S n' =>
      match s with
      | EmptyString => None
      | String c s' => option_map (String c) (sliceTo s' n')
      end
  end.

(** The ASCII white space of [strings.Fields] and [strings.TrimSpace]:
    tab, line feed, vertical tab, form feed, carriage return, space. *)
Definition isSpace (c : ascii) : bool :=
  let n := nat_of_ascii c in
  ((n =? 9) || (n =? 10) || (n =? 11) || (n =? 12) || (n =? 13) || (n =? 32))%nat.

(** [strings.Fields] on ASCII input: the maximal runs of non-space bytes.
    [cur] is the field being read, in reverse. *)
Fixpoint fieldsFrom (s : string) (cur : list ascii) : list string :=
  let flush (k : list string) :=
    match cur with
    | [] => k
    | _ => string_of_list_ascii (rev cur) :: k
    end in
  match s with
  | EmptyString => flush []
  | String c s' =>
      if isSpace c then flush (fieldsFrom s' []) else fieldsFrom s' (c :: cur)
  end.

Definition Fields (s : string) : list string := fieldsFrom s [].

Fixpoint trimLeft (s : string) : string :=
  match s with
  | String c s' => if isSpace c then trimLeft s' else s
  | EmptyString => EmptyString
  end.

Definition revString (s : string) : string :=
  string_of_list_ascii (rev (list_ascii_of_string s)).

(** [strings.TrimSpace] on ASCII input. *)
Definition TrimSpace (s : string) : string :=
  revString (trimLeft (revString (trimLeft s))).

Definition lower (c : ascii) : ascii :=
  let n := nat_of_ascii c in
  if ((65 <=? n) && (n <=? 90))%nat then ascii_of_nat (n + 32) else c.

(** [strings.ToLower] on ASCII input. *)
Fixpoint ToLower (s : string) : string :=
  match s with
  | EmptyString => EmptyString
  | String c s' => String (lower c) (ToLower s')
  end.

End GoStr.

(** ** Go's [error] values

    An [error] is nil ([None]), the sentinel [io.EOF], or some other error
    value, of which only the message is observed. *)

Inductive error : Type :=
| io_EOF
| errorString (msg : string).

Definition Error (e : error) : string :=
  match e with
  | io_EOF => "EOF"
  | errorString m => m
  end.

Definition is_EOF (e : error) : bool :=
  match e with
  | io_EOF => true
  | errorString _ => false
  end.

(** ** [isNetworkCloseError] *)

Definition isNetworkCloseError (err : option error) : bool :=
  match err with
  | None => false
  | Some e =>
      if is_EOF e then true
      else
        let s := Error e in
        GoStr.Contains s "use of closed network connection" ||
        GoStr.Contains s "connection reset by peer" ||
        GoStr.Contains s "broken pipe" ||
        GoStr.Contains s "forcibly closed"
  end.

(** The markers the specification lists. *)
Definition listedCloseMarkers : list string :=
  ["use of closed network connection";
   "connection reset by peer";
   "broken pipe";
   "forcibly closed by the remote host."].

(** The markers the function searches for. *)
Definition searchedCloseMarkers : list string :=
  ["use of closed network connection";
   "connection reset by peer";
   "broken pipe";
   "forcibly closed"].

(** ** Formatting helpers of [fmt.Sprintf] *)

Module Fmt.

(** The verb [%t]. *)
Definition t (b : bool) : string := if b then "true" else "false".

(** The verb [%v] on an [error] value. *)
Definition v (err : option error) : string :=
  match err with
  | None => "<nil>"
  | Some e => Error e
  end.

Definition digit (n : nat) : ascii := ascii_of_nat (48 + n).

(** Decimal digits of [n], most significant first; [fuel] bounds the
    number of digits. *)
Fixpoint digitsFuel (fuel : nat) (n : nat) (acc : string) : string :=
  match fuel with
  | O => acc
  | S fuel' =>
      let acc' := String (digit (n mod 10)) acc in
      if (n / 10 =? 0)%nat then acc' else digitsFuel fuel' (n / 10) acc'
  end.

Definition decimal (n : nat) : string := digitsFuel (S n) n "".

Fixpoint zeros (k : nat) : string :=
  match k with
  | O => ""
  | S k' => String "0" (zeros k')
  end.

(** The verb [%d]. *)
Definition d (x : Z) : string :=
  if (x <? 0)%Z then String "-" (decimal (Z.abs_nat x)) else decimal (Z.abs_nat x).

(** The verb [%08d]: width 8 including the sign, padded with zeros. *)
Definition d08 (x : Z) : string :=
  let body := decimal (Z.abs_nat x) in
  if (x <? 0)%Z
  then String "-" (zeros (7 - String.length body) ++ body)
  else zeros (8 - String.length body) ++ body.

End Fmt.

(** ** The host process: data model *)

(** A [*grpc.Server]: the object behind the pointer is either serving or has
    been stopped ([GracefulStop] and [Stop] both leave it stopped). *)
Inductive grpcState : Type := Serving | Stopped.

Record server : Type := mkServer {
  localGrpcAddr : string;
  sessionPasswordHash : string;
  currentRelayHostID : string;
  grpcServer : option grpcState;   (* [None] is the nil pointer *)
  allowMouseControl : bool;
  allowKeyboardControl : bool;
  allowFileSystemAccess : bool;
  allowTerminalAccess : bool
}.

Definition with_currentRelayHostID (s : server) (id : string) : server :=
  mkServer (localGrpcAddr s) (sessionPasswordHash s) id (grpcServer s)
           (allowMouseControl s) (allowKeyboardControl s)
           (allowFileSystemAccess s) (allowTerminalAccess s).

Definition with_grpcServer (s : server) (g : option grpcState) : server :=
  mkServer (localGrpcAddr s) (sessionPasswordHash s) (currentRelayHostID s) g
           (allowMouseControl s) (allowKeyboardControl s)
           (allowFileSystemAccess s) (allowTerminalAccess s).

(** The package-level GUI state the loops look at: the [-headless] flag and
    whether each widget pointer is non-nil. *)
Record gui : Type := mkGui {
  headlessFlag : bool;
  relayStatusLabel : bool;
  hostIDDisplayLabel : bool;
  fyneWindow : bool
}.

Inductive widget : Type := RelayStatus | HostIDDisplay | ServerStatus | WindowTitle.

Inductive connId : Type :=
| controlConn          (* host: the control connection to the relay *)
| hostProxyConn        (* host: the data connection to the relay *)
| localServiceConn     (* host: the connection to the local gRPC service *)
| clientConn.          (* launcher: the connection of [connectViaRelay] *)

(** What the process does to the outside world, in order. *)
Inductive event : Type :=
| Log (msg : string)
| Stdout (text : string)
| SetText (w : widget) (text : string)
| Dial (addr : string)
| ConnWrite (c : connId) (data : string)
| ConnRead (c : connId)
| SetReadDeadline (c : connId) (seconds : option nat)   (* [None] clears it *)
| ConnClose (c : connId)
| GracefulStop
| Stop
| Sleep (seconds : nat)
| GoTunnel (localGrpcServiceAddr relayDataAddrForHost sessionToken registeredHostID : string).

Definition effectiveHostIDPrefix : string := "EFFECTIVE_HOST_ID:".

(** One pass through the body of a loop: either the loop goes on with a new
    server state, or the goroutine panics (which ends the whole process). *)
Inductive stepResult : Type :=
| Next (s : server) (tr : list event)
| Crash (tr : list event).

(** ** The relay registration loop ([manageRelayRegistrationAndTunnels]) *)

Section Relay.

(** Library calls whose results the program only inspects:
    [bcrypt.CompareHashAndPassword hash password] (nil on a match),
    [net.SplitHostPort] (host and port, or an error) and
    [net.JoinHostPort]. *)
Variable CompareHashAndPassword : string -> string -> option error.
Variable SplitHostPort : string -> (string * string) + error.
Variable JoinHostPort : string -> string -> string.

Variable g : gui.
Variables relayCtrlAddrFull localInitialIDHint localGrpcSvcAddr : string.

(** The guard [!*headlessFlag && relayStatusLabel != nil]. *)
Definition relayLabelShown : bool := negb (headlessFlag g) && relayStatusLabel g.

Definition setRelayStatus (text : string) : list event :=
  if relayLabelShown then [SetText RelayStatus text] else [].

(** Case [HOST_REGISTERED] of the switch. *)
Definition onHostRegistered (s : server) (response : string) (parts : list string)
  : stepResult :=
  if (List.length parts <? 2)%nat then
    Next s [Log ("ERROR: [Relay] Invalid HOST_REGISTERED response: " ++ response)]
  else
    let assignedID := nth 1 parts "" in
    let s' := with_currentRelayHostID s assignedID in
    let id := currentRelayHostID s' in
    Next s'
      ([Log ("INFO: [Relay] Successfully registered with relay server. Assigned Host ID: " ++ id);
        Stdout (effectiveHostIDPrefix ++ id ++ String "010" "");
        Log ("INFO: Effective Host ID (relay mode): " ++ id)]
       ++ (if negb (headlessFlag g) then
             (if hostIDDisplayLabel g
              then [SetText HostIDDisplay
                      ("Your Relay Host ID: " ++ id ++ String "010" "(Share this with clients)")]
              else [])
             ++ (if fyneWindow g
                 then [SetText WindowTitle ("gRPC Server - Host ID: " ++ id ++ " (Relay)")]
                 else [])
             ++ (if relayStatusLabel g
                 then [SetText RelayStatus
                         ("Relay: Registered as '" ++ id ++ "'. Waiting for clients...")]
                 else [])
           else [])).

(** The verdict computed for a password attempt. *)
Definition passwordVerdict (s : server) (plainTextPasswordAttempt : string) : bool :=
  if sessionPasswordHash s =? "" then true
  else
    match CompareHashAndPassword (sessionPasswordHash s) plainTextPasswordAttempt with
    | None => true
    | Some _ => false
    end.

(** Case [VERIFY_PASSWORD_REQUEST]; [errSend] is what the write of the
    response on the control connection returns. *)
Definition onVerifyPasswordRequest (s : server) (response : string) (parts : list string)
    (errSend : option error) : stepResult :=
  let l0 := Log ("DEBUG: [Relay] Received VERIFY_PASSWORD_REQUEST: " ++ response) in
  if (2 <=? List.length parts)%nat then
    let requestToken := nth 1 parts "" in
    let plainTextPasswordAttempt :=
      if (3 <=? List.length parts)%nat then GoStr.Join (skipn 2 parts) " " else "" in
    let l1 :=
      if (3 <=? List.length parts)%nat then []
      else [Log ("DEBUG: [Relay] No password string provided in VERIFY_PASSWORD_REQUEST for token "
                 ++ requestToken ++ ".")] in
    let l2 := Log ("DEBUG: [Relay] Token: '" ++ requestToken
                   ++ "', Password Attempt (plain text): '" ++ plainTextPasswordAttempt
                   ++ "', Stored Hash: '" ++ sessionPasswordHash s ++ "'") in
    let isValid := passwordVerdict s plainTextPasswordAttempt in
    let l3 :=
      if sessionPasswordHash s =? "" then
        Log ("INFO: [Relay] Password verification for token '" ++ requestToken
             ++ "'. Host has no password set. Granting access.")
      else if isValid then
        Log ("INFO: [Relay] Password verification for token '" ++ requestToken
             ++ "'. Password MATCHED.")
      else
        Log ("WARN: [Relay] Password verification for token '" ++ requestToken
             ++ "'. Password MISMATCH (attempt: '" ++ plainTextPasswordAttempt
             ++ "', err: "
             ++ Fmt.v (CompareHashAndPassword (sessionPasswordHash s) plainTextPasswordAttempt)
             ++ "). Denying access.") in
    let respCmd := "VERIFY_PASSWORD_RESPONSE " ++ requestToken ++ " " ++ Fmt.t isValid
                   ++ String "010" "" in
    let l4 :=
      match errSend with
      | Some e => Log ("ERROR: [Relay] Failed to send VERIFY_PASSWORD_RESPONSE for token "
                       ++ requestToken ++ ": " ++ Error e)
      | None => Log ("INFO: [Relay] Sent to relay: " ++ GoStr.TrimSpace respCmd)
      end in
    Next s ([l0] ++ l1 ++ [l2; l3; ConnWrite controlConn respCmd; l4])
  else
    Next s [l0; Log ("ERROR: [Relay] Invalid VERIFY_PASSWORD_REQUEST (missing token): "
                     ++ response)].

(** Case [CREATE_TUNNEL].  The status text takes [sessionToken[:6]], which
    panics on a shorter token. *)
Definition onCreateTunnel (s : server) (response : string) (parts : list string)
  : stepResult :=
  if (List.length parts <? 3)%nat then
    Next s [Log ("ERROR: [Relay] Invalid CREATE_TUNNEL command for Host ID '"
                 ++ currentRelayHostID s ++ "': " ++ response)]
  else if currentRelayHostID s =? "" then
    Next s [Log ("ERROR: [Relay] Received CREATE_TUNNEL before host ID was registered: "
                 ++ response ++ ". Ignoring.")]
  else
    let relayDynamicPortStr := nth 1 parts "" in
    let sessionToken := nth 2 parts "" in
    let l0 := Log ("INFO: [Relay] Received CREATE_TUNNEL for Host ID '" ++ currentRelayHostID s
                   ++ "', session token " ++ sessionToken ++ ", relay dynamic port "
                   ++ relayDynamicPortStr) in
    match SplitHostPort relayCtrlAddrFull with
    | inr err =>
        Next s [l0; Log ("ERROR: [Relay] Could not parse host IP from relayCtrlAddrFull '"
                         ++ relayCtrlAddrFull ++ "': " ++ Error err
                         ++ ". Cannot create tunnel.")]
    | inl (relayHostIP, _) =>
        let relayDataAddrForHost := JoinHostPort relayHostIP relayDynamicPortStr in
        let l1 := Log ("INFO: [Relay] Host '" ++ currentRelayHostID s
                       ++ "' will connect to relay data endpoint: " ++ relayDataAddrForHost
                       ++ " for session " ++ sessionToken) in
        let spawn := GoTunnel localGrpcSvcAddr relayDataAddrForHost sessionToken
                              (currentRelayHostID s) in
        if relayLabelShown then
          match GoStr.sliceTo sessionToken 6 with
          | None => Crash [l0; l1]
          | Some short =>
              Next s [l0; l1;
                      SetText RelayStatus ("Relay: Client connecting (ID: "
                                           ++ currentRelayHostID s ++ ", Session: "
                                           ++ short ++ ")...");
                      spawn]
          end
        else Next s [l0; l1; spawn]
    end.

(** The switch on [parts[0]]; [parts] is [strings.Fields response]. *)
Definition dispatch (s : server) (response : string) (parts : list string)
    (errSend : option error) : stepResult :=
  match parts with
  | [] => Next s []
  | command :: _ =>
      if command =? "HOST_REGISTERED" then onHostRegistered s response parts
      else if command =? "VERIFY_PASSWORD_REQUEST" then
        onVerifyPasswordRequest s response parts errSend
      else if command =? "CREATE_TUNNEL" then onCreateTunnel s response parts
      else Next s [Log ("WARN: [Relay] Unknown command from relay server for Host ID '"
                        ++ currentRelayHostID s ++ "': " ++ response)]
  end.

(** The body of the read loop for one line [raw] that [ReadString] returned
    without error. *)
Definition processLine (s : server) (raw : string) (errSend : option error)
  : stepResult :=
  let response := GoStr.TrimSpace raw in
  let l := Log ("INFO: [Relay] Received from relay (current/potential Host ID '"
                ++ currentRelayHostID s ++ "'): " ++ response) in
  match dispatch s response (GoStr.Fields response) errSend with
  | Next s' tr => Next s' (l :: tr)
  | Crash tr => Crash (l :: tr)
  end.

(** What one iteration of the read loop meets: the result of
    [reader.ReadString] and, should the iteration write a response, the
    result of that write. *)
Inductive readResult : Type :=
| ReadLine (raw : string)
| ReadErr (err : error).

Record tick : Type := mkTick { rd : readResult; wr : option error }.

Inductive loopResult : Type :=
| LoopWaiting (s : server) (tr : list event)   (* input exhausted: blocked in the read *)
| LoopEnded (s : server) (tr : list event)     (* [goto EndReadLoop] *)
| LoopCrashed (tr : list event).

(** The events of the iterations before, followed by the rest of the loop. *)
Definition after (tr : list event) (r : loopResult) : loopResult :=
  match r with
  | LoopWaiting s tr' => LoopWaiting s (tr ++ tr')
  | LoopEnded s tr' => LoopEnded s (tr ++ tr')
  | LoopCrashed tr' => LoopCrashed (tr ++ tr')
  end.

(** The inner [for] loop over the lines of one control connection. *)
Fixpoint readLoop (s : server) (input : list tick) : loopResult :=
  match input with
  | [] => LoopWaiting s []
  | t :: rest =>
      match rd t with
      | ReadErr err =>
          let l :=
            if is_EOF err then
              Log ("INFO: [Relay] Control connection to relay server closed (EOF) for Host ID '"
                   ++ currentRelayHostID s ++ "'. Will attempt to reconnect.")
            else
              Log ("ERROR: [Relay] Error reading from relay control connection for Host ID '"
                   ++ currentRelayHostID s ++ "': " ++ Error err
                   ++ ". Will attempt to reconnect.") in
          LoopEnded s [l; ConnClose controlConn]
      | ReadLine raw =>
          match processLine s raw (wr t) with
          | Crash tr => LoopCrashed tr
          | Next s' tr => after tr (readLoop s' rest)
          end
      end
  end.

(** One turn of the outer [for] loop: what the connection attempt meets. *)
Inductive attempt : Type :=
| DialFails (err : error)
| RegisterFails (remoteAddr : string) (err : error)
| Connected (remoteAddr : string) (input : list tick).

(** The outer loop, over the connection attempts that have happened so
    far.  It never leaves by itself: with no attempt left it is about to
    dial again. *)
Fixpoint manageRelayRegistrationAndTunnels (s : server) (attempts : list attempt)
  : loopResult :=
  match attempts with
  | [] => LoopWaiting s []
  | a :: rest =>
      let pre :=
        ([Log ("INFO: [Relay] Attempting to connect to relay control server "
               ++ relayCtrlAddrFull ++ " (local ID hint: '" ++ localInitialIDHint ++ "')...")]
         ++ setRelayStatus ("Relay: Connecting to " ++ relayCtrlAddrFull ++ "...")
         ++ [Dial relayCtrlAddrFull])%list in
      let registerCmd := "REGISTER_HOST " ++ localInitialIDHint ++ String "010" "" in
      match a with
      | DialFails err =>
          after
            (pre
             ++ [Log ("WARN: [Relay] Failed to connect to relay control server "
                      ++ relayCtrlAddrFull ++ ": " ++ Error err ++ ". Retrying in 10s...")]
             ++ setRelayStatus "Relay: Connection failed. Retrying..."
             ++ [Sleep 10])
            (manageRelayRegistrationAndTunnels s rest)
      | RegisterFails remoteAddr err =>
          after
            (pre
             ++ [Log ("INFO: [Relay] Connected to relay control server: " ++ remoteAddr);
                 ConnWrite controlConn registerCmd;
                 Log ("ERROR: [Relay] Failed to send REGISTER_HOST command: " ++ Error err
                      ++ ". Closing connection and retrying.")]
             ++ setRelayStatus "Relay: Registration command failed."
             ++ [ConnClose controlConn; Sleep 5])
            (manageRelayRegistrationAndTunnels s rest)
      | Connected remoteAddr input =>
          let sent :=
            (pre
             ++ [Log ("INFO: [Relay] Connected to relay control server: " ++ remoteAddr);
                 ConnWrite controlConn registerCmd;
                 Log ("INFO: [Relay] Sent: " ++ GoStr.TrimSpace registerCmd)]
             ++ setRelayStatus "Relay: Sent registration. Waiting for ID...")%list in
          match readLoop s input with
          | LoopWaiting s' tr => LoopWaiting s' (sent ++ tr)
          | LoopCrashed tr => LoopCrashed (sent ++ tr)
          | LoopEnded s' tr =>
              after
                (sent ++ tr
                 ++ [Log ("INFO: [Relay] Control connection read loop ended for Host ID '"
                          ++ currentRelayHostID s' ++ "'. Will attempt to re-establish.");
                     Sleep 5])
                (manageRelayRegistrationAndTunnels s' rest)
          end
      end
  end.

(** *** [handleHostSideTunnel], up to the start of the two copy loops *)

Record tunnelEnv : Type := mkTunnelEnv {
  dialRelayData : string + error;     (* remote address, or the dial error *)
  identWrite : option error;
  dialLocalService : option error;
  relayStatusText : string            (* [relayStatusLabel.Text] when read *)
}.

Inductive setupResult : Type :=
| SetupCrash (tr : list event)
| SetupReturn (tr : list event)
| SetupBridge (tr : list event) (logCtx originalRelayStatusText : string).

Definition handleHostSideTunnel_setup (env : tunnelEnv)
    (localGrpcServiceAddr relayDataAddrForHost sessionToken registeredHostID : string)
  : setupResult :=
  let l0 := Log ("[TUNNEL_DEBUG] handleHostSideTunnel called with localGrpcServiceAddr: "
                 ++ localGrpcServiceAddr ++ ", relayDataAddrForHost: " ++ relayDataAddrForHost
                 ++ ", sessionToken: " ++ sessionToken ++ ", registeredHostID: "
                 ++ registeredHostID) in
  match GoStr.sliceTo sessionToken 6 with
  | None => SetupCrash [l0]
  | Some short =>
      let logCtx := "[Tunnel " ++ short ++ " Host " ++ registeredHostID ++ "]" in
      let pre :=
        [l0;
         Log ("INFO: " ++ logCtx ++ " Host-side: Attempting to connect to relay data endpoint "
              ++ relayDataAddrForHost);
         Log ("[TUNNEL_DEBUG] Attempting to dial relayDataAddrForHost: "
              ++ relayDataAddrForHost);
         Dial relayDataAddrForHost] in
      match dialRelayData env with
      | inr err =>
          SetupReturn
            (pre ++ [Log ("ERROR: " ++ logCtx
                          ++ " Host-side: Failed to connect to relay data endpoint "
                          ++ relayDataAddrForHost ++ ": " ++ Error err)])
      | inl remoteAddr =>
          let identCmd := "SESSION_TOKEN " ++ sessionToken ++ " HOST_PROXY" ++ String "010" "" in
          let connected :=
            (pre ++ [Log ("INFO: " ++ logCtx ++ " Host-side: Connected to relay data endpoint: "
                          ++ remoteAddr);
                     ConnWrite hostProxyConn identCmd])%list in
          match identWrite env with
          | Some err =>
              SetupReturn
                (connected
                 ++ [Log ("ERROR: " ++ logCtx
                          ++ " Host-side: Failed to send session token identification: "
                          ++ Error err);
                     ConnClose hostProxyConn])
          | None =>
              let identified :=
                (connected
                 ++ [Log ("INFO: " ++ logCtx ++ " Host-side: Sent identification: "
                          ++ GoStr.TrimSpace identCmd);
                     Log ("INFO: " ++ logCtx
                          ++ " Host-side: Connecting to local gRPC service at "
                          ++ localGrpcServiceAddr);
                     Dial localGrpcServiceAddr])%list in
              match dialLocalService env with
              | Some err =>
                  SetupReturn
                    (identified
                     ++ [Log ("ERROR: " ++ logCtx
                              ++ " Host-side: Failed to connect to local gRPC service "
                              ++ localGrpcServiceAddr ++ ": " ++ Error err);
                         ConnClose hostProxyConn])
              | None =>
                  SetupBridge
                    (identified
                     ++ [Log ("INFO: " ++ logCtx
                              ++ " Host-side: Connected to local gRPC service. Starting bi-directional proxy.")]
                     ++ setRelayStatus ("Relay: Active session (ID: " ++ registeredHostID ++ ")"))
                    logCtx
                    (if relayLabelShown then relayStatusText env else "")
              end
          end
      end
  end.

(** [handleHostSideTunnel] after [wg.Wait()] has returned: the closing log
    line, the status text put back, and the two deferred closes of the
    function itself.  [currentText] is [relayStatusLabel.Text] at that
    time. *)
Definition handleHostSideTunnel_finish
    (logCtx registeredHostID originalRelayStatusText currentText : string)
  : list event :=
  [Log ("INFO: " ++ logCtx ++ " Host-side: Proxying finished. Tunnel closed.")]
  ++ (if relayLabelShown then
        if GoStr.Contains currentText ("Active session (ID: " ++ registeredHostID ++ ")")
        then
          if negb (originalRelayStatusText =? "")
             && negb (GoStr.HasPrefix originalRelayStatusText "Relay: Active session")
          then [SetText RelayStatus originalRelayStatusText]
          else [SetText RelayStatus ("Relay: Registered as '" ++ registeredHostID
                                     ++ "'. Waiting for clients...")]
        else []
      else [])
  ++ [ConnClose localServiceConn; ConnClose hostProxyConn].

(** The tunnels a trace launched, as the arguments of their [go]
    statements. *)
Fixpoint launched (tr : list event) : list (string * string * string * string) :=
  match tr with
  | [] => []
  | GoTunnel l r t h :: tr' => (l, r, t, h) :: launched tr'
  | _ :: tr' => launched tr'
  end.

End Relay.

(** ** The tunnel bridge: the two copy goroutines of [handleHostSideTunnel]

    After both connections are established the function adds 2 to a
    [sync.WaitGroup], starts one goroutine per direction and waits.  The
    goroutines and the waiting function interleave; the model is a step
    relation over their joint state.  Steps that need the remote peer or
    the network to act are marked [Environment]; the others are taken by
    the program alone. *)

Module Bridge.

Inductive dir : Type := RelayToLocal | LocalToRelay.

Definition other (d : dir) : dir :=
  match d with
  | RelayToLocal => LocalToRelay
  | LocalToRelay => RelayToLocal
  end.

(** [io.Copy(dst, src)]: the first goroutine copies from [hostProxyConn]
    to [localServiceConn], the second the other way. *)
Definition src (d : dir) : connId :=
  match d with
  | RelayToLocal => hostProxyConn
  | LocalToRelay => localServiceConn
  end.

Definition dst (d : dir) : connId := src (other d).

(** Where a goroutine is.  Its deferred calls run last-in first-out: the
    close of its destination, the close of its source, [wg.Done()]. *)
Inductive phase : Type :=
| Reading                               (* in [io.Copy], inside [src.Read] *)
| Writing                               (* in [io.Copy], inside [dst.Write] *)
| Copied (errCopy : option error)       (* [io.Copy] has returned *)
| Logged                                (* the function body is over *)
| ClosedDst
| ClosedBoth
| Done.                                 (* [wg.Done()] has run *)

Definition inCopy (p : phase) : bool :=
  match p with
  | Reading | Writing => true
  | _ => false
  end.

Record copier : Type := mkCopier { at_ : phase; written : nat }.

Record state : Type := mkState {
  hostProxyClosed : bool;
  localServiceClosed : bool;
  relayToLocal : copier;
  localToRelay : copier;
  wg : nat;
  returned : bool        (* [wg.Wait()] has returned *)
}.

Definition closed (c : connId) (s : state) : bool :=
  match c with
  | hostProxyConn => hostProxyClosed s
  | localServiceConn => localServiceClosed s
  | _ => false
  end.

Definition close (c : connId) (s : state) : state :=
  match c with
  | hostProxyConn =>
      mkState true (localServiceClosed s) (relayToLocal s) (localToRelay s) (wg s) (returned s)
  | localServiceConn =>
      mkState (hostProxyClosed s) true (relayToLocal s) (localToRelay s) (wg s) (returned s)
  | _ => s
  end.

Definition get (d : dir) (s : state) : copier :=
  match d with
  | RelayToLocal => relayToLocal s
  | LocalToRelay => localToRelay s
  end.

Definition set (d : dir) (c : copier) (s : state) : state :=
  match d with
  | RelayToLocal =>
      mkState (hostProxyClosed s) (localServiceClosed s) c (localToRelay s) (wg s) (returned s)
  | LocalToRelay =>
      mkState (hostProxyClosed s) (localServiceClosed s) (relayToLocal s) c (wg s) (returned s)
  end.

Definition move (d : dir) (p : phase) (s : state) : state :=
  set d (mkCopier p (written (get d s))) s.

Definition wgDone (s : state) : state :=
  mkState (hostProxyClosed s) (localServiceClosed s) (relayToLocal s) (localToRelay s)
          (pred (wg s)) (returned s).

Definition wgWaitReturns (s : state) : state :=
  mkState (hostProxyClosed s) (localServiceClosed s) (relayToLocal s) (localToRelay s)
          (wg s) true.

(** The state when the goroutines start: both connections open,
    [wg.Add(2)] done. *)
Definition init : state :=
  mkState false false (mkCopier Reading 0) (mkCopier Reading 0) 2 false.

Definition errClosed : error := errorString "use of closed network connection".

(** The line a goroutine logs when its [io.Copy] has returned. *)
Definition copyLog (logCtx : string) (d : dir) (n : nat) (errCopy : option error) : event :=
  let way := match d with
             | RelayToLocal => "from relay to local"
             | LocalToRelay => "from local to relay"
             end in
  if (match errCopy with None => false | Some _ => true end)
     && negb (isNetworkCloseError errCopy)
  then Log ("ERROR: " ++ logCtx ++ " Host-side: Error copying " ++ way ++ ": "
            ++ Fmt.v errCopy ++ " (bytes: " ++ Fmt.decimal n ++ ")")
  else Log ("INFO: " ++ logCtx ++ " Host-side: Finished copying " ++ way ++ ". Bytes: "
            ++ Fmt.decimal n ++ ". Error (if any): " ++ Fmt.v errCopy).

Inductive actor : Type := Program | Environment.

Inductive step : actor -> state -> state -> Prop :=
(* the peer's bytes arrive on an open source *)
| read_data d s :
    at_ (get d s) = Reading -> closed (src d) s = false ->
    step Environment s (move d Writing s)
(* the peer ends the stream ([io.Copy] then returns nil) or the read fails *)
| read_ends d s errCopy :
    at_ (get d s) = Reading -> closed (src d) s = false ->
    step Environment s (move d (Copied errCopy) s)
(* a read on a connection closed on this side returns at once *)
| read_closed d s :
    at_ (get d s) = Reading -> closed (src d) s = true ->
    step Program s (move d (Copied (Some errClosed)) s)
| write_ok d s n :
    at_ (get d s) = Writing -> closed (dst d) s = false ->
    step Environment s (set d (mkCopier Reading (written (get d s) + n)) s)
| write_fails d s err :
    at_ (get d s) = Writing -> closed (dst d) s = false ->
    step Environment s (move d (Copied (Some err)) s)
| write_closed d s :
    at_ (get d s) = Writing -> closed (dst d) s = true ->
    step Program s (move d (Copied (Some errClosed)) s)
| log_result d s errCopy :
    at_ (get d s) = Copied errCopy ->
    step Program s (move d Logged s)
| close_dst d s :
    at_ (get d s) = Logged ->
    step Program s (close (dst d) (move d ClosedDst s))
| close_src d s :
    at_ (get d s) = ClosedDst ->
    step Program s (close (src d) (move d ClosedBoth s))
| wg_done d s :
    at_ (get d s) = ClosedBoth ->
    step Program s (wgDone (move d Done s))
| wg_wait s :
    wg s = 0 -> returned s = false ->
    step Program s (wgWaitReturns s).

Inductive reachable : state -> Prop :=
| reach_init : reachable init
| reach_step a s s' : reachable s -> step a s s' -> reachable s'.

(** Runs of exactly [n] steps. *)
Inductive run : nat -> state -> state -> Prop :=
| run_0 s : run 0 s s
| run_S n a s s' s'' : step a s s' -> run n s' s'' -> run (S n) s s''.



Definition pending (p : phase) : nat :=
  match p with
  | Done => 0
  | _ => 1
  end.

Definition dstClosedBy (p : phase) : bool :=
  match p with
  | ClosedDst | ClosedBoth | Done => true
  | _ => false
  end.

Definition srcClosedBy (p : phase) : bool :=
  match p with
  | ClosedBoth | Done => true
  | _ => false
  end.

(** What holds of every state the bridge can be in. *)
Record inv (s : state) : Prop := mkInv {
  inv_dst : forall d, dstClosedBy (at_ (get d s)) = true -> closed (dst d) s = true;
  inv_src : forall d, srcClosedBy (at_ (get d s)) = true -> closed (src d) s = true;
  inv_wg : wg s = pending (at_ (relayToLocal s)) + pending (at_ (localToRelay s));
  inv_ret : returned s = true -> wg s = 0
}.

(** A run in which the relay ends the stream first: the goroutine copying
    from the relay leaves [io.Copy], logs, closes both connections and
    signals the wait group. *)
Definition relayEndsFirst : list state :=
  let s1 := move RelayToLocal (Copied None) init in
  let s2 := move RelayToLocal Logged s1 in
  let s3 := close localServiceConn (move RelayToLocal ClosedDst s2) in
  let s4 := close hostProxyConn (move RelayToLocal ClosedBoth s3) in
  let s5 := wgDone (move RelayToLocal Done s4) in
  [s1; s2; s3; s4; s5].

Definition afterRelayEnds : state := last relayEndsFirst init.

End Bridge.

(** ** The launcher's [connectViaRelay] *)

Section Client.

Variable SplitHostPort : string -> (string * string) + error.
Variable JoinHostPort : string -> string -> string.

(** What the network does during the call: the result of the dial, of the
    write of the request, and of [ReadString] (a line or an error). *)
Record relayEnv : Type := mkRelayEnv {
  dialResult : option error;
  sendResult : option error;
  recvResult : string + error
}.

(** The four results of the Go function. *)
Record relayResult : Type := mkRelayResult {
  connected : bool;
  relayDataAddrForClient : string;
  sessionToken : string;
  err : option error
}.

Definition failure (msg : string) : relayResult :=
  mkRelayResult false "" "" (Some (errorString msg)).

(** The switch on the first field of the response. *)
Definition interpretResponse (targetHostID relayControlAddr response : string)
    (parts : list string) : relayResult * list event :=
  match parts with
  | [] => (failure ("empty or invalid response from relay: " ++ response), [])
  | command :: _ =>
      if command =? "SESSION_READY" then
        if (List.length parts <? 3)%nat then
          (failure ("invalid SESSION_READY response from relay: " ++ response), [])
        else
          let dynamicPortStr := nth 1 parts "" in
          let sessionTokenOut := nth 2 parts "" in
          match SplitHostPort relayControlAddr with
          | inr e =>
              (failure ("could not parse host from relayControlAddr '" ++ relayControlAddr
                        ++ "': " ++ Error e), [])
          | inl (relayHost, _) =>
              let finalRelayDataAddr := JoinHostPort relayHost dynamicPortStr in
              (mkRelayResult true finalRelayDataAddr sessionTokenOut None,
               [Log ("INFO: [Relay] Constructed data address for client: "
                     ++ finalRelayDataAddr)])
          end
      else if command =? "ERROR_HOST_NOT_FOUND" then
        (failure ("relay server reported HostID '" ++ targetHostID ++ "' not found"), [])
      else if command =? "ERROR_AUTHENTICATION_FAILED" then
        (failure ("authentication failed for HostID '" ++ targetHostID ++ "'"), [])
      else
        (failure ("unexpected response from relay: " ++ response), [])
  end.

Definition connectViaRelay (env : relayEnv)
    (targetHostID plainTextPassword relayControlAddr : string)
  : relayResult * list event :=
  let l0 := Log ("INFO: [Relay] Attempting to connect to HostID '" ++ targetHostID
                 ++ "' via relay server " ++ relayControlAddr
                 ++ " (password provided for verification: "
                 ++ Fmt.t (negb (plainTextPassword =? "")) ++ ")") in
  match dialResult env with
  | Some e =>
      (failure ("failed to connect to relay control server " ++ relayControlAddr ++ ": "
                ++ Error e),
       [l0; Dial relayControlAddr])
  | None =>
      (* from here on [defer conn.Close()] is pending *)
      let cmdStr :=
        if plainTextPassword =? "" then
          "INITIATE_CLIENT_SESSION " ++ targetHostID ++ String "010" ""
        else
          "INITIATE_CLIENT_SESSION " ++ targetHostID ++ " " ++ plainTextPassword
          ++ String "010" "" in
      let opened :=
        [l0; Dial relayControlAddr;
         Log ("INFO: [Relay] Connected to relay control port " ++ relayControlAddr);
         ConnWrite clientConn cmdStr] in
      match sendResult env with
      | Some e =>
          (failure ("failed to send INITIATE_CLIENT_SESSION to relay: " ++ Error e),
           (opened ++ [ConnClose clientConn])%list)
      | None =>
          let asked :=
            (opened
             ++ [Log ("INFO: [Relay] Sent to relay: " ++ GoStr.TrimSpace cmdStr);
                 SetReadDeadline clientConn (Some 20);
                 ConnRead clientConn])%list in
          match recvResult env with
          | inr e =>
              (failure ("failed to read response from relay server: " ++ Error e),
               (asked ++ [ConnClose clientConn])%list)
          | inl raw =>
              let response := GoStr.TrimSpace raw in
              let '(res, tr) :=
                interpretResponse targetHostID relayControlAddr response
                                  (GoStr.Fields response) in
              (res,
               (asked
                ++ [SetReadDeadline clientConn None;
                    Log ("INFO: [Relay] Received from relay: " ++ response)]
                ++ tr ++ [ConnClose clientConn])%list)
          end
      end
  end.

End Client.

(** ** [tryGracefulShutdown] *)

(** Which case of the [select] fires: the goroutine running [GracefulStop]
    closes [stopped] first, or the timeout elapses first.  The argument
    [timeout] of the function is the duration as [%v] prints it. *)
Inductive stopRace : Type := StoppedFirst | TimeoutFirst.

Definition tryGracefulShutdown (s : server) (timeout : string) (race : stopRace)
  : server * bool * list event :=
  match grpcServer s with
  | None =>
      (s, false,
       [Log "INFO: gRPC server instance is nil, no shutdown needed or already stopped."])
  | Some _ =>
      let l0 := Log "INFO: Initiating graceful shutdown of gRPC server..." in
      match race with
      | StoppedFirst =>
          (with_grpcServer s (Some Stopped), true,
           [l0; GracefulStop; Log "INFO: gRPC server gracefully stopped."])
      | TimeoutFirst =>
          (with_grpcServer s (Some Stopped), true,
           [l0; GracefulStop;
            Log ("WARN: Graceful shutdown timed out after " ++ timeout ++ ". Forcing stop.");
            Stop;
            Log "INFO: gRPC server forcefully stopped."])
      end
  end.

(** ** [generateRandomHostID] *)

Module HostID.

Definition hextable : string := "0123456789abcdef".

Definition hexDigit (n : nat) : ascii :=
  match String.get n hextable with
  | Some c => c
  | None => "0"%char
  end.

(** [hex.EncodeToString]: two digits per byte, high nibble first. *)
Fixpoint EncodeToString (src : list Byte.byte) : string :=
  match src with
  | [] => ""
  | b :: rest =>
      let v := Byte.to_nat b in
      String (hexDigit (v / 16)) (String (hexDigit (v mod 16)) (EncodeToString rest))
  end.

(** What [crypto/rand.Read] does to the buffer: it fills every position
    (position [i] with [fill i]), or it fails; on failure the program
    reads the clock, [unixNano]. *)
Inductive randOutcome : Type :=
| RandOk (fill : nat -> Byte.byte)
| RandFails (err : error) (unixNano : Z).

Definition make (n : nat) : list Byte.byte := repeat Byte.x00 n.

Definition randRead (fill : nat -> Byte.byte) (buf : list Byte.byte) : list Byte.byte :=
  map fill (seq 0 (List.length buf)).

(** [None] is the panic of [make] on a negative length. *)
Definition generateRandomHostID (byteLength : Z) (r : randOutcome) : option string :=
  if (byteLength <? 0)%Z then None
  else
    let bytes := make (Z.to_nat byteLength) in
    match r with
    | RandFails _ unixNano =>
        Some ("randfail" ++ Fmt.d08 (Z.rem unixNano 100000000))
    | RandOk fill => Some (EncodeToString (randRead fill bytes))
    end.

Definition isHexDigit (c : ascii) : bool :=
  let n := nat_of_ascii c in
  ((48 <=? n) && (n <=? 57) || (97 <=? n) && (n <=? 102))%nat.

Fixpoint allHex (s : string) : bool :=
  match s with
  | EmptyString => true
  | String c s' => isHexDigit c && allHex s'
  end.

End HostID.

(** ** [getScaleFactors] *)

Section Scale.

(** Go's [float32], kept abstract: the literal [1.0], the conversion from
    an integer and the division. *)
Variable float32 : Type.
Variable one : float32.
Variable ofInt : Z -> float32.
Variable div : float32 -> float32 -> float32.

(** The fields of [pb.FeedRequest] that the function reads (both
    [int32]). *)
Record FeedRequest : Type := mkFeedRequest {
  clientWidth : Z;
  clientHeight : Z
}.

Definition getScaleFactors (serverWidth serverHeight : Z) (reqMsgInit : FeedRequest)
  : float32 * float32 :=
  if (clientWidth reqMsgInit =? 0)%Z || (clientHeight reqMsgInit =? 0)%Z then
    (one, one)
  else
    let scaleX := div (ofInt serverWidth) (ofInt (clientWidth reqMsgInit)) in
    let scaleY := div (ofInt serverHeight) (ofInt (clientHeight reqMsgInit)) in
    (scaleX, scaleY).

End Scale.

(** ** Start-up of the host process ([main], up to the launch of the
    goroutines)

    The log lines that only echo the permission and authentication flags
    are left out of the trace. *)

Section Main.

Record flags : Type := mkFlags {
  portFlag : Z;
  enableRelay : bool;
  relayServerAddr : string;
  hostIDFlag : string;
  sessionPasswordFlag : string;
  headless : bool;
  allowMouseControlFlag : bool;
  allowKeyboardControlFlag : bool;
  allowFileSystemAccessFlag : bool;
  allowTerminalAccessFlag : bool
}.

(** What start-up meets: the randomness for an auto-generated identity,
    the result of [net.Listen] (the bound address or an error), the
    addresses found by [getDisplayableListenAddresses], and the result of
    loading the TLS credentials. *)
Record startEnv : Type := mkStartEnv {
  rand : HostID.randOutcome;
  listenResult : string + error;
  displayableListenAddrs : list string;
  tlsResult : option error
}.

Inductive startup : Type :=
| Fatal (tr : list event)                              (* [log.Fatalf] *)
| Started (s : server) (g : gui) (initialHostID : string) (tr : list event).

Definition initialHostIDOf (f : flags) (env : startEnv) : string * list event :=
  if (GoStr.ToLower (hostIDFlag f) =? "auto") || (hostIDFlag f =? "") then
    let id := match HostID.generateRandomHostID 4 (rand env) with
              | Some id => id
              | None => ""
              end in
    (id, [Log ("INFO: Auto-generated initial Host ID: " ++ id)])
  else
    (hostIDFlag f, [Log ("INFO: Using provided initial Host ID: " ++ hostIDFlag f)]).

Definition directConnectDisplay (addrs : list string) (localGrpcAddr : string) : string :=
  match addrs with
  | [] => "Connect directly (listening on " ++ localGrpcAddr ++ ")"
  | [a] => "Connect directly via: " ++ a
  | a :: _ =>
      let displayLimit := Nat.min (List.length addrs) 3 in
      let otherIPs := GoStr.Join (firstn (displayLimit - 1) (skipn 1 addrs)) ", " in
      let otherIPs' :=
        if (displayLimit <? List.length addrs)%nat then otherIPs ++ ", ..." else otherIPs in
      "Connect directly via: " ++ a ++ " (or other local IPs like " ++ otherIPs' ++ ")"
  end.

(** The events of the block [if !*headlessFlag { ... }] that sets up the
    window. *)
Definition guiSetup (f : flags) (localGrpcAddr initialHostID : string)
    (addrs : list string) : list event :=
  if enableRelay f then
    [SetText HostIDDisplay "Registering with Relay server...";
     SetText RelayStatus ("Relay: Connecting to " ++ relayServerAddr f ++ "...")]
  else
    let display := directConnectDisplay addrs localGrpcAddr in
    [SetText HostIDDisplay display;
     SetText WindowTitle ("gRPC Server (Direct Mode) - Port " ++ Fmt.d (portFlag f));
     Stdout (effectiveHostIDPrefix ++ initialHostID ++ String "010" "");
     Log ("INFO: Server in direct mode. Internal Host ID: " ++ initialHostID ++ ". "
          ++ display)].

(** The events of the block after it, common to both modes. *)
Definition commonSetup (f : flags) (initialHostID allListenAddrLog : string)
  : list event :=
  if negb (enableRelay f) then
    [Stdout (effectiveHostIDPrefix ++ initialHostID ++ String "010" "");
     Log ("INFO: Effective Host ID (direct mode): " ++ initialHostID ++ ". Listening on: "
          ++ allListenAddrLog)]
  else if headless f then
    [Log "INFO: Server in relay mode (headless). Waiting for relay registration to print Host ID."]
  else [].

Definition main_startup (f : flags) (env : startEnv) : startup :=
  let '(initialHostID, tr0) := initialHostIDOf f env in
  let tr1 :=
    (tr0 ++ [Log (if sessionPasswordFlag f =? ""
                  then "INFO: Session password protection is DISABLED."
                  else "INFO: Session password protection is ENABLED.")])%list in
  match listenResult env with
  | inr e =>
      Fatal (tr1 ++ [Log ("FATAL: Failed to listen on port " ++ Fmt.d (portFlag f) ++ ": "
                          ++ Error e)])
  | inl addr =>
      let addrs := displayableListenAddrs env in
      let allListenAddrLog :=
        match addrs with
        | [] => addr
        | _ => GoStr.Join addrs " | "
        end in
      let tr2 :=
        (tr1 ++ [Log ("INFO: Local gRPC server initially bound to " ++ addr ++ " (port "
                      ++ Fmt.d (portFlag f) ++ ")")])%list in
      match tlsResult env with
      | Some e =>
          Fatal (tr2 ++ [Log ("FATAL: Cannot load TLS credentials: " ++ Error e)])
      | None =>
          let s := mkServer addr (sessionPasswordFlag f)
                            (if negb (headless f) && negb (enableRelay f)
                             then initialHostID else "")
                            (Some Serving) true true true true in
          let shown := negb (headless f) in
          Started s (mkGui (headless f) shown shown shown) initialHostID
            (tr2
             ++ (if negb (headless f) then guiSetup f addr initialHostID addrs else [])
             ++ commonSetup f initialHostID allListenAddrLog)
      end
  end.

(** The text the process has written to its standard output. *)
Fixpoint stdout (tr : list event) : list string :=
  match tr with
  | [] => []
  | Stdout text :: tr' => text :: stdout tr'
  | _ :: tr' => stdout tr'
  end.

End Main.

(** ** Observations on traces *)

Definition connId_eqb (a b : connId) : bool :=
  match a, b with
  | controlConn, controlConn
  | hostProxyConn, hostProxyConn
  | localServiceConn, localServiceConn
  | clientConn, clientConn => true
  | _, _ => false
  end.

(** What has been written on connection [c], in order. *)
Fixpoint writes (c : connId) (tr : list event) : list string :=
  match tr with
  | [] => []
  | ConnWrite c' data :: tr' =>
      if connId_eqb c c' then data :: writes c tr' else writes c tr'
  | _ :: tr' => writes c tr'
  end.

(** How often connection [c] has been read. *)
Fixpoint reads (c : connId) (tr : list event) : nat :=
  match tr with
  | [] => 0
  | ConnRead c' :: tr' => (if connId_eqb c c' then 1 else 0) + reads c tr'
  | _ :: tr' => reads c tr'
  end.

Definition isLog (e : event) : bool :=
  match e with
  | Log _ => true
  | _ => false
  end.

Definition onlyLogs (tr : list event) : bool := forallb isLog tr.

(** The lines the specification says are logged and ignored, by their
    fields: a [CREATE_TUNNEL] with fewer than 3 fields or before an identity
    is assigned, a [VERIFY_PASSWORD_REQUEST] with fewer than 2 fields, an
    unknown command. *)
Definition ignoredLine (s : server) (parts : list string) : bool :=
  match parts with
  | [] => false
  | command :: _ =>
      if command =? "CREATE_TUNNEL" then
        (List.length parts <? 3)%nat || (currentRelayHostID s =? "")
      else if command =? "VERIFY_PASSWORD_REQUEST" then (List.length parts <? 2)%nat
      else negb (command =? "HOST_REGISTERED")
  end.

(** ** What the caller of [connectViaRelay] can tell from its results *)

Inductive outcome : Type :=
| Success (relayDataAddr token : string)
| HostNotFound
| AuthenticationFailed
| TransportOrProtocolError.

(** The outcome as read off the returned values alone: the flag, and on a
    failure the text of the error. *)
Definition classify (r : relayResult) : outcome :=
  if connected r then Success (relayDataAddrForClient r) (sessionToken r)
  else
    match err r with
    | None => TransportOrProtocolError
    | Some e =>
        if GoStr.HasPrefix (Error e) "relay server reported HostID '" then HostNotFound
        else if GoStr.HasPrefix (Error e) "authentication failed for HostID '" then
          AuthenticationFailed
        else TransportOrProtocolError
    end.

(** The outcome as the specification describes it, from what the relay
    did: success on a well-formed [SESSION_READY], the two named failures on
    the relay's two error responses, a transport or protocol error on
    anything else. *)
Definition specOutcome
    (SplitHostPort : string -> (string * string) + error)
    (JoinHostPort : string -> string -> string)
    (env : relayEnv) (relayControlAddr : string) : outcome :=
  match dialResult env, sendResult env, recvResult env with
  | None, None, inl raw =>
      match GoStr.Fields (GoStr.TrimSpace raw) with
      | [] => TransportOrProtocolError
      | command :: args =>
          if command =? "SESSION_READY" then
            match args, SplitHostPort relayControlAddr with
            | port :: token :: _, inl (host, _) => Success (JoinHostPort host port) token
            | _, _ => TransportOrProtocolError
            end
          else if command =? "ERROR_HOST_NOT_FOUND" then HostNotFound
          else if command =? "ERROR_AUTHENTICATION_FAILED" then AuthenticationFailed
          else TransportOrProtocolError
      end
  | _, _, _ => TransportOrProtocolError
  end.

(** ** Sample environments, for running the model *)

Module Sample.

(** [net.JoinHostPort]. *)
Definition JoinHostPort (host port : string) : string :=
  if GoStr.Contains host ":" || GoStr.Contains host "%"
  then "[" ++ host ++ "]:" ++ port
  else host ++ ":" ++ port.

Fixpoint splitLastColon (s : string) : option (string * string) :=
  match s with
  | EmptyString => None
  | String c s' =>
      match splitLastColon s' with
      | Some (h, p) => Some (String c h, p)
      | None => if Ascii.eqb c ":" then Some ("", s') else None
      end
  end.

(** [net.SplitHostPort] on addresses of the form host:port without
    brackets. *)
Definition SplitHostPort (hostport : string) : (string * string) + error :=
  match splitLastColon hostport with
  | Some hp => inl hp
  | None => inr (errorString ("address " ++ hostport ++ ": missing port in address"))
  end.

(** A stand-in for bcrypt: the hash of [p] is ["hash:" ++ p]. *)
Definition CompareHashAndPassword (hash password : string) : option error :=
  if hash =? "hash:" ++ password then None
  else Some (errorString
               "crypto/bcrypt: hashedPassword is not the hash of the given password").

Definition relayAddr : string := "relay.example:34000".
Definition localAddr : string := "[::]:32212".

Definition headlessGui : gui := mkGui true false false false.
Definition windowGui : gui := mkGui false true true true.

(** A host that has registered as [host1]; [hash] is its password hash. *)
Definition registered (hash : string) : server :=
  mkServer localAddr hash "host1" (Some Serving) true true true true.

Definition unregistered : server :=
  mkServer localAddr "" "" (Some Serving) true true true true.

Definition quietTunnelEnv : tunnelEnv :=
  mkTunnelEnv (inl "203.0.113.5:40000") None None "".

End Sample.

(** ** More observations on the registration loop *)

(** The events of a run of a loop, however it stopped. *)
Definition traceOf (r : loopResult) : list event :=
  match r with
  | LoopWaiting _ tr => tr
  | LoopEnded _ tr => tr
  | LoopCrashed tr => tr
  end.

(** The addresses dialled, in order. *)
Fixpoint dials (tr : list event) : list string :=
  match tr with
  | [] => []
  | Dial addr :: tr' => addr :: dials tr'
  | _ :: tr' => dials tr'
  end.

(** The seconds slept, in order. *)
Fixpoint sleeps (tr : list event) : list nat :=
  match tr with
  | [] => []
  | Sleep n :: tr' => n :: sleeps tr'
  | _ :: tr' => sleeps tr'
  end.

(** The identity a line with fields [parts] assigns, if it is a
    [HOST_REGISTERED] with an identity. *)
Definition assignedBy (parts : list string) : option string :=
  match parts with
  | command :: id :: _ => if command =? "HOST_REGISTERED" then Some id else None
  | _ => None
  end.

Definition registeredIdOf (raw : string) : option string :=
  assignedBy (GoStr.Fields (GoStr.TrimSpace raw)).

(** The identities assigned by the lines read before the first read
    error. *)
Fixpoint registeredIds (input : list tick) : list string :=
  match input with
  | [] => []
  | t :: rest =>
      match rd t with
      | ReadErr _ => []
      | ReadLine raw =>
          match registeredIdOf raw with
          | Some id => id :: registeredIds rest
          | None => registeredIds rest
          end
      end
  end.

Definition identityLine (id : string) : string :=
  effectiveHostIDPrefix ++ id ++ String "010" "".

(** The two kinds of line the host ever sends to the relay. *)
Definition hostControlLine (hint w : string) : Prop :=
  w = "REGISTER_HOST " ++ hint ++ String "010" ""
  \/ exists token verdict,
       w = "VERIFY_PASSWORD_RESPONSE " ++ token ++ " " ++ Fmt.t verdict ++ String "010" "".

(** Everything one pass through the switch of the registration loop can
    do, for a line with fields [parts] met in state [s]: the identity and
    standard output change only on a [HOST_REGISTERED] with an identity, at
    most one password response is written, at most one tunnel is launched
    (by a registered host, for a [CREATE_TUNNEL]), and a panic needs the
    window and a token shorter than six bytes. *)
Definition passEffects
    (SplitHostPort : string -> (string * string) + error)
    (JoinHostPort : string -> string -> string)
    (g : gui) (relayCtrlAddrFull localGrpcSvcAddr : string)
    (s : server) (parts : list string) (r : stepResult) : Prop :=
  match r with
  | Next s' tr =>
      match assignedBy parts with
      | Some id => s' = with_currentRelayHostID s id /\ stdout tr = [identityLine id]
      | None => s' = s /\ stdout tr = []
      end
      /\ (writes controlConn tr = []
          \/ exists token verdict,
               writes controlConn tr
               = ["VERIFY_PASSWORD_RESPONSE " ++ token ++ " " ++ Fmt.t verdict
                  ++ String "010" ""])
      /\ (launched tr = []
          \/ currentRelayHostID s <> ""
             /\ exists port token rest host p,
                  parts = "CREATE_TUNNEL" :: port :: token :: rest
                  /\ SplitHostPort relayCtrlAddrFull = inl (host, p)
                  /\ launched tr
                     = [(localGrpcSvcAddr, JoinHostPort host port, token,
                         currentRelayHostID s)])
      /\ dials tr = [] /\ sleeps tr = []
  | Crash tr =>
      relayLabelShown g = true
      /\ (exists port token rest,
            parts = "CREATE_TUNNEL" :: port :: token :: rest
            /\ String.length token < 6)
      /\ stdout tr = [] /\ writes controlConn tr = [] /\ launched tr = []
      /\ dials tr = [] /\ sleeps tr = []
  end.

(** A [CREATE_TUNNEL] line whose session token has fewer than six bytes. *)
Definition shortTokenLine (raw : string) : bool :=
  match GoStr.Fields (GoStr.TrimSpace raw) with
  | command :: _ :: token :: _ =>
      (command =? "CREATE_TUNNEL") && (String.length token <? 6)%nat
  | _ => false
  end.

(** ** Reading a hexadecimal identity back

    The program never decodes an identity; the decoder below is the inverse
    of [HostID.EncodeToString] and serves to show that the encoding loses
    nothing. *)

Definition hexValue (c : ascii) : nat :=
  let n := nat_of_ascii c in
  if ((48 <=? n) && (n <=? 57))%nat then n - 48
  else if ((97 <=? n) && (n <=? 102))%nat then n - 87
  else 0.

Fixpoint DecodeString (s : string) : option (list Byte.byte) :=
  match s with
  | EmptyString => Some []
  | String hi (String lo rest) =>
      match Byte.of_nat (16 * hexValue hi + hexValue lo), DecodeString rest with
      | Some b, Some bs => Some (b :: bs)
      | _, _ => None
      end
  | String _ EmptyString => None
  end.

(** ** More of Go's [strings] package *)

Module GoStrMore.

(** The slice expression [s[n:]] for [n <= len(s)]. *)
Fixpoint sliceFrom (s : string) (n : nat) {struct n} : string :=
  match n with
  | O => s
  | S n' =>
      match s with
      | EmptyString => EmptyString
      | String _ s' => sliceFrom s' n'
      end
  end.

(** [strings.TrimPrefix s prefix]. *)
Definition TrimPrefix (s prefix : string) : string :=
  if GoStr.HasPrefix s prefix then sliceFrom s (String.length prefix) else s.

Fixpoint isAscii (s : string) : bool :=
  match s with
  | EmptyString => true
  | String c s' => (nat_of_ascii c <? 128)%nat && isAscii s'
  end.

(** [strings.ContainsAny s chars]. *)
Fixpoint ContainsAny (s chars : string) : bool :=
  match s with
  | EmptyString => false
  | String c s' =>
      existsb (Ascii.eqb c) (list_ascii_of_string chars) || ContainsAny s' chars
  end.

(** The constant cases of a [switch] on a string. *)
Definition oneOf (x : string) (cases : list string) : bool :=
  existsb (String.eqb x) cases.

End GoStrMore.

(** ** Keyboard input on the host ([mapFyneKeyToRobotGo],
    [processKeyboardInput]) *)

(** The calls into the input-injection library. *)
Inductive robot : Type :=
| KeyToggle (key dir : string)
| KeyTap (key : string)
| TypeStr (text : string)
| Move (x y : Z)
| MouseDown (btn : string)
| MouseUp (btn : string)
| ScrollDir (n : Z) (direction : string).

(** What input handling does, in order: log lines and library calls. *)
Inductive effect : Type :=
| Say (msg : string)
| Do (call : robot).

Fixpoint robots (l : list effect) : list robot :=
  match l with
  | [] => []
  | Do call :: l' => call :: robots l'
  | Say _ :: l' => robots l'
  end.

Module Keys.
Import GoStrMore.

Definition isUpperOrDigit (c : ascii) : bool :=
  let n := nat_of_ascii c in
  ((65 <=? n) && (n <=? 90) || (48 <=? n) && (n <=? 57))%nat.

(** The [default] case of the switch. *)
Definition mapDefault (fyneKeyName : string) : string * bool * list effect :=
  let keyChar :=
    if GoStr.HasPrefix fyneKeyName "Key" && (String.length fyneKeyName =? 4)%nat then
      let char := sliceFrom fyneKeyName 3 in
      match char with
      | String c0 _ =>
          if (String.length char =? 1)%nat && isUpperOrDigit c0 then Some char else None
      | EmptyString => None
      end
    else None in
  match keyChar with
  | Some char => (GoStr.ToLower char, false, [])
  | None =>
      if (String.length fyneKeyName =? 1)%nat then (GoStr.ToLower fyneKeyName, false, [])
      else
        (GoStr.ToLower fyneKeyName, false,
         if negb (fyneKeyName =? "")
         then [Say ("Unhandled Fyne key name for mapping: '" ++ fyneKeyName ++ "'")]
         else [])
  end.

(** The key name for the injection library, whether the key is special,
    and what is logged. *)
Definition mapFyneKeyToRobotGo (fyneKeyName : string) : string * bool * list effect :=
  let among := oneOf fyneKeyName in
  if among ["Return"; "Enter"] then ("enter", true, [])
  else if among ["Space"] then ("space", true, [])
  else if among ["Backspace"] then ("backspace", true, [])
  else if among ["Delete"] then ("delete", true, [])
  else if among ["Tab"] then ("tab", true, [])
  else if among ["Escape"] then ("escape", true, [])
  else if among ["Up"] then ("up", true, [])
  else if among ["Down"] then ("down", true, [])
  else if among ["Left"] then ("left", true, [])
  else if among ["Right"] then ("right", true, [])
  else if among ["Home"] then ("home", true, [])
  else if among ["End"] then ("end", true, [])
  else if among ["PageUp"] then ("pageup", true, [])
  else if among ["PageDown"] then ("pagedown", true, [])
  else if among ["ShiftL"; "LeftShift"; "ShiftR"; "RightShift"] then ("shift", true, [])
  else if among ["ControlL"; "LeftControl"; "ControlR"; "RightControl"] then ("ctrl", true, [])
  else if among ["AltL"; "LeftAlt"; "AltR"; "RightAlt"; "Menu"] then ("alt", true, [])
  else if among ["SuperL"; "LeftSuper"; "SuperR"; "RightSuper"; "MetaL"; "MetaR"] then
    ("cmd", true, [])
  else if among ["F1"] then ("f1", true, [])
  else if among ["F2"] then ("f2", true, [])
  else if among ["F3"] then ("f3", true, [])
  else if among ["F4"] then ("f4", true, [])
  else if among ["F5"] then ("f5", true, [])
  else if among ["F6"] then ("f6", true, [])
  else if among ["F7"] then ("f7", true, [])
  else if among ["F8"] then ("f8", true, [])
  else if among ["F9"] then ("f9", true, [])
  else if among ["F10"] then ("f10", true, [])
  else if among ["F11"] then ("f11", true, [])
  else if among ["F12"] then ("f12", true, [])
  else if among ["Num0"; "Num1"; "Num2"; "Num3"; "Num4"; "Num5"; "Num6"; "Num7"; "Num8"; "Num9"]
  then (GoStr.ToLower (TrimPrefix fyneKeyName "Num"), true, [])
  else if among ["NumLock"] then ("numlock", true, [])
  else if among ["NumEnter"] then ("enter", true, [])
  else if among ["NumAdd"; "NumpadAdd"] then ("+", true, [])
  else if among ["NumSubtract"; "NumpadSubtract"] then ("-", true, [])
  else if among ["NumMultiply"; "NumpadMultiply"] then ("*", true, [])
  else if among ["NumDivide"; "NumpadDivide"] then ("/", true, [])
  else if among ["NumDecimal"; "NumpadDecimal"] then (".", true, [])
  else mapDefault fyneKeyName.

(** The keyboard fields of a [pb.FeedRequest]. *)
Record keyEvent : Type := mkKeyEvent {
  keyboardEventType : string;
  keyName : string;
  keyCharStr : string;
  modifierShift : bool;
  modifierCtrl : bool;
  modifierAlt : bool;
  modifierSuper : bool
}.

Definition isModifierKey (robotgoKeyName : string) : bool :=
  (robotgoKeyName =? "shift") || (robotgoKeyName =? "ctrl")
  || (robotgoKeyName =? "alt") || (robotgoKeyName =? "cmd").

Definition processKeyboardInput (reqMsg : keyEvent) : list effect :=
  let kbEventType := keyboardEventType reqMsg in
  let fyneKeyName := keyName reqMsg in
  let keyChar := keyCharStr reqMsg in
  let received :=
    Say ("Received KeyboardEvent: Type='" ++ kbEventType ++ "', FyneKeyName='" ++ fyneKeyName
         ++ "', KeyChar='" ++ keyChar ++ "', Modifiers: Shift[" ++ Fmt.t (modifierShift reqMsg)
         ++ "], Ctrl[" ++ Fmt.t (modifierCtrl reqMsg) ++ "], Alt[" ++ Fmt.t (modifierAlt reqMsg)
         ++ "], Super[" ++ Fmt.t (modifierSuper reqMsg) ++ "]") in
  let '(robotgoKeyName, isSpecial, mapLog) := mapFyneKeyToRobotGo fyneKeyName in
  let mapped :=
    if negb (fyneKeyName =? "")
    then [Say ("Mapped FyneKeyName '" ++ fyneKeyName ++ "' to robotgoKeyName '"
               ++ robotgoKeyName ++ "' (isSpecial: " ++ Fmt.t isSpecial ++ ")")]
    else [] in
  let action :=
    if (kbEventType =? "keydown") && (robotgoKeyName =? "delete")
       && modifierCtrl reqMsg && modifierAlt reqMsg
    then
      [Say "Action: Simulating Ctrl+Alt+Delete";
       Do (KeyToggle "ctrl" "down"); Do (KeyToggle "alt" "down");
       Do (KeyTap "delete");
       Do (KeyToggle "alt" "up"); Do (KeyToggle "ctrl" "up")]
    else if kbEventType =? "keydown" then
      if negb (robotgoKeyName =? "") then
        if isModifierKey robotgoKeyName then
          [Say ("Action: Modifier '" ++ robotgoKeyName ++ "' pressed down");
           Do (KeyToggle robotgoKeyName "down")]
        else if isSpecial then
          [Say ("Action: Tapping special key '" ++ robotgoKeyName ++ "'");
           Do (KeyTap robotgoKeyName)]
        else
          [Say ("Action: Tapping key '" ++ robotgoKeyName ++ "'");
           Do (KeyTap robotgoKeyName)]
      else if negb (keyChar =? "") then
        [Say ("Action: Typing character from keyChar on keydown '" ++ keyChar ++ "'");
         Do (TypeStr keyChar)]
      else [Say "Action: Ignoring keydown event with empty robotgoKeyName and KeyChar."]
    else if kbEventType =? "keyup" then
      if negb (robotgoKeyName =? "") then
        if isModifierKey robotgoKeyName then
          [Say ("Action: Modifier '" ++ robotgoKeyName ++ "' released");
           Do (KeyToggle robotgoKeyName "up")]
        else
          [Say ("Action: Ignoring non-modifier keyup for '" ++ robotgoKeyName
                ++ "' (handled by KeyTap on keydown)")]
      else [Say "Action: Ignoring keyup event with empty robotgoKeyName."]
    else if kbEventType =? "keychar" then
      if negb (keyChar =? "") then
        [Say ("Action: Typing character from keychar event '" ++ keyChar ++ "'");
         Do (TypeStr keyChar)]
      else [Say "Action: Ignoring keychar event with empty KeyChar."]
    else [Say ("Action: Unhandled keyboard event type: '" ++ kbEventType ++ "'")] in
  (received :: mapLog ++ mapped ++ action)%list.

End Keys.

(** ** Input events on the host ([handleInputEvents]) *)

Section InputEvents.

(** Go's [float32] again, with what input handling needs: conversion from
    and to integers, multiplication, negation, the tests [> 0] and [< 0],
    and the text of the verb [%.2f]. *)
Variable float32 : Type.
Variable ofInt : Z -> float32.
Variable toInt : float32 -> Z.
Variable mul : float32 -> float32 -> float32.
Variable neg : float32 -> float32.
Variable gt0 lt0 : float32 -> bool.
Variable fmt2f : float32 -> string.

(** The fields of a [pb.FeedRequest] that input handling reads.  A
    [nil] entry of [BatchedMouseMoves] is [None]. *)
Record inputRequest : Type := mkInputRequest {
  message : string;
  mouseX : Z;
  mouseY : Z;
  mouseBtn : string;
  mouseEventType : string;
  scrollX : float32;
  scrollY : float32;
  batchedMouseMoves : list (option (Z * Z));
  keys : Keys.keyEvent
}.

Definition scaled (v : Z) (scale : float32) : Z := toInt (mul (ofInt v) scale).

(** The call [robotgo.Move(int(float32(x)*scaleX), int(float32(y)*scaleY))]
    for a point. *)
Definition hostMove (scaleX scaleY : float32) (point : Z * Z) : robot :=
  Move (scaled (fst point) scaleX) (scaled (snd point) scaleY).

(** The loop over the points of a batch. *)
Fixpoint moveBatch (points : list (option (Z * Z))) (scaleX scaleY : float32)
  : list effect :=
  match points with
  | [] => []
  | None :: rest => moveBatch rest scaleX scaleY
  | Some (x, y) :: rest =>
      Do (Move (scaled x scaleX) (scaled y scaleY)) :: moveBatch rest scaleX scaleY
  end.

Definition scrollEffects (reqMsg : inputRequest) : list effect :=
  let sx := scrollX reqMsg in
  let sy := scrollY reqMsg in
  (if gt0 sx then [Do (ScrollDir (toInt sx) "right")]
   else if lt0 sx then [Do (ScrollDir (toInt (neg sx)) "left")]
   else [])
  ++ (if gt0 sy then [Do (ScrollDir (toInt sy) "down")]
      else if lt0 sy then [Do (ScrollDir (toInt (neg sy)) "up")]
      else [])
  ++ [Say ("Handled scroll event: dX=" ++ fmt2f sx ++ ", dY=" ++ fmt2f sy)].

(** Case [mouse_event] of the switch. *)
Definition mouseEffects (reqMsg : inputRequest) (scaleX scaleY : float32) : list effect :=
  let eventType := mouseEventType reqMsg in
  let btn := mouseBtn reqMsg in
  if eventType =? "batched_mouse_moves" then
    match batchedMouseMoves reqMsg with
    | [] => [Say "'batched_mouse_moves' received, but the batch contains no points."]
    | points =>
        Say ("Received and processing 'batched_mouse_moves' with "
             ++ Fmt.decimal (List.length points) ++ " points.")
        :: moveBatch points scaleX scaleY
    end
  else
    Do (Move (scaled (mouseX reqMsg) scaleX) (scaled (mouseY reqMsg) scaleY))
    :: (if eventType =? "down" then [Do (MouseDown btn)]
        else if eventType =? "up" then [Do (MouseUp btn)]
        else if eventType =? "scroll" then scrollEffects reqMsg
        else if eventType =? "move" then []
        else if negb (eventType =? "in") && negb (eventType =? "out") then
          [Say ("Received unhandled mouse event type: " ++ eventType)]
        else []).

(** The body of the loop for one request taken from the channel. *)
Definition handleInputEvent (s : server) (reqMsg : inputRequest)
    (scaleX scaleY : float32) : list effect :=
  if (message reqMsg =? "mouse_event") && negb (allowMouseControl s) then
    let isBatched :=
      (mouseEventType reqMsg =? "batched_mouse_moves")
      && (0 <? List.length (batchedMouseMoves reqMsg))%nat in
    [Say ("Mouse event (type: " ++ mouseEventType reqMsg ++ ", batched: " ++ Fmt.t isBatched
          ++ ") ignored: Mouse control denied by host permissions.")]
  else if message reqMsg =? "mouse_event" then mouseEffects reqMsg scaleX scaleY
  else if message reqMsg =? "keyboard_event" then
    Say ("DEBUG: [handleInputEvents] Forwarding to processKeyboardInput. Type: '"
         ++ Keys.keyboardEventType (keys reqMsg) ++ "', KeyName: '"
         ++ Keys.keyName (keys reqMsg) ++ "', KeyChar: '"
         ++ Keys.keyCharStr (keys reqMsg) ++ "'")
    :: Keys.processKeyboardInput (keys reqMsg)
  else [Say ("Unknown input event message type: " ++ message reqMsg)].

(** [handleInputEvents], over the requests the channel delivers until it
    is closed. *)
Definition handleInputEvents (s : server) (inputEvents : list inputRequest)
    (scaleX scaleY : float32) : list effect :=
  (Say "Input event handler goroutine started."
   :: flat_map (fun reqMsg => handleInputEvent s reqMsg scaleX scaleY) inputEvents
   ++ [Say "Input event handler goroutine stopped."])%list.

End InputEvents.

Definition isKeyboardCall (call : robot) : bool :=
  match call with
  | KeyToggle _ _ | KeyTap _ | TypeStr _ => true
  | _ => false
  end.

Definition isPointerMove (call : robot) : bool :=
  match call with
  | Move _ _ => true
  | _ => false
  end.

(** ** The feed service: channel, receiver and screen sender *)

Module Feed.

(** The gRPC status codes the code tests for, and the errors a stream
    call returns: [io.EOF], an error carrying a gRPC status, or another
    error. *)
Inductive code : Type := Canceled | Unavailable | InvalidArgument | Internal | OtherCode.

Inductive streamErr : Type :=
| StreamEOF
| StatusErr (c : code) (msg : string)    (* [msg] is what [Error()] returns *)
| PlainErr (msg : string).

Definition errorText (e : streamErr) : string :=
  match e with
  | StreamEOF => "EOF"
  | StatusErr _ msg => msg
  | PlainErr msg => msg
  end.

Definition codeName (c : code) : string :=
  match c with
  | Canceled => "Canceled"
  | Unavailable => "Unavailable"
  | InvalidArgument => "InvalidArgument"
  | Internal => "Internal"
  | OtherCode => "Unknown"
  end.

(** [status.Errorf(c, desc)]. *)
Definition statusErrorf (c : code) (desc : string) : streamErr :=
  StatusErr c ("rpc error: code = " ++ codeName c ++ " desc = " ++ desc).

(** The test [ok && (s.Code() == codes.Canceled || s.Code() == codes.Unavailable)]
    after [status.FromError]. *)
Definition canceledOrUnavailable (e : streamErr) : bool :=
  match e with
  | StatusErr Canceled _ | StatusErr Unavailable _ => true
  | _ => false
  end.

(** The capacity of the channel [GetFeed] makes. *)
Definition inputEventsCapacity : nat := 120.

(** [select { case ch <- x: default: }] on a buffered channel holding
    [q]: the value is queued unless the buffer is full. *)
Definition trySend {A : Type} (capacity : nat) (q : list A) (x : A) : list A * bool :=
  if (List.length q <? capacity)%nat then ((q ++ [x])%list, true) else (q, false).

(** What happens around the channel while [receiveInputEvents] runs: a
    request arrives from the stream, or the handler goroutine takes the
    oldest queued request. *)
Inductive chanStep (A : Type) : Type :=
| Arrives (reqMsg : A)
| Taken.
Arguments Arrives {A} reqMsg.
Arguments Taken {A}.

Record chanRun (A : Type) : Type := mkChanRun {
  delivered : list A;      (* taken by the handler, oldest first *)
  queued : list A;         (* still in the channel *)
  dropped : list A;        (* met a full channel *)
  said : list string
}.
Arguments mkChanRun {A}.
Arguments delivered {A}.
Arguments queued {A}.
Arguments dropped {A}.
Arguments said {A}.

(** The loop of [receiveInputEvents], interleaved with the handler. *)
Fixpoint pump {A : Type} (capacity : nat) (q : list A) (steps : list (chanStep A))
  : chanRun A :=
  match steps with
  | [] => mkChanRun [] q [] []
  | Taken :: rest =>
      match q with
      | [] => pump capacity q rest
      | x :: q' =>
          let r := pump capacity q' rest in
          mkChanRun (x :: delivered r) (queued r) (dropped r) (said r)
      end
  | Arrives reqMsg :: rest =>
      match trySend capacity q reqMsg with
      | (q', true) => pump capacity q' rest
      | (q', false) =>
          let r := pump capacity q' rest in
          mkChanRun (delivered r) (queued r) (reqMsg :: dropped r)
                    ("Input event channel full, dropping event." :: said r)
      end
  end.

(** [receiveInputEvents]: it pumps until [stream.Recv] fails with
    [recvErr], logs and returns that error. *)
Definition receiveInputEvents {A : Type} (steps : list (chanStep A)) (recvErr : streamErr)
    (capacity : nat) : chanRun A * streamErr :=
  let r := pump capacity [] steps in
  let reason :=
    match recvErr with
    | StreamEOF => "Client closed the stream (EOF in receiveInputEvents)."
    | _ =>
        if canceledOrUnavailable recvErr
        then "Stream canceled or unavailable in receiveInputEvents: " ++ errorText recvErr
        else "Error receiving input event from stream: " ++ errorText recvErr
    end in
  (mkChanRun (delivered r) (queued r) (dropped r)
             ("Input event receiver goroutine started."
              :: said r ++ [reason; "Input event receiver goroutine stopped."])%list,
   recvErr).

(** What [GetFeed] returns once [receiveInputEvents] has returned
    [receiveErr]. *)
Definition GetFeed_result (receiveErr : streamErr) : option streamErr :=
  if canceledOrUnavailable receiveErr then None
  else
    match receiveErr with
    | StreamEOF => None
    | _ => Some receiveErr
    end.

(** [int32] arithmetic wraps around. *)
Definition wrapInt32 (z : Z) : Z := ((z + 2147483648) mod 4294967296 - 2147483648)%Z.

Inductive frameRead : Type :=
| FrameData (data : list Byte.byte)     (* [n] is the length of [data] *)
| FrameEOF
| FrameErr (msg : string).

Inductive sendResult : Type :=
| Sent
| SendFails (e : streamErr).

(** One turn of the [select] in [sendScreenFeed]: the ticker fires (with
    what [ReadFrame] and, if it comes to that, [stream.Send] return), or the
    stream's context is done. *)
Inductive feedTurn : Type :=
| Tick (r : frameRead) (s : sendResult)
| ContextDone.

Record frame : Type := mkFrame {
  frameData : list Byte.byte;
  frameNumber : Z;
  contentType : string
}.

(** The loop of [sendScreenFeed] from counter [frameCounter]: the frames it
    hands to [stream.Send], and its result when it returns ([None] while
    it is still running). *)
Fixpoint sendScreenFeed (frameCounter : Z) (turns : list feedTurn)
  : list frame * option (option streamErr) :=
  match turns with
  | [] => ([], None)
  | ContextDone :: _ => ([], Some None)
  | Tick FrameEOF _ :: _ => ([], Some (Some (statusErrorf Internal "Screen capture source EOF")))
  | Tick (FrameErr _) _ :: rest => sendScreenFeed frameCounter rest
  | Tick (FrameData data) s :: rest =>
      match data with
      | [] => sendScreenFeed frameCounter rest
      | _ =>
          let f := mkFrame data frameCounter "video/mp2t" in
          match s with
          | Sent =>
              let '(frames, result) := sendScreenFeed (wrapInt32 (frameCounter + 1)) rest in
              (f :: frames, result)
          | SendFails e =>
              if canceledOrUnavailable e then ([f], Some None)
              else ([f], Some (Some (statusErrorf Internal
                                       ("Failed to send frame: " ++ errorText e))))
          end
      end
  end.

End Feed.

(** Order-preserving selection: [subseq a b] when [a] is [b] with some
    elements left out. *)
Inductive subseq {A : Type} : list A -> list A -> Prop :=
| subseq_nil : subseq [] []
| subseq_keep x a b : subseq a b -> subseq (x :: a) (x :: b)
| subseq_skip x a b : subseq a b -> subseq a (x :: b).

(** The requests among the steps, in order of arrival. *)
Fixpoint arrivals {A : Type} (steps : list (Feed.chanStep A)) : list A :=
  match steps with
  | [] => []
  | Feed.Arrives x :: rest => x :: arrivals rest
  | Feed.Taken :: rest => arrivals rest
  end.

(** ** The launcher: starting the client and reading the host's output *)

Module Launcher.
Import GoStrMore.

(** [launchClientApplication]: the arguments the client is started with. *)
Definition clientArgs (targetAddress : string) (isRelayConn : bool) (sessionToken : string)
    (allowLocalInsecure : bool) : list string :=
  ["-address=" ++ targetAddress]
  ++ (if isRelayConn then ["-connectionType=relay"; "-sessionToken=" ++ sessionToken] else [])
  ++ (if allowLocalInsecure then ["-allowLocalInsecure=true"] else []).

(** The test that sends an input to a direct connection. *)
Definition isPotentiallyDirect (userInput : string) : bool :=
  GoStr.Contains userInput ":"
  && negb (ContainsAny userInput (String " " (String "009" (String "010" "")))).

Inductive submitResult : Type :=
| InputRequired
| ClientNotFound (e : error)
| LaunchClient (clientPath : string) (args : list string)
| ConnectFailed (message : string).

(** [OnSubmit] of the connect form.  [clientPath] is what
    [getExecutablePath] returns and [env] what the relay does if it is
    asked. *)
Definition onSubmit
    (SplitHostPort : string -> (string * string) + error)
    (JoinHostPort : string -> string -> string)
    (clientPath : string + error) (env : relayEnv)
    (userInput plainTextPasswordAttempt : string) (enableClientAllowInsecure : bool)
    (relayServerControlAddr : string) : submitResult :=
  if userInput =? "" then InputRequired
  else
    match clientPath with
    | inr e => ClientNotFound e
    | inl path =>
        if isPotentiallyDirect userInput then
          LaunchClient path (clientArgs userInput false "" enableClientAllowInsecure)
        else
          let targetHostID := userInput in
          let '(res, _) :=
            connectViaRelay SplitHostPort JoinHostPort env targetHostID
                            plainTextPasswordAttempt relayServerControlAddr in
          if connected res then
            LaunchClient path
              (clientArgs (relayDataAddrForClient res) true (sessionToken res)
                          enableClientAllowInsecure)
          else
            ConnectFailed
              ("Failed to connect to target '" ++ userInput ++ "'." ++ String "010" ""
               ++ String "010" ""
               ++ "Direct connection note: input not in IP:Port format, attempting relay."
               ++ String "010" ""
               ++ "Relay connection attempt: " ++ Fmt.v (err res) ++ ".")
    end.





End Launcher.


Fixpoint concatStrings (l : list string) : string :=
  match l with
  | [] => ""
  | s :: rest => s ++ concatStrings rest
  end.

(** ** The client's overlay: modifier keys ([TypedKey]) *)

Module OverlayKeys.





End OverlayKeys.

(** ** The client's overlay: mouse events and batched moves *)

Section OverlayMouse.

(** [float32] with what [scaleCoordinates] needs: the constants, the test
    [== 0], division, multiplication and the conversion [int32(...)]. *)
Variable float32 : Type.
Variable zero c1920 c1080 : float32.
Variable isZero : float32 -> bool.
Variable fdiv fmul : float32 -> float32 -> float32.
Variable toInt32 : float32 -> Z.

(** The package variables [canControlMouse] and [canControlKeyboard]. *)
Variable canControlMouse canControlKeyboard : bool.

Definition scaleCoordinates (sz pos : float32 * float32) : float32 * float32 :=
  if isZero (fst sz) || isZero (snd sz) then (zero, zero)
  else
    let scaleX := fdiv c1920 (fst sz) in
    let scaleY := fdiv c1080 (snd sz) in
    (fmul (fst pos) scaleX, fmul (snd pos) scaleY).

Definition scalePoint (sz pos : float32 * float32) : Z * Z :=
  let '(sx, sy) := scaleCoordinates sz pos in (toInt32 sx, toInt32 sy).

Record overlay : Type := mkOverlay {
  mouseBtnState : string;
  batchedMoves : list (Z * Z)
}.

Definition noKeys : Keys.keyEvent := Keys.mkKeyEvent "" "" "" false false false false.

(** [sendBatchedMoves]: the request handed to the channel, if any; the
    batch is emptied whether or not the channel takes the request. *)
Definition sendBatchedMoves (mo : overlay) : overlay * list (inputRequest float32) :=
  match batchedMoves mo with
  | [] => (mo, [])
  | moves =>
      (mkOverlay (mouseBtnState mo) [],
       [mkInputRequest float32 "mouse_event" 0 0 "" "batched_mouse_moves" zero zero
                       (map Some moves) noKeys])
  end.

Definition sendMouseEvent (sz : float32 * float32) (eventType btn : string)
    (pos : float32 * float32) : list (inputRequest float32) :=
  if negb canControlMouse then []
  else
    let '(x, y) := scalePoint sz pos in
    [mkInputRequest float32 "mouse_event" x y btn eventType zero zero [] noKeys].

Definition sendScrollEvent (scrollX scrollY : float32) : list (inputRequest float32) :=
  if negb canControlMouse then []
  else [mkInputRequest float32 "mouse_event" 0 0 "" "scroll" scrollX scrollY [] noKeys].

Inductive mouseButton : Type := Primary | Secondary | Tertiary | OtherButton.

Definition buttonName (b : mouseButton) : string :=
  match b with
  | Primary => "left"
  | Secondary => "right"
  | Tertiary => "middle"
  | OtherButton => "unknown"
  end.

(** What the toolkit and the batch ticker call on the overlay. *)
Inductive uiEvent : Type :=
| MouseMoved (pos : float32 * float32)
| MouseDownAt (b : mouseButton) (pos : float32 * float32)
| MouseUpAt (b : mouseButton) (pos : float32 * float32)
| MouseIn
| MouseOut
| Scrolled (dx dy : float32)
| TypedRune (text : string)        (* the rune as a string *)
| BatchTick.

(** One call, with the size [sz] of the overlay at that time: the new
    state and the requests handed to the channel, in order. *)
Definition overlayStep (sz : float32 * float32) (mo : overlay) (ev : uiEvent)
  : overlay * list (inputRequest float32) :=
  match ev with
  | MouseMoved pos =>
      if negb canControlMouse then (mo, [])
      else (mkOverlay (mouseBtnState mo) (batchedMoves mo ++ [scalePoint sz pos]), [])
  | BatchTick => sendBatchedMoves mo
  | MouseIn =>
      let '(mo', flushed) := sendBatchedMoves mo in
      (mo', (flushed ++ sendMouseEvent sz "in" (mouseBtnState mo) (zero, zero))%list)
  | MouseOut =>
      let '(mo', flushed) := sendBatchedMoves mo in
      (mo', (flushed ++ sendMouseEvent sz "out" (mouseBtnState mo) (zero, zero))%list)
  | MouseDownAt b pos =>
      let '(mo', flushed) := sendBatchedMoves mo in
      let btnStr := buttonName b in
      (mkOverlay btnStr (batchedMoves mo'),
       (flushed ++ sendMouseEvent sz "down" btnStr pos)%list)
  | MouseUpAt b pos =>
      let '(mo', flushed) := sendBatchedMoves mo in
      let btnStr := buttonName b in
      (mkOverlay (if mouseBtnState mo' =? btnStr then "" else mouseBtnState mo')
                 (batchedMoves mo'),
       (flushed ++ sendMouseEvent sz "up" btnStr pos)%list)
  | Scrolled dx dy =>
      let '(mo', flushed) := sendBatchedMoves mo in
      (mo', (flushed ++ sendScrollEvent dx dy)%list)
  | TypedRune text =>
      if negb canControlKeyboard then (mo, [])
      else
        let '(mo', flushed) := sendBatchedMoves mo in
        (mo',
         (flushed
          ++ [mkInputRequest float32 "keyboard_event" 0 0 "" "" zero zero []
                             (Keys.mkKeyEvent "keychar" "" text false false false false)])%list)
  end.

Fixpoint overlayRun (sz : float32 * float32) (mo : overlay) (events : list uiEvent)
  : overlay * list (inputRequest float32) :=
  match events with
  | [] => (mo, [])
  | ev :: rest =>
      let '(mo1, out1) := overlayStep sz mo ev in
      let '(mo2, out2) := overlayRun sz mo1 rest in
      (mo2, (out1 ++ out2)%list)
  end.

(** The points of the batched requests, in order. *)
Definition batchedPoints (requests : list (inputRequest float32)) : list (Z * Z) :=
  flat_map (fun r =>
              if mouseEventType float32 r =? "batched_mouse_moves"
              then flat_map (fun p => match p with Some xy => [xy] | None => [] end)
                            (batchedMouseMoves float32 r)
              else [])
           requests.

(** The positions of the moves among the events, in order. *)
Definition movedPositions (events : list uiEvent) : list (float32 * float32) :=
  flat_map (fun ev => match ev with MouseMoved pos => [pos] | _ => [] end) events.

End OverlayMouse.

(** The texts given to the relay status label, in order. *)
Fixpoint statusTexts (tr : list event) : list string :=
  match tr with
  | [] => []
  | SetText RelayStatus text :: tr' => text :: statusTexts tr'
  | _ :: tr' => statusTexts tr'
  end.

(** * Properties *)

(** ** Substring search *)

Lemma HasPrefix_iff (s p : string) :
  GoStr.HasPrefix s p = true <-> exists t, s = p ++ t.
Proof.
  revert s; induction p as [|c p IH]; intros s; simpl.
  - split; [intros _; now exists s | reflexivity].
  - destruct s as [|d s]; simpl.
    + split; [discriminate | intros [t Ht]; discriminate].
    + rewrite andb_true_iff, Ascii.eqb_eq, IH. split.
      * intros [-> [t ->]]. now exists t.
      * intros [t Ht]. injection Ht as -> ->. split; [reflexivity | now exists t].
Qed.

Lemma append_assoc (a b c : string) : (a ++ b) ++ c = a ++ (b ++ c).
Proof. induction a as [|x a IH]; simpl; [reflexivity | now rewrite IH]. Qed.

Lemma Contains_iff (s sub : string) :
  GoStr.Contains s sub = true <-> exists pre post, s = pre ++ sub ++ post.
Proof.
  induction s as [|c s IH]; simpl; rewrite orb_true_iff, HasPrefix_iff.
  - split.
    + intros [[t Ht] | H]; [| discriminate]. now exists "", t.
    + intros [pre [post H]]. left. destruct pre; [| discriminate]. now exists post.
  - rewrite IH. split.
    + intros [[t Ht] | [pre [post H]]].
      * now exists "", t.
      * exists (String c pre), post. simpl. now rewrite H.
    + intros [pre [post H]]. destruct pre as [|d pre]; simpl in H.
      * left. now exists post.
      * right. injection H as _ H. now exists pre, post.
Qed.

(** A string that contains [a ++ b] contains [a]. *)
Lemma Contains_shorter (s a b : string) :
  GoStr.Contains s (a ++ b) = true -> GoStr.Contains s a = true.
Proof.
  rewrite !Contains_iff. intros [pre [post H]].
  exists pre, (b ++ post). now rewrite append_assoc in H.
Qed.

(** ** Classification of network-close errors *)

(** C4.  [isNetworkCloseError] is false on the nil error, true on [io.EOF],
    true on every error whose message contains one of the four listed
    markers, and false on every other error whose message contains none of
    the markers the function searches for. *)
Theorem isNetworkCloseError_classification :
  isNetworkCloseError None = false
  /\ isNetworkCloseError (Some io_EOF) = true
  /\ (forall e marker,
        In marker listedCloseMarkers ->
        GoStr.Contains (Error e) marker = true ->
        isNetworkCloseError (Some e) = true)
  /\ (forall msg,
        (forall marker, In marker searchedCloseMarkers ->
                        GoStr.Contains msg marker = false) ->
        isNetworkCloseError (Some (errorString msg)) = false).
Proof.
  repeat split.
  - intros e marker Hin Hc. destruct e as [|msg]; [reflexivity|].
    unfold isNetworkCloseError; cbn [is_EOF Error] in *.
    unfold listedCloseMarkers in Hin; cbn [In] in Hin.
    destruct Hin as [<- | [<- | [<- | [<- | []]]]].
    + now rewrite Hc.
    + rewrite Hc. now rewrite !orb_true_r.
    + rewrite Hc. now rewrite !orb_true_r.
    + apply (Contains_shorter msg "forcibly closed" " by the remote host.") in Hc.
      rewrite Hc. now rewrite !orb_true_r.
  - intros msg H. unfold isNetworkCloseError; cbn [is_EOF Error].
    rewrite !H; [reflexivity | | | |]; unfold searchedCloseMarkers; cbn [In]; auto.
Qed.

(** The theorem at the messages of the program's own test table. *)
Lemma isNetworkCloseError_classification_witness :
  isNetworkCloseError
    (Some (errorString
       "wsarecv: An existing connection was forcibly closed by the remote host.")) = true
  /\ isNetworkCloseError (Some (errorString "read: connection reset by peer")) = true
  /\ isNetworkCloseError (Some (errorString "")) = false.
Proof.
  destruct isNetworkCloseError_classification as (_ & _ & Hyes & Hno).
  split; [| split].
  - apply (Hyes _ "forcibly closed by the remote host."); [simpl; tauto | reflexivity].
  - apply (Hyes _ "connection reset by peer"); [simpl; tauto | reflexivity].
  - apply Hno. intros marker Hin. simpl in Hin.
    destruct Hin as [<- | [<- | [<- | [<- | []]]]]; reflexivity.
Defined.

(** The table of [TestIsNetworkCloseError]. *)
Example isNetworkCloseError_test_table :
  map isNetworkCloseError
      [None;
       Some io_EOF;
       Some (errorString
               "read tcp 127.0.0.1:1234->127.0.0.1:5678: use of closed network connection");
       Some (errorString "read: connection reset by peer");
       Some (errorString "write: broken pipe");
       Some (errorString
               "wsarecv: An existing connection was forcibly closed by the remote host.");
       Some (errorString "some other error");
       Some (errorString "")]
  = [false; true; true; true; true; true; false; false].
Proof. reflexivity. Qed.

(** An error that is not [io.EOF] but prints as ["EOF"] is not a close
    signal. *)
Example isNetworkCloseError_EOF_text :
  isNetworkCloseError (Some (errorString "EOF")) = false.
Proof. reflexivity. Qed.

(** ** Host identities *)

Lemma EncodeToString_length (src : list Byte.byte) :
  String.length (HostID.EncodeToString src) = 2 * List.length src.
Proof. induction src as [|b src IH]; simpl; [reflexivity | rewrite IH; lia]. Qed.

Lemma hexDigit_isHex (b : Byte.byte) :
  HostID.isHexDigit (HostID.hexDigit (Byte.to_nat b / 16)) = true
  /\ HostID.isHexDigit (HostID.hexDigit (Byte.to_nat b mod 16)) = true.
Proof. destruct b; vm_compute; split; reflexivity. Qed.

Lemma EncodeToString_allHex (src : list Byte.byte) :
  HostID.allHex (HostID.EncodeToString src) = true.
Proof.
  induction src as [|b src IH]; [reflexivity|].
  cbn [HostID.EncodeToString HostID.allHex].
  destruct (hexDigit_isHex b) as [-> ->]. exact IH.
Qed.

Lemma randRead_length (fill : nat -> Byte.byte) (buf : list Byte.byte) :
  List.length (HostID.randRead fill buf) = List.length buf.
Proof. unfold HostID.randRead. now rewrite length_map, length_seq. Qed.

(** C9.  For a byte length [N] that [make] accepts, a successful read of
    random bytes gives an identity of exactly [2 * N] hexadecimal digits,
    and a failed read still gives a non-empty identity. *)
Theorem generateRandomHostID_length (N : Z) :
  (0 <= N)%Z ->
  (forall fill, exists id,
      HostID.generateRandomHostID N (HostID.RandOk fill) = Some id
      /\ Z.of_nat (String.length id) = (2 * N)%Z
      /\ HostID.allHex id = true)
  /\ (forall e unixNano, exists id,
        HostID.generateRandomHostID N (HostID.RandFails e unixNano) = Some id
        /\ id <> "").
Proof.
  intros HN. unfold HostID.generateRandomHostID.
  destruct (Z.ltb_spec N 0) as [Hlt | _]; [lia|]. split.
  - intros fill. eexists. split; [reflexivity|]. split.
    + rewrite EncodeToString_length, randRead_length.
      unfold HostID.make. rewrite repeat_length. lia.
    + apply EncodeToString_allHex.
  - intros e unixNano. eexists. split; [reflexivity | discriminate].
Qed.

Lemma generateRandomHostID_length_witness :
  (forall fill, exists id,
      HostID.generateRandomHostID 4 (HostID.RandOk fill) = Some id
      /\ Z.of_nat (String.length id) = 8%Z
      /\ HostID.allHex id = true)
  /\ (forall e unixNano, exists id,
        HostID.generateRandomHostID 4 (HostID.RandFails e unixNano) = Some id
        /\ id <> "").
Proof. apply (generateRandomHostID_length 4). lia. Defined.

(** The lengths checked by [TestGenerateRandomHostID]. *)
Example generateRandomHostID_test (fill : nat -> Byte.byte) :
  option_map String.length (HostID.generateRandomHostID 4 (HostID.RandOk fill)) = Some 8
  /\ option_map String.length (HostID.generateRandomHostID 8 (HostID.RandOk fill)) = Some 16.
Proof. split; reflexivity. Qed.

Example generateRandomHostID_fallback :
  HostID.generateRandomHostID 4 (HostID.RandFails io_EOF 1730000000000000042)
  = Some "randfail00000042".
Proof. reflexivity. Qed.

(** ** Scale factors *)

(** C10.  When the reported client width or height is zero,
    [getScaleFactors] returns [(1.0, 1.0)]; and whatever the request, the
    result does not depend on what the division does at a divisor converted
    from zero, i.e. no division by a zero client dimension is ever
    evaluated. *)
Theorem getScaleFactors_zero_guard
    (float32 : Type) (one : float32) (ofInt : Z -> float32)
    (div div' : float32 -> float32 -> float32)
    (serverWidth serverHeight : Z) (reqMsgInit : FeedRequest) :
  (clientWidth reqMsgInit = 0%Z \/ clientHeight reqMsgInit = 0%Z ->
   getScaleFactors float32 one ofInt div serverWidth serverHeight reqMsgInit = (one, one))
  /\ ((forall x y, y <> 0%Z -> div x (ofInt y) = div' x (ofInt y)) ->
      getScaleFactors float32 one ofInt div serverWidth serverHeight reqMsgInit
      = getScaleFactors float32 one ofInt div' serverWidth serverHeight reqMsgInit).
Proof.
  unfold getScaleFactors. split.
  - intros [-> | ->]; [reflexivity | now rewrite orb_true_r].
  - intros Hdiv.
    destruct (Z.eqb_spec (clientWidth reqMsgInit) 0) as [|Hw]; [reflexivity|].
    destruct (Z.eqb_spec (clientHeight reqMsgInit) 0) as [|Hh]; [reflexivity|].
    cbn [orb]. now rewrite !Hdiv.
Qed.

(** The theorem on the rationals, for a client that reports a zero height. *)
Lemma getScaleFactors_zero_guard_witness :
  getScaleFactors QArith_base.Q (QArith_base.inject_Z 1) QArith_base.inject_Z
                  QArith_base.Qdiv 1920 1080 (mkFeedRequest 800 0)
  = (QArith_base.inject_Z 1, QArith_base.inject_Z 1).
Proof.
  destruct (getScaleFactors_zero_guard QArith_base.Q (QArith_base.inject_Z 1)
              QArith_base.inject_Z QArith_base.Qdiv QArith_base.Qdiv
              1920 1080 (mkFeedRequest 800 0)) as [Hzero _].
  apply Hzero. right. reflexivity.
Defined.

(** ** The tunnel bridge *)

Module BridgeFacts.
Import Bridge.

Ltac open_state s :=
  destruct s as [h l [pa wa] [pb wb] w r]; cbn in *.

Ltac split_dirs :=
  repeat match goal with
         | d : dir |- _ => destruct d; cbn in *
         | |- forall d : dir, _ => intros d
         end.

Lemma inv_init : inv init.
Proof.
  constructor; cbn; try reflexivity; try discriminate;
    intros d; destruct d; cbn; discriminate.
Qed.

Lemma inv_step a s s' : inv s -> step a s s' -> inv s'.
Proof.
  intros [Hd Hs Hw Hr] Hstep.
  pose proof (Hd RelayToLocal) as Hd1. pose proof (Hd LocalToRelay) as Hd2.
  pose proof (Hs RelayToLocal) as Hs1. pose proof (Hs LocalToRelay) as Hs2.
  clear Hd Hs.
  inversion Hstep; subst; clear Hstep; open_state s;
    repeat match goal with d : dir |- _ => destruct d end;
    cbn in *; subst; cbn in *;
    (constructor; cbn;
     [ intros d'; destruct d'; cbn; intros; auto
     | intros d'; destruct d'; cbn; intros; auto
     | try lia
     | intros Hret; try specialize (Hr Hret); try lia; auto ]).
Qed.

Lemma reachable_inv s : reachable s -> inv s.
Proof. induction 1; [apply inv_init | eauto using inv_step]. Qed.


(** With both connections closed the program can always take a step of
    its own, until [wg.Wait()] has returned. *)
Lemma closed_progress s :
  inv s ->
  hostProxyClosed s = true -> localServiceClosed s = true ->
  returned s = false ->
  exists s', step Program s s'.
Proof.
  intros [_ _ Hw _] Hh Hl Hr.
  destruct (at_ (relayToLocal s)) eqn:Ea.
  - eexists. apply (read_closed RelayToLocal); assumption.
  - eexists. apply (write_closed RelayToLocal); assumption.
  - eexists. apply (log_result RelayToLocal _ errCopy); assumption.
  - eexists. apply (close_dst RelayToLocal); assumption.
  - eexists. apply (close_src RelayToLocal); assumption.
  - eexists. apply (wg_done RelayToLocal); assumption.
  - destruct (at_ (localToRelay s)) eqn:Eb.
    + eexists. apply (read_closed LocalToRelay); assumption.
    + eexists. apply (write_closed LocalToRelay); assumption.
    + eexists. apply (log_result LocalToRelay _ errCopy); assumption.
    + eexists. apply (close_dst LocalToRelay); assumption.
    + eexists. apply (close_src LocalToRelay); assumption.
    + eexists. apply (wg_done LocalToRelay); assumption.
    + eexists. apply wg_wait; [cbn in Hw; exact Hw | exact Hr].
Qed.

Lemma done_closed s d :
  inv s -> at_ (get d s) = Done ->
  hostProxyClosed s = true /\ localServiceClosed s = true.
Proof.
  intros [Hd Hs _ _] HD.
  specialize (Hd d). specialize (Hs d). rewrite HD in Hd, Hs.
  destruct d; cbn in *; auto.
Qed.

(** C1.  In every state the bridge can reach: a goroutine that has
    completed has closed both connections; if its partner is then still
    inside [io.Copy], the program can step without the peer's help and
    every possible step takes the partner out of its copy loop; and
    [wg.Wait()] has returned only if both goroutines have completed. *)
Theorem bridge_closes_both_and_joins (s : state) :
  reachable s ->
  (forall d, at_ (get d s) = Done ->
     hostProxyClosed s = true /\ localServiceClosed s = true)
  /\ (forall d, at_ (get d s) = Done -> inCopy (at_ (get (other d) s)) = true ->
        (exists s', step Program s s')
        /\ (forall a s', step a s s' ->
              a = Program /\ inCopy (at_ (get (other d) s')) = false))
  /\ (returned s = true -> forall d, at_ (get d s) = Done).
Proof.
  intros Hreach. pose proof (reachable_inv s Hreach) as Hinv.
  split; [| split].
  - intros d HD. exact (done_closed s d Hinv HD).
  - intros d HD Hcopy.
    destruct (done_closed s d Hinv HD) as [Hh Hl].
    destruct Hinv as [_ _ Hw Hr]. split.
    + apply closed_progress; [exact (reachable_inv s Hreach) | assumption | assumption |].
      destruct (returned s) eqn:Er; [| reflexivity].
      specialize (Hr eq_refl). rewrite Hr in Hw.
      destruct d; cbn in *; destruct (at_ (relayToLocal s)), (at_ (localToRelay s));
        cbn in *; discriminate.
    + intros a s' Hstep.
      inversion Hstep; subst; clear Hstep; open_state s;
        repeat match goal with d0 : dir |- _ => destruct d0 end;
        cbn in *; subst; cbn in *; try congruence; try (split; reflexivity);
        try discriminate;
        match goal with
        | Hc : inCopy ?p = true, Hp : _ = 0 |- _ =>
            destruct p; cbn in Hc, Hp; discriminate
        end.
  - intros Hret d. destruct Hinv as [_ _ Hw Hr].
    specialize (Hr Hret). rewrite Hr in Hw.
    destruct d; cbn; destruct (at_ (relayToLocal s)), (at_ (localToRelay s));
      cbn in *; try discriminate; reflexivity.
Qed.

Lemma afterRelayEnds_reachable : reachable afterRelayEnds.
Proof.
  unfold afterRelayEnds, relayEndsFirst; cbn [last].
  eapply reach_step; [| apply (wg_done RelayToLocal); reflexivity].
  eapply reach_step; [| apply (close_src RelayToLocal); reflexivity].
  eapply reach_step; [| apply (close_dst RelayToLocal); reflexivity].
  eapply reach_step; [| apply (log_result RelayToLocal _ None); reflexivity].
  eapply reach_step; [apply reach_init |].
  apply (read_ends RelayToLocal init None); reflexivity.
Defined.

(** The theorem at the end of that run. *)
Lemma bridge_closes_both_and_joins_witness :
  reachable afterRelayEnds
  /\ hostProxyClosed afterRelayEnds = true
  /\ localServiceClosed afterRelayEnds = true.
Proof.
  split; [exact afterRelayEnds_reachable |].
  destruct (bridge_closes_both_and_joins afterRelayEnds afterRelayEnds_reachable)
    as (Hclosed & _ & _).
  apply (Hclosed RelayToLocal). reflexivity.
Defined.




End BridgeFacts.

(** ** The registration loop *)

Section RelayFacts.

Variable CompareHashAndPassword : string -> string -> option error.
Variable SplitHostPort : string -> (string * string) + error.
Variable JoinHostPort : string -> string -> string.
Variable g : gui.
Variables relayCtrlAddrFull localGrpcSvcAddr : string.

Local Abbreviation dispatch' :=
  (dispatch CompareHashAndPassword SplitHostPort JoinHostPort g
            relayCtrlAddrFull localGrpcSvcAddr).
Local Abbreviation processLine' :=
  (processLine CompareHashAndPassword SplitHostPort JoinHostPort g
               relayCtrlAddrFull localGrpcSvcAddr).
Local Abbreviation readLoop' :=
  (readLoop CompareHashAndPassword SplitHostPort JoinHostPort g
            relayCtrlAddrFull localGrpcSvcAddr).

Lemma passwordVerdict_spec (s : server) (attempt : string) :
  (sessionPasswordHash s = "" -> passwordVerdict CompareHashAndPassword s attempt = true)
  /\ (sessionPasswordHash s <> "" ->
      (passwordVerdict CompareHashAndPassword s attempt = true
       <-> CompareHashAndPassword (sessionPasswordHash s) attempt = None)).
Proof.
  unfold passwordVerdict. split.
  - intros ->. reflexivity.
  - intros Hne. destruct (String.eqb_spec (sessionPasswordHash s) "") as [E | _];
      [contradiction|].
    destruct (CompareHashAndPassword (sessionPasswordHash s) attempt);
      split; congruence.
Qed.

(** The response written for a request with token [token] and fields
    [rest] after it. *)
Lemma dispatch_verify (s : server) (response token : string) (rest : list string)
    (errSend : option error) :
  exists tr,
    dispatch' s response ("VERIFY_PASSWORD_REQUEST" :: token :: rest) errSend = Next s tr
    /\ writes controlConn tr
       = ["VERIFY_PASSWORD_RESPONSE " ++ token ++ " "
          ++ Fmt.t (passwordVerdict CompareHashAndPassword s (GoStr.Join rest " "))
          ++ String "010" ""]
    /\ launched tr = []
    /\ stdout tr = [].
Proof.
  unfold dispatch. cbn [String.eqb Ascii.eqb Bool.eqb].
  unfold onVerifyPasswordRequest.
  destruct rest as [|p rest].
  - cbn [List.length Nat.leb nth skipn]. eexists. split; [reflexivity|].
    cbn [app writes launched stdout connId_eqb GoStr.Join].
    destruct (sessionPasswordHash s =? ""), errSend;
      try destruct (passwordVerdict _ _ _); repeat split; reflexivity.
  - cbn [List.length Nat.leb nth skipn]. eexists. split; [reflexivity|].
    cbn [app writes launched stdout connId_eqb].
    destruct (sessionPasswordHash s =? ""), errSend;
      try destruct (passwordVerdict _ _ _); repeat split; reflexivity.
Qed.

(** C3.  A [VERIFY_PASSWORD_REQUEST] line with a token is answered: the
    verdict is valid when no hash is configured, and otherwise valid exactly
    when bcrypt accepts the remaining fields, joined by single spaces,
    against the stored hash; the loop goes on with the same state after
    writing one [VERIFY_PASSWORD_RESPONSE] with the token and the verdict on
    the control connection, and launches no tunnel. *)
Theorem verify_password_request_answered
    (s : server) (raw token : string) (rest : list string) (errSend : option error) :
  GoStr.Fields (GoStr.TrimSpace raw) = "VERIFY_PASSWORD_REQUEST" :: token :: rest ->
  let attempt := GoStr.Join rest " " in
  let verdict := passwordVerdict CompareHashAndPassword s attempt in
  (sessionPasswordHash s = "" -> verdict = true)
  /\ (sessionPasswordHash s <> "" ->
      (verdict = true <-> CompareHashAndPassword (sessionPasswordHash s) attempt = None))
  /\ exists tr,
       processLine' s raw errSend = Next s tr
       /\ writes controlConn tr
          = ["VERIFY_PASSWORD_RESPONSE " ++ token ++ " " ++ Fmt.t verdict ++ String "010" ""]
       /\ launched tr = [].
Proof.
  intros Hparts attempt verdict.
  destruct (passwordVerdict_spec s attempt) as [Hnone Hsome].
  split; [exact Hnone | split; [exact Hsome |]].
  unfold processLine. rewrite Hparts.
  destruct (dispatch_verify s (GoStr.TrimSpace raw) token rest errSend)
    as (tr & -> & Hw & Hl & _).
  eexists. split; [reflexivity|]. split; [exact Hw | exact Hl].
Qed.

Lemma dispatch_ignored (s : server) (response : string) (parts : list string)
    (errSend : option error) :
  ignoredLine s parts = true ->
  exists tr,
    dispatch' s response parts errSend = Next s tr
    /\ tr <> [] /\ onlyLogs tr = true.
Proof.
  unfold ignoredLine, dispatch. destruct parts as [|command args]; [discriminate|].
  destruct (String.eqb_spec command "CREATE_TUNNEL") as [-> | Hct].
  - cbn [String.eqb Ascii.eqb Bool.eqb]. unfold onCreateTunnel.
    destruct (List.length ("CREATE_TUNNEL" :: args) <? 3)%nat.
    + intros _. eexists. split; [reflexivity|]. split; [discriminate | reflexivity].
    + cbn [orb]. intros ->. eexists. split; [reflexivity|].
      split; [discriminate | reflexivity].
  - destruct (String.eqb_spec command "VERIFY_PASSWORD_REQUEST") as [-> | Hvp].
    + cbn [String.eqb Ascii.eqb Bool.eqb]. unfold onVerifyPasswordRequest.
      destruct args as [|a args]; [| discriminate].
      intros _. cbn [List.length Nat.leb]. eexists. split; [reflexivity|].
      split; [discriminate | reflexivity].
    + destruct (String.eqb_spec command "HOST_REGISTERED") as [-> | Hhr]; [discriminate|].
      intros _. eexists. split; [reflexivity|]. split; [discriminate | reflexivity].
Qed.

Lemma onlyLogs_silent (tr : list event) :
  onlyLogs tr = true ->
  (forall c, writes c tr = []) /\ launched tr = [] /\ stdout tr = [].
Proof.
  unfold onlyLogs. induction tr as [|e tr IH]; cbn [forallb]; [now repeat split|].
  rewrite andb_true_iff. intros [He Htr]. destruct (IH Htr) as (Hw & Hl & Hs).
  destruct e; try discriminate. cbn. now repeat split.
Qed.

(** C5.  A line that the specification lists as malformed, premature or
    unknown is logged and ignored: the server state is unchanged, the
    iteration only logs (nothing is written on any connection, nothing goes
    to standard output, no tunnel is launched), and the read loop goes on
    with the lines after it. *)
Theorem malformed_lines_ignored
    (s : server) (raw : string) (errSend : option error) (rest : list tick) :
  ignoredLine s (GoStr.Fields (GoStr.TrimSpace raw)) = true ->
  exists tr,
    processLine' s raw errSend = Next s tr
    /\ tr <> [] /\ onlyLogs tr = true
    /\ (forall c, writes c tr = []) /\ launched tr = []
    /\ readLoop' s (mkTick (ReadLine raw) errSend :: rest) = after tr (readLoop' s rest).
Proof.
  intros Hign.
  destruct (dispatch_ignored s (GoStr.TrimSpace raw) _ errSend Hign)
    as (tr & Hd & Hne & Hlogs).
  assert (Hp : processLine' s raw errSend
               = Next s (Log ("INFO: [Relay] Received from relay (current/potential Host ID '"
                              ++ currentRelayHostID s ++ "'): " ++ GoStr.TrimSpace raw) :: tr)).
  { unfold processLine. now rewrite Hd. }
  eexists. split; [exact Hp|].
  assert (Hl : onlyLogs (Log ("INFO: [Relay] Received from relay (current/potential Host ID '"
                              ++ currentRelayHostID s ++ "'): " ++ GoStr.TrimSpace raw) :: tr)
               = true) by exact Hlogs.
  destruct (onlyLogs_silent _ Hl) as (Hw & Hla & _).
  repeat split; try assumption; try discriminate.
  cbn [readLoop rd wr]. now rewrite Hp.
Qed.

End RelayFacts.

Lemma verify_password_request_answered_witness :
  exists tr,
    processLine Sample.CompareHashAndPassword Sample.SplitHostPort Sample.JoinHostPort
                Sample.headlessGui Sample.relayAddr Sample.localAddr
                (Sample.registered "hash:open sesame")
                ("VERIFY_PASSWORD_REQUEST tok123 open   sesame" ++ String "010" "") None
    = Next (Sample.registered "hash:open sesame") tr
    /\ writes controlConn tr = ["VERIFY_PASSWORD_RESPONSE tok123 true" ++ String "010" ""].
Proof.
  destruct (verify_password_request_answered
              Sample.CompareHashAndPassword Sample.SplitHostPort Sample.JoinHostPort
              Sample.headlessGui Sample.relayAddr Sample.localAddr
              (Sample.registered "hash:open sesame")
              ("VERIFY_PASSWORD_REQUEST tok123 open   sesame" ++ String "010" "")
              "tok123" ["open"; "sesame"] None eq_refl)
    as (_ & _ & tr & Hrun & Hw & _).
  exists tr. split; [exact Hrun | exact Hw].
Defined.

Lemma malformed_lines_ignored_witness :
  exists tr,
    readLoop Sample.CompareHashAndPassword Sample.SplitHostPort Sample.JoinHostPort
             Sample.headlessGui Sample.relayAddr Sample.localAddr
             Sample.unregistered
             [mkTick (ReadLine ("CREATE_TUNNEL 40000 tok123456" ++ String "010" "")) None]
    = LoopWaiting Sample.unregistered tr
    /\ launched tr = [].
Proof.
  destruct (malformed_lines_ignored
              Sample.CompareHashAndPassword Sample.SplitHostPort Sample.JoinHostPort
              Sample.headlessGui Sample.relayAddr Sample.localAddr
              Sample.unregistered
              ("CREATE_TUNNEL 40000 tok123456" ++ String "010" "") None [] eq_refl)
    as (tr & _ & _ & _ & _ & Hl & Hloop).
  exists (tr ++ [])%list. split; [exact Hloop |].
  rewrite app_nil_r. exact Hl.
Defined.

Example Fields_example :
  GoStr.Fields (GoStr.TrimSpace ("  CREATE_TUNNEL 40000   abc " ++ String "010" ""))
  = ["CREATE_TUNNEL"; "40000"; "abc"].
Proof. reflexivity. Qed.

(** ** Session tokens shorter than six bytes *)

Lemma sliceTo_short (s : string) (n : nat) :
  String.length s < n -> GoStr.sliceTo s n = None.
Proof.
  revert s; induction n as [|n IH]; intros s H; [lia|].
  destruct s as [|c s]; [reflexivity|]. cbn in *. rewrite IH; [reflexivity | lia].
Qed.

Lemma sliceTo_long (s : string) (n : nat) :
  n <= String.length s -> exists t, GoStr.sliceTo s n = Some t.
Proof.
  revert s; induction n as [|n IH]; intros s H; [now exists ""|].
  destruct s as [|c s]; cbn in *; [lia|].
  destruct (IH s) as [t Ht]; [lia|]. rewrite Ht. cbn. now eexists.
Qed.

(** The tunnel goroutine panics on every token shorter than six bytes,
    whatever the network does. *)
Lemma handleHostSideTunnel_short_token
    (g : gui) (env : tunnelEnv) (localAddr relayDataAddr token hostID : string) :
  String.length token < 6 ->
  exists tr,
    handleHostSideTunnel_setup g env localAddr relayDataAddr token hostID = SetupCrash tr.
Proof.
  intros H. unfold handleHostSideTunnel_setup.
  rewrite (sliceTo_short token 6 H). now eexists.
Qed.

(** C2, at the line [CREATE_TUNNEL 40000 abc] sent to a registered host.
    Without a window the line is accepted and launches a tunnel whose
    goroutine panics at [sessionToken[:6]]; with a window the registration
    loop itself panics at the same expression. *)
Theorem short_session_token_panics :
  (exists tr,
     processLine Sample.CompareHashAndPassword Sample.SplitHostPort Sample.JoinHostPort
                 Sample.headlessGui Sample.relayAddr Sample.localAddr
                 (Sample.registered "")
                 ("CREATE_TUNNEL 40000 abc" ++ String "010" "") None
     = Next (Sample.registered "") tr
     /\ launched tr = [(Sample.localAddr, "relay.example:40000", "abc", "host1")])
  /\ (forall g env,
        exists tr,
          handleHostSideTunnel_setup g env Sample.localAddr "relay.example:40000"
                                     "abc" "host1"
          = SetupCrash tr)
  /\ (exists tr,
        readLoop Sample.CompareHashAndPassword Sample.SplitHostPort Sample.JoinHostPort
                 Sample.windowGui Sample.relayAddr Sample.localAddr
                 (Sample.registered "")
                 [mkTick (ReadLine ("CREATE_TUNNEL 40000 abc" ++ String "010" "")) None]
        = LoopCrashed tr).
Proof.
  split; [| split].
  - eexists. split; reflexivity.
  - intros g env. apply handleHostSideTunnel_short_token. cbn. lia.
  - eexists. reflexivity.
Qed.

(** ** Repeated shutdown *)

(** C6, on a server that was started.  The first call stops the server and
    returns true; the pointer stays non-nil, so a second call runs the
    shutdown again and returns true as well.  Only a server that was never
    started makes the function return false. *)
Theorem tryGracefulShutdown_second_call
    (s : server) (g0 : grpcState) (timeout : string) (r1 r2 : stopRace) :
  let s0 := with_grpcServer s (Some g0) in
  let s1 := fst (fst (tryGracefulShutdown s0 timeout r1)) in
  snd (fst (tryGracefulShutdown s0 timeout r1)) = true
  /\ grpcServer s1 = Some Stopped
  /\ snd (fst (tryGracefulShutdown s1 timeout r2)) = true
  /\ In GracefulStop (snd (tryGracefulShutdown s1 timeout r2))
  /\ tryGracefulShutdown (with_grpcServer s None) timeout r1
     = (with_grpcServer s None, false,
        [Log "INFO: gRPC server instance is nil, no shutdown needed or already stopped."]).
Proof.
  destruct r1, r2; cbn; repeat split; auto.
Qed.

(** ** The identity line on standard output *)

Lemma stdout_app (a b : list event) :
  stdout (a ++ b) = (stdout a ++ stdout b)%list.
Proof.
  induction a as [|e a IH]; [reflexivity|].
  destruct e; cbn; rewrite ?IH; reflexivity.
Qed.

Lemma initialHostIDOf_silent (f : flags) (env : startEnv) (id : string) (tr : list event) :
  initialHostIDOf f env = (id, tr) -> stdout tr = [].
Proof.
  unfold initialHostIDOf.
  destruct ((GoStr.ToLower (hostIDFlag f) =? "auto") || (hostIDFlag f =? ""));
    intros E; injection E as <- <-; reflexivity.
Qed.

(** C8, in direct mode with a window: start-up writes the identity line
    twice, once in the window set-up and once in the common block. *)
Theorem direct_mode_with_window_prints_twice
    (port : Z) (relayAddr hostID password addr : string)
    (mouse keyboard files terminal : bool)
    (r : HostID.randOutcome) (addrs : list string) :
  let f := mkFlags port false relayAddr hostID password false
                   mouse keyboard files terminal in
  let env := mkStartEnv r (inl addr) addrs None in
  exists s g id tr,
    main_startup f env = Started s g id tr
    /\ stdout tr = [effectiveHostIDPrefix ++ id ++ String "010" "";
                    effectiveHostIDPrefix ++ id ++ String "010" ""].
Proof.
  intros f env. unfold main_startup.
  destruct (initialHostIDOf f env) as [id tr0] eqn:E.
  cbn [listenResult tlsResult env headless enableRelay f negb andb].
  do 4 eexists. split; [reflexivity|].
  rewrite !stdout_app, (initialHostIDOf_silent f env id tr0 E). reflexivity.
Qed.

(** In the other modes start-up behaves as the specification says: one
    line in headless direct mode, none in relay mode. *)
Lemma startup_prints_elsewhere
    (port : Z) (relayAddr hostID password addr : string)
    (mouse keyboard files terminal showWindow : bool)
    (r : HostID.randOutcome) (addrs : list string) :
  let env := mkStartEnv r (inl addr) addrs None in
  (exists s g id tr,
     main_startup (mkFlags port false relayAddr hostID password true
                           mouse keyboard files terminal) env
     = Started s g id tr
     /\ stdout tr = [effectiveHostIDPrefix ++ id ++ String "010" ""])
  /\ (exists s g id tr,
        main_startup (mkFlags port true relayAddr hostID password (negb showWindow)
                              mouse keyboard files terminal) env
        = Started s g id tr
        /\ stdout tr = []).
Proof.
  intros env. split.
  - unfold main_startup.
    destruct (initialHostIDOf _ env) as [id tr0] eqn:E.
    cbn [listenResult tlsResult env headless enableRelay negb andb].
    do 4 eexists. split; [reflexivity|].
    rewrite !stdout_app, (initialHostIDOf_silent _ env id tr0 E). reflexivity.
  - unfold main_startup.
    destruct (initialHostIDOf _ env) as [id tr0] eqn:E.
    cbn [listenResult tlsResult env headless enableRelay negb andb].
    do 4 eexists. split; [reflexivity|].
    rewrite !stdout_app, (initialHostIDOf_silent _ env id tr0 E).
    destruct showWindow; reflexivity.
Qed.

(** In relay mode every [HOST_REGISTERED] line that carries an identity
    makes the loop adopt it and print exactly one identity line. *)
Lemma host_registered_prints_once
    (CompareHashAndPassword : string -> string -> option error)
    (SplitHostPort : string -> (string * string) + error)
    (JoinHostPort : string -> string -> string)
    (g : gui) (relayCtrlAddrFull localGrpcSvcAddr : string)
    (s : server) (raw id : string) (rest : list string) (errSend : option error) :
  GoStr.Fields (GoStr.TrimSpace raw) = "HOST_REGISTERED" :: id :: rest ->
  exists tr,
    processLine CompareHashAndPassword SplitHostPort JoinHostPort g
                relayCtrlAddrFull localGrpcSvcAddr s raw errSend
    = Next (with_currentRelayHostID s id) tr
    /\ stdout tr = [effectiveHostIDPrefix ++ id ++ String "010" ""].
Proof.
  intros Hparts. unfold processLine. rewrite Hparts.
  unfold dispatch. cbn [String.eqb Ascii.eqb Bool.eqb].
  unfold onHostRegistered. cbn [List.length Nat.ltb Nat.leb nth].
  eexists. split; [reflexivity|]. cbn [stdout app].
  destruct (headlessFlag g), (hostIDDisplayLabel g), (fyneWindow g), (relayStatusLabel g);
    reflexivity.
Qed.

(** ** The client session initiator *)

Section ClientFacts.

Variable SplitHostPort : string -> (string * string) + error.
Variable JoinHostPort : string -> string -> string.

Local Abbreviation connect := (connectViaRelay SplitHostPort JoinHostPort).

Lemma interpretResponse_classified (targetHostID relayControlAddr response : string)
    (parts : list string) :
  let res := fst (interpretResponse SplitHostPort JoinHostPort targetHostID
                                    relayControlAddr response parts) in
  classify res
  = match parts with
    | [] => TransportOrProtocolError
    | command :: args =>
        if command =? "SESSION_READY" then
          match args, SplitHostPort relayControlAddr with
          | port :: token :: _, inl (host, _) => Success (JoinHostPort host port) token
          | _, _ => TransportOrProtocolError
          end
        else if command =? "ERROR_HOST_NOT_FOUND" then HostNotFound
        else if command =? "ERROR_AUTHENTICATION_FAILED" then AuthenticationFailed
        else TransportOrProtocolError
    end
  /\ (connected res = true -> err res = None)
  /\ (connected res = false ->
      err res <> None /\ relayDataAddrForClient res = "" /\ sessionToken res = "")
  /\ onlyLogs (snd (interpretResponse SplitHostPort JoinHostPort targetHostID
                                      relayControlAddr response parts)) = true.
Proof.
  unfold interpretResponse. destruct parts as [|command args].
  - cbn. repeat split; try discriminate; auto.
  - destruct (command =? "SESSION_READY").
    + destruct args as [|port [|token args]];
        [cbn; repeat split; try discriminate; auto ..|].
      cbn [List.length Nat.ltb Nat.leb nth].
      destruct (SplitHostPort relayControlAddr) as [[host p] | e];
        cbn; repeat split; try discriminate; auto.
    + destruct (command =? "ERROR_HOST_NOT_FOUND");
        [cbn; repeat split; try discriminate; auto|].
      destruct (command =? "ERROR_AUTHENTICATION_FAILED");
        cbn; repeat split; try discriminate; auto.
Qed.

Lemma onlyLogs_no_io (tr : list event) (c : connId) :
  onlyLogs tr = true ->
  writes c tr = [] /\ reads c tr = 0 /\ ~ In (ConnClose c) tr.
Proof.
  unfold onlyLogs. induction tr as [|e tr IH]; cbn [forallb]; [now repeat split|].
  rewrite andb_true_iff. intros [He Htr]. destruct (IH Htr) as (Hw & Hr & Hc).
  destruct e; try discriminate. cbn. repeat split; auto.
  intros [H | H]; [discriminate | auto].
Qed.

Lemma writes_app (c : connId) (a b : list event) :
  writes c (a ++ b) = (writes c a ++ writes c b)%list.
Proof.
  induction a as [|e a IH]; [reflexivity|].
  destruct e; cbn; try destruct (connId_eqb _ _); rewrite ?IH; reflexivity.
Qed.

Lemma reads_app (c : connId) (a b : list event) :
  reads c (a ++ b) = reads c a + reads c b.
Proof.
  induction a as [|e a IH]; [reflexivity|].
  destruct e; cbn; rewrite ?IH; try reflexivity. lia.
Qed.

(** C7.  [connectViaRelay] writes one request and reads at most one
    response; once the dial has succeeded the last thing it does is close
    the connection; and the values it returns tell the caller which of the
    four outcomes occurred: [connected] with address, token and a nil error
    on success, and on a failure an error whose text names host-not-found or
    authentication-failed, or else a transport or protocol error. *)
Theorem connectViaRelay_outcomes
    (env : relayEnv) (targetHostID plainTextPassword relayControlAddr : string) :
  let res := fst (connect env targetHostID plainTextPassword relayControlAddr) in
  let tr := snd (connect env targetHostID plainTextPassword relayControlAddr) in
  classify res = specOutcome SplitHostPort JoinHostPort env relayControlAddr
  /\ (connected res = true -> err res = None)
  /\ (connected res = false ->
      err res <> None /\ relayDataAddrForClient res = "" /\ sessionToken res = "")
  /\ (dialResult env = None ->
      last tr (Log "") = ConnClose clientConn
      /\ List.length (writes clientConn tr) = 1)
  /\ (dialResult env <> None ->
      writes clientConn tr = [] /\ reads clientConn tr = 0)
  /\ reads clientConn tr <= 1.
Proof.
  unfold connectViaRelay, specOutcome.
  destruct env as [[ed|] sendR recvR]; cbn [dialResult sendResult recvResult].
  { cbn. repeat split; intros; try discriminate; try congruence; auto. }
  destruct sendR as [es|].
  { cbn. repeat split; intros; try discriminate; try congruence; auto. }
  destruct recvR as [raw|er].
  - pose proof (interpretResponse_classified targetHostID relayControlAddr
                  (GoStr.TrimSpace raw) (GoStr.Fields (GoStr.TrimSpace raw)))
      as (Hclass & Hok & Hfail & Hlogs).
    destruct (interpretResponse SplitHostPort JoinHostPort targetHostID relayControlAddr
                (GoStr.TrimSpace raw) (GoStr.Fields (GoStr.TrimSpace raw)))
      as [res tr] eqn:E.
    cbn [fst snd] in *.
    destruct (onlyLogs_no_io tr clientConn Hlogs) as (Hw & Hr & _).
    split; [exact Hclass|]. split; [exact Hok|]. split; [exact Hfail|].
    split; [| split].
    + intros _. split.
      * rewrite !app_assoc. apply last_last.
      * rewrite !writes_app, Hw. reflexivity.
    + intros H; congruence.
    + rewrite !reads_app, Hr. cbn. lia.
  - cbn. repeat split; intros; try discriminate; try congruence; auto.
Qed.

End ClientFacts.

(** The theorem when the relay answers [ERROR_AUTHENTICATION_FAILED]. *)
Lemma connectViaRelay_outcomes_witness :
  let run := connectViaRelay Sample.SplitHostPort Sample.JoinHostPort
               (mkRelayEnv None None (inl ("ERROR_AUTHENTICATION_FAILED" ++ String "010" "")))
               "host1" "guess" Sample.relayAddr in
  classify (fst run) = AuthenticationFailed
  /\ last (snd run) (Log "") = ConnClose clientConn.
Proof.
  destruct (connectViaRelay_outcomes Sample.SplitHostPort Sample.JoinHostPort
              (mkRelayEnv None None (inl ("ERROR_AUTHENTICATION_FAILED" ++ String "010" "")))
              "host1" "guess" Sample.relayAddr)
    as (Hclass & _ & _ & Hclose & _).
  split; [exact Hclass |]. apply Hclose. reflexivity.
Defined.

(** ** The registration loop as a whole *)

Section RelayLoopFacts.

Variable CompareHashAndPassword : string -> string -> option error.
Variable SplitHostPort : string -> (string * string) + error.
Variable JoinHostPort : string -> string -> string.
Variable g : gui.
Variables relayCtrlAddrFull localInitialIDHint localGrpcSvcAddr : string.

Local Abbreviation dispatch' :=
  (dispatch CompareHashAndPassword SplitHostPort JoinHostPort g
            relayCtrlAddrFull localGrpcSvcAddr).
Local Abbreviation processLine' :=
  (processLine CompareHashAndPassword SplitHostPort JoinHostPort g
               relayCtrlAddrFull localGrpcSvcAddr).
Local Abbreviation readLoop' :=
  (readLoop CompareHashAndPassword SplitHostPort JoinHostPort g
            relayCtrlAddrFull localGrpcSvcAddr).
Local Abbreviation manage' :=
  (manageRelayRegistrationAndTunnels CompareHashAndPassword SplitHostPort JoinHostPort g
     relayCtrlAddrFull localInitialIDHint localGrpcSvcAddr).

Local Abbreviation passEffects' :=
  (passEffects SplitHostPort JoinHostPort g relayCtrlAddrFull localGrpcSvcAddr).

Lemma sliceTo_None (s : string) (n : nat) :
  GoStr.sliceTo s n = None -> String.length s < n.
Proof.
  revert s; induction n as [|n IH]; intros s; [discriminate|].
  destruct s as [|c s]; cbn; [lia|].
  destruct (GoStr.sliceTo s n) eqn:E; [discriminate|].
  intros _. specialize (IH s E). lia.
Qed.

Lemma dispatch_effects (s : server) (response : string) (parts : list string)
    (errSend : option error) :
  passEffects' s parts (dispatch' s response parts errSend).
Proof.
  unfold dispatch. destruct parts as [|command args].
  { cbn. repeat split; auto. }
  destruct (String.eqb_spec command "HOST_REGISTERED") as [-> | Hhr].
  { unfold onHostRegistered. destruct args as [|id rest].
    - cbn. repeat split; auto.
    - cbn [List.length Nat.ltb Nat.leb nth]. unfold passEffects.
      cbn [assignedBy String.eqb Ascii.eqb Bool.eqb]. split.
      + split; [reflexivity|]. cbn [stdout app].
        destruct (headlessFlag g), (hostIDDisplayLabel g), (fyneWindow g),
          (relayStatusLabel g); reflexivity.
      + destruct (headlessFlag g), (hostIDDisplayLabel g), (fyneWindow g),
          (relayStatusLabel g); cbn; repeat split; auto. }
  destruct (String.eqb_spec command "VERIFY_PASSWORD_REQUEST") as [-> | _].
  { destruct args as [|token rest].
    - cbn. repeat split; auto.
    - destruct (dispatch_verify CompareHashAndPassword SplitHostPort JoinHostPort g
                  relayCtrlAddrFull localGrpcSvcAddr s response token rest errSend)
        as (tr & Hd & Hw & Hl & Hs).
      unfold dispatch in Hd. cbn [String.eqb Ascii.eqb Bool.eqb] in Hd. rewrite Hd.
      unfold passEffects.
      replace (assignedBy ("VERIFY_PASSWORD_REQUEST" :: token :: rest)) with (@None string)
        by reflexivity.
      split; [auto |]. split; [right; eauto |].
      split; [left; auto |].
      clear Hw Hl Hs. unfold onVerifyPasswordRequest in Hd.
      destruct rest; cbn [List.length Nat.leb] in Hd;
        injection Hd as <-;
        destruct (sessionPasswordHash s =? ""), errSend;
        try destruct (passwordVerdict _ _ _); split; reflexivity. }
  destruct (String.eqb_spec command "CREATE_TUNNEL") as [-> | _].
  { unfold onCreateTunnel. destruct args as [|port [|token rest]];
      [cbn; repeat split; auto ..|].
    cbn [List.length Nat.ltb Nat.leb nth].
    destruct (String.eqb_spec (currentRelayHostID s) "") as [E | Hreg].
    { cbn. repeat split; auto. }
    destruct (SplitHostPort relayCtrlAddrFull) as [[host p] | e] eqn:Esplit.
    2:{ cbn. repeat split; auto. }
    destruct (relayLabelShown g) eqn:Eshown.
    - destruct (GoStr.sliceTo token 6) as [short|] eqn:Eslice.
      + cbn. repeat split; auto. right. split; [assumption|].
        exists port, token, rest, host, p. repeat split; auto.
      + cbn. repeat split; auto.
        exists port, token, rest. split; [reflexivity|]. now apply sliceTo_None.
    - cbn. repeat split; auto. right. split; [assumption|].
      exists port, token, rest, host, p. repeat split; auto. }
  assert (Hnone : assignedBy (command :: args) = None).
  { cbn. destruct args; [reflexivity|].
    destruct (String.eqb_spec command "HOST_REGISTERED"); [contradiction | reflexivity]. }
  unfold passEffects. rewrite Hnone. cbn. repeat split; auto.
Qed.

Lemma processLine_effects (s : server) (raw : string) (errSend : option error) :
  passEffects' s (GoStr.Fields (GoStr.TrimSpace raw)) (processLine' s raw errSend).
Proof.
  unfold processLine.
  pose proof (dispatch_effects s (GoStr.TrimSpace raw) (GoStr.Fields (GoStr.TrimSpace raw))
                errSend) as H.
  destruct (dispatch' s (GoStr.TrimSpace raw) (GoStr.Fields (GoStr.TrimSpace raw)) errSend);
    exact H.
Qed.

Lemma traceOf_after (tr : list event) (r : loopResult) :
  traceOf (after tr r) = (tr ++ traceOf r)%list.
Proof. destruct r; reflexivity. Qed.

Lemma launched_app (a b : list event) :
  launched (a ++ b) = (launched a ++ launched b)%list.
Proof.
  induction a as [|e a IH]; [reflexivity|].
  destruct e; cbn; rewrite ?IH; reflexivity.
Qed.

Lemma dials_app (a b : list event) : dials (a ++ b) = (dials a ++ dials b)%list.
Proof.
  induction a as [|e a IH]; [reflexivity|].
  destruct e; cbn; rewrite ?IH; reflexivity.
Qed.

Lemma sleeps_app (a b : list event) : sleeps (a ++ b) = (sleeps a ++ sleeps b)%list.
Proof.
  induction a as [|e a IH]; [reflexivity|].
  destruct e; cbn; rewrite ?IH; reflexivity.
Qed.

Lemma last_cons {A : Type} (a d : A) (l : list A) : last (a :: l) d = last l a.
Proof.
  revert a d. induction l as [|b l IH]; intros a d; [reflexivity|].
  change (last (a :: b :: l) d) with (last (b :: l) d). now rewrite !IH.
Qed.

(** X1.  The read loop and the identity.  If the loop has not panicked, what it
    has written to standard output is one identity line per
    [HOST_REGISTERED] line that carries an identity, in order; the current
    identity is the last one assigned (or the one it started with); and the
    password hash, the server pointer and the local address are
    untouched.  If it has panicked, its output is a prefix of those
    lines. *)
Theorem readLoop_identity (s : server) (input : list tick) :
  match readLoop' s input with
  | LoopWaiting s' tr | LoopEnded s' tr =>
      stdout tr = map identityLine (registeredIds input)
      /\ currentRelayHostID s' = last (registeredIds input) (currentRelayHostID s)
      /\ sessionPasswordHash s' = sessionPasswordHash s
      /\ grpcServer s' = grpcServer s
      /\ localGrpcAddr s' = localGrpcAddr s
  | LoopCrashed tr =>
      exists rest, map identityLine (registeredIds input) = (stdout tr ++ rest)%list
  end.
Proof.
  revert s. induction input as [|t input IH]; intros s.
  { cbn. repeat split; reflexivity. }
  cbn [readLoop registeredIds]. destruct (rd t) as [raw | e].
  2:{ cbn. destruct (is_EOF e); repeat split; reflexivity. }
  pose proof (processLine_effects s raw (wr t)) as Heff.
  unfold registeredIdOf.
  destruct (processLine' s raw (wr t)) as [s1 tr1 | tr1]; unfold passEffects in Heff.
  - destruct Heff as (Hid & _). specialize (IH s1).
    destruct (assignedBy (GoStr.Fields (GoStr.TrimSpace raw))) as [id|].
    + destruct Hid as [-> Hout].
      destruct (readLoop' (with_currentRelayHostID s id) input) as [s2 tr2 | s2 tr2 | tr2];
        cbn [after]; rewrite ?stdout_app, Hout.
      * destruct IH as (H1 & H2 & H3 & H4 & H5). cbn [map app]. rewrite H1.
        repeat split; auto. rewrite H2. now rewrite last_cons.
      * destruct IH as (H1 & H2 & H3 & H4 & H5). cbn [map app]. rewrite H1.
        repeat split; auto. rewrite H2. now rewrite last_cons.
      * destruct IH as [rest Hrest]. exists rest. cbn [map app]. now rewrite Hrest.
    + destruct Hid as [-> Hout].
      destruct (readLoop' s input) as [s2 tr2 | s2 tr2 | tr2];
        cbn [after]; rewrite ?stdout_app, Hout; exact IH.
  - destruct Heff as (_ & (port & token & rest & Hparts & _) & Hout & _).
    rewrite Hparts. cbn [assignedBy String.eqb Ascii.eqb Bool.eqb].
    rewrite Hout. now eexists.
Qed.

Lemma readLoop_quiet (s : server) (input : list tick) :
  dials (traceOf (readLoop' s input)) = []
  /\ sleeps (traceOf (readLoop' s input)) = []
  /\ Forall (hostControlLine localInitialIDHint)
            (writes controlConn (traceOf (readLoop' s input))).
Proof.
  revert s. induction input as [|t input IH]; intros s.
  { cbn. repeat split; constructor. }
  cbn [readLoop]. destruct (rd t) as [raw | e].
  2:{ destruct (is_EOF e); cbn; repeat split; constructor. }
  pose proof (processLine_effects s raw (wr t)) as Heff.
  destruct (processLine' s raw (wr t)) as [s1 tr1 | tr1]; unfold passEffects in Heff.
  - destruct Heff as (_ & Hw & _ & Hd & Hs). destruct (IH s1) as (IHd & IHs & IHw).
    rewrite traceOf_after, dials_app, sleeps_app, writes_app, Hd, Hs, IHd, IHs.
    repeat split. apply Forall_app. split; [| exact IHw].
    destruct Hw as [-> | (token & verdict & ->)]; constructor; [| constructor].
    right. now exists token, verdict.
  - destruct Heff as (_ & _ & _ & Hw & _ & Hd & Hs). cbn [traceOf].
    rewrite Hd, Hs, Hw. repeat split; constructor.
Qed.

Lemma setRelayStatus_quiet (text : string) :
  dials (setRelayStatus g text) = [] /\ sleeps (setRelayStatus g text) = []
  /\ writes controlConn (setRelayStatus g text) = []
  /\ stdout (setRelayStatus g text) = [] /\ launched (setRelayStatus g text) = [].
Proof. unfold setRelayStatus. destruct (relayLabelShown g); repeat split. Qed.

(** X2.  The outer loop never leaves by itself and speaks only the protocol:
    whatever the attempts bring, it is never in the state "ended"; it dials
    no address but the relay's control address; it sleeps only 5 or 10
    seconds; and every line it writes on the control connection is either
    [REGISTER_HOST] with the initial hint (also after a reconnect) or a
    [VERIFY_PASSWORD_RESPONSE]. *)
Theorem manage_retries_forever (s : server) (attempts : list attempt) :
  (forall s' tr, manage' s attempts <> LoopEnded s' tr)
  /\ Forall (eq relayCtrlAddrFull) (dials (traceOf (manage' s attempts)))
  /\ Forall (fun n => n = 5 \/ n = 10) (sleeps (traceOf (manage' s attempts)))
  /\ Forall (hostControlLine localInitialIDHint)
            (writes controlConn (traceOf (manage' s attempts))).
Proof.
  revert s. induction attempts as [|a attempts IH]; intros s.
  { cbn. repeat split; try constructor. discriminate. }
  assert (Hafter : forall tr r, (forall s' tr', r <> LoopEnded s' tr') ->
                                forall s' tr', after tr r <> LoopEnded s' tr').
  { intros tr r Hr s' tr'. destruct r; cbn; try discriminate.
    exfalso. eapply Hr. reflexivity. }
  assert (Hreg : hostControlLine localInitialIDHint
                   ("REGISTER_HOST " ++ localInitialIDHint ++ String "010" ""))
    by (left; reflexivity).
  cbn [manageRelayRegistrationAndTunnels].
  destruct a as [e | remote e | remote input].
  - destruct (IH s) as (IH1 & IH2 & IH3 & IH4).
    split; [apply Hafter; exact IH1 |].
    rewrite traceOf_after.
    rewrite !dials_app, !sleeps_app, !writes_app.
    destruct (setRelayStatus_quiet ("Relay: Connecting to " ++ relayCtrlAddrFull ++ "..."))
      as (-> & -> & -> & _).
    destruct (setRelayStatus_quiet "Relay: Connection failed. Retrying...")
      as (-> & -> & -> & _).
    cbn. repeat split; auto.
  - destruct (IH s) as (IH1 & IH2 & IH3 & IH4).
    split; [apply Hafter; exact IH1 |].
    rewrite traceOf_after.
    rewrite !dials_app, !sleeps_app, !writes_app.
    destruct (setRelayStatus_quiet ("Relay: Connecting to " ++ relayCtrlAddrFull ++ "..."))
      as (-> & -> & -> & _).
    destruct (setRelayStatus_quiet "Relay: Registration command failed.")
      as (-> & -> & -> & _).
    cbn. repeat split; auto.
  - destruct (readLoop_quiet s input) as (Hd & Hs & Hw).
    destruct (setRelayStatus_quiet ("Relay: Connecting to " ++ relayCtrlAddrFull ++ "..."))
      as (Q1 & Q2 & Q3 & _).
    destruct (setRelayStatus_quiet "Relay: Sent registration. Waiting for ID...")
      as (Q4 & Q5 & Q6 & _).
    destruct (readLoop' s input) as [s1 tr1 | s1 tr1 | tr1]; cbn [traceOf] in *.
    + split; [discriminate|].
      rewrite !dials_app, !sleeps_app, !writes_app, Q1, Q2, Q3, Q4, Q5, Q6, Hd, Hs.
      cbn. repeat split; auto.
    + destruct (IH s1) as (IH1 & IH2 & IH3 & IH4).
      split; [apply Hafter; exact IH1 |].
      rewrite traceOf_after.
      rewrite !dials_app, !sleeps_app, !writes_app, Q1, Q2, Q3, Q4, Q5, Q6, Hd, Hs.
      cbn. rewrite !app_nil_r. repeat split; auto.
      constructor; [exact Hreg |]. apply Forall_app. split; assumption.
    + split; [discriminate|].
      rewrite !dials_app, !sleeps_app, !writes_app, Q1, Q2, Q3, Q4, Q5, Q6, Hd, Hs.
      cbn. repeat split; auto.
Qed.

(** X3.  Where the registration loop can panic.  The read loop panics only
    while the status label is shown and only on a [CREATE_TUNNEL] line whose
    token is shorter than six bytes; without the label (headless, or no
    window) neither the read loop nor the outer loop ever panics. *)
Theorem loop_panics_only_on_short_token (s : server) (input : list tick) :
  (forall tr, readLoop' s input = LoopCrashed tr ->
     relayLabelShown g = true
     /\ exists t raw, In t input /\ rd t = ReadLine raw /\ shortTokenLine raw = true)
  /\ (relayLabelShown g = false ->
      forall attempts tr, manage' s attempts <> LoopCrashed tr).
Proof.
  split.
  - revert s. induction input as [|t input IH]; intros s tr; [discriminate|].
    cbn [readLoop]. destruct (rd t) as [raw | e] eqn:Erd; [| discriminate].
    pose proof (processLine_effects s raw (wr t)) as Heff.
    destruct (processLine' s raw (wr t)) as [s1 tr1 | tr1]; unfold passEffects in Heff.
    + destruct (readLoop' s1 input) as [s2 tr2 | s2 tr2 | tr2] eqn:E; cbn [after];
        try discriminate.
      intros _. destruct (IH s1 tr2 E) as (Hshown & t' & raw' & Hin & Hrd & Hshort).
      split; [exact Hshown|]. exists t', raw'. repeat split; auto. now right.
    + intros _. destruct Heff as (Hshown & (port & token & rest & Hparts & Hlen) & _).
      split; [exact Hshown|]. exists t, raw. repeat split; auto; [now left|].
      unfold shortTokenLine. rewrite Hparts. cbn [String.eqb Ascii.eqb Bool.eqb andb].
      now apply Nat.ltb_lt.
  - intros Hhidden attempts. revert s.
    assert (Hread : forall s0 input0 tr0, readLoop' s0 input0 <> LoopCrashed tr0).
    { intros s0 input0. revert s0. induction input0 as [|t input0 IH']; intros s0 tr0;
        [discriminate|].
      cbn [readLoop]. destruct (rd t) as [raw | e]; [| discriminate].
      pose proof (processLine_effects s0 raw (wr t)) as Heff.
      destruct (processLine' s0 raw (wr t)) as [s1 tr1 | tr1]; unfold passEffects in Heff.
      - destruct (readLoop' s1 input0) as [s2 tr2 | s2 tr2 | tr2] eqn:E; cbn [after];
          try discriminate.
        exfalso. exact (IH' s1 tr2 E).
      - destruct Heff as (Hshown & _). congruence. }
    induction attempts as [|a attempts IH]; intros s0 tr; [discriminate|].
    assert (Hafter : forall tr0 r, (forall tr', r <> LoopCrashed tr') ->
                                   forall tr', after tr0 r <> LoopCrashed tr').
    { intros tr0 r Hr tr'. destruct r; cbn; try discriminate.
      exfalso. eapply Hr. reflexivity. }
    cbn [manageRelayRegistrationAndTunnels].
    destruct a as [e | remote e | remote input0].
    + apply Hafter. intros tr'. apply IH.
    + apply Hafter. intros tr'. apply IH.
    + destruct (readLoop' s0 input0) as [s1 tr1 | s1 tr1 | tr1] eqn:E; try discriminate.
      * apply Hafter. intros tr'. apply IH.
      * exfalso. exact (Hread s0 input0 tr1 E).
Qed.

(** X4.  The tunnels the read loop launches.  Every tunnel is launched towards
    the local service address the loop was given and under a non-empty host
    identity, which is the one the loop started with or one a
    [HOST_REGISTERED] line of the input assigned. *)
Theorem launched_tunnels_identified (s : server) (input : list tick) :
  Forall (fun t => let '(l, _, _, h) := t in
                   l = localGrpcSvcAddr
                   /\ h <> ""
                   /\ (h = currentRelayHostID s \/ In h (registeredIds input)))
         (launched (traceOf (readLoop' s input))).
Proof.
  revert s. induction input as [|t input IH]; intros s; [constructor|].
  cbn [readLoop registeredIds]. destruct (rd t) as [raw | e].
  2:{ destruct (is_EOF e); constructor. }
  pose proof (processLine_effects s raw (wr t)) as Heff.
  unfold registeredIdOf.
  destruct (processLine' s raw (wr t)) as [s1 tr1 | tr1]; unfold passEffects in Heff.
  - destruct Heff as (Hid & _ & Hl & _).
    rewrite traceOf_after, launched_app. apply Forall_app. split.
    + destruct Hl as [-> | (Hreg & port & token & rest & host & p & Hparts & _ & ->)];
        [constructor|].
      constructor; [| constructor]. repeat split; auto.
    + specialize (IH s1). eapply Forall_impl; [| exact IH].
      intros [[[l r] tok] h] (H1 & H2 & H3). repeat split; auto.
      destruct (assignedBy (GoStr.Fields (GoStr.TrimSpace raw))) as [id|];
        destruct Hid as [-> _].
      * cbn [currentRelayHostID with_currentRelayHostID] in H3.
        destruct H3 as [-> | H3]; right; [now left | now right].
      * exact H3.
  - destruct Heff as (_ & _ & _ & _ & Hl & _). cbn [traceOf]. rewrite Hl. constructor.
Qed.

(** X5.  An accepted [CREATE_TUNNEL].  For a registered host, a line with the
    fields [CREATE_TUNNEL port token ...] launches exactly one tunnel, to
    the relay's host joined with [port], with [token] and the current
    identity, provided the relay address parses and the status label is
    hidden or the token has at least six bytes; nothing is written back and
    the state is unchanged.  When the relay address does not parse, no
    tunnel is launched. *)
Theorem create_tunnel_accepted
    (s : server) (raw port token : string) (rest : list string) (errSend : option error) :
  GoStr.Fields (GoStr.TrimSpace raw) = "CREATE_TUNNEL" :: port :: token :: rest ->
  currentRelayHostID s <> "" ->
  relayLabelShown g = false \/ 6 <= String.length token ->
  match SplitHostPort relayCtrlAddrFull with
  | inl (host, _) =>
      exists tr,
        processLine' s raw errSend = Next s tr
        /\ launched tr = [(localGrpcSvcAddr, JoinHostPort host port, token,
                           currentRelayHostID s)]
        /\ writes controlConn tr = [] /\ stdout tr = []
  | inr _ =>
      exists tr,
        processLine' s raw errSend = Next s tr
        /\ launched tr = [] /\ writes controlConn tr = [] /\ stdout tr = []
  end.
Proof.
  intros Hparts Hreg Htok. unfold processLine. rewrite Hparts.
  unfold dispatch. cbn [String.eqb Ascii.eqb Bool.eqb].
  unfold onCreateTunnel. cbn [List.length Nat.ltb Nat.leb nth].
  destruct (String.eqb_spec (currentRelayHostID s) "") as [E | _]; [contradiction|].
  destruct (SplitHostPort relayCtrlAddrFull) as [[host p] | e].
  - destruct (relayLabelShown g) eqn:Eshown.
    + destruct Htok as [Hf | Hlen]; [discriminate|].
      destruct (sliceTo_long token 6 Hlen) as [short ->].
      eexists. split; [reflexivity|]. repeat split.
    + eexists. split; [reflexivity|]. repeat split.
  - eexists. split; [reflexivity|]. repeat split.
Qed.

End RelayLoopFacts.

Lemma loop_panics_only_on_short_token_witness :
  relayLabelShown Sample.windowGui = true
  /\ exists t raw,
       In t [mkTick (ReadLine ("CREATE_TUNNEL 40000 abc" ++ String "010" "")) None]
       /\ rd t = ReadLine raw /\ shortTokenLine raw = true.
Proof.
  destruct (loop_panics_only_on_short_token
              Sample.CompareHashAndPassword Sample.SplitHostPort Sample.JoinHostPort
              Sample.windowGui Sample.relayAddr "auto" Sample.localAddr
              (Sample.registered "")
              [mkTick (ReadLine ("CREATE_TUNNEL 40000 abc" ++ String "010" "")) None])
    as [Hcrash _].
  eapply Hcrash. reflexivity.
Defined.

Lemma create_tunnel_accepted_witness :
  exists tr,
    processLine Sample.CompareHashAndPassword Sample.SplitHostPort Sample.JoinHostPort
                Sample.windowGui Sample.relayAddr Sample.localAddr
                (Sample.registered "")
                ("CREATE_TUNNEL 40000 tok1234567 extra" ++ String "010" "") None
    = Next (Sample.registered "") tr
    /\ launched tr = [(Sample.localAddr, "relay.example:40000", "tok1234567", "host1")].
Proof.
  pose proof (create_tunnel_accepted
                Sample.CompareHashAndPassword Sample.SplitHostPort Sample.JoinHostPort
                Sample.windowGui Sample.relayAddr Sample.localAddr
                (Sample.registered "")
                ("CREATE_TUNNEL 40000 tok1234567 extra" ++ String "010" "")
                "40000" "tok1234567" ["extra"] None eq_refl) as H.
  cbn in H. destruct H as (tr & Hrun & Hl & _).
  - discriminate.
  - right. lia.
  - exists tr. split; [exact Hrun | exact Hl].
Defined.

(** ** Setting up a tunnel *)

Lemma sliceTo_Some (s t : string) (n : nat) :
  GoStr.sliceTo s n = Some t -> n <= String.length s.
Proof.
  revert s t; induction n as [|n IH]; intros s t; [lia|].
  destruct s as [|c s]; cbn; [discriminate|].
  destruct (GoStr.sliceTo s n) eqn:E; [| discriminate].
  intros _. specialize (IH s _ E). lia.
Qed.

(** X6.  How [handleHostSideTunnel] gets to its copy loops.  It panics exactly
    when the token has fewer than six bytes, before it has dialled anything.
    Otherwise it dials the relay data address first; the only thing it
    writes on that connection is [SESSION_TOKEN <token> HOST_PROXY]; it dials
    the local service only after that write has succeeded; it starts the
    bridge only if both dials and the write succeeded; and when it returns
    early with the relay connection open, closing it is the last thing it
    does. *)
Theorem tunnel_setup_outcomes
    (g : gui) (env : tunnelEnv)
    (localGrpcServiceAddr relayDataAddrForHost sessionToken registeredHostID : string) :
  let ident := "SESSION_TOKEN " ++ sessionToken ++ " HOST_PROXY" ++ String "010" "" in
  match handleHostSideTunnel_setup g env localGrpcServiceAddr relayDataAddrForHost
                                   sessionToken registeredHostID with
  | SetupCrash tr =>
      String.length sessionToken < 6
      /\ dials tr = [] /\ writes hostProxyConn tr = []
  | SetupReturn tr =>
      6 <= String.length sessionToken
      /\ match dialRelayData env with
         | inr _ =>
             dials tr = [relayDataAddrForHost] /\ writes hostProxyConn tr = []
         | inl _ =>
             writes hostProxyConn tr = [ident]
             /\ last tr (Log "") = ConnClose hostProxyConn
             /\ match identWrite env with
                | Some _ => dials tr = [relayDataAddrForHost]
                | None =>
                    dials tr = [relayDataAddrForHost; localGrpcServiceAddr]
                    /\ dialLocalService env <> None
                end
         end
  | SetupBridge tr _ _ =>
      6 <= String.length sessionToken
      /\ (exists remote, dialRelayData env = inl remote)
      /\ identWrite env = None /\ dialLocalService env = None
      /\ dials tr = [relayDataAddrForHost; localGrpcServiceAddr]
      /\ writes hostProxyConn tr = [ident]
      /\ ~ In (ConnClose hostProxyConn) tr
  end.
Proof.
  intros ident. unfold handleHostSideTunnel_setup.
  destruct (GoStr.sliceTo sessionToken 6) as [short|] eqn:Eslice.
  2:{ apply sliceTo_None in Eslice. repeat split; auto. }
  apply sliceTo_Some in Eslice.
  destruct env as [[remote | e] iw dl txt]; cbn [dialRelayData identWrite dialLocalService].
  2:{ split; [exact Eslice|]. split; reflexivity. }
  destruct iw as [e|].
  { split; [exact Eslice|]. repeat split. }
  destruct dl as [e|].
  { split; [exact Eslice|]. repeat split. discriminate. }
  split; [exact Eslice|]. split; [now exists remote|].
  unfold setRelayStatus. destruct (relayLabelShown g); cbn; repeat split; auto;
    intros H; repeat (destruct H as [H | H]; [discriminate|]); exact H.
Qed.

(** ** More on the tunnel bridge *)

Module BridgeMore.
Import Bridge BridgeFacts.


(** X8.  The wait group is used soundly.  In every reachable state its counter
    is the number of goroutines that have not yet called [wg.Done()], so it
    never exceeds 2, [wg.Done()] is never called on a zero counter, and when
    [wg.Wait()] has returned both connections are closed. *)
Theorem waitgroup_counts_goroutines (s : state) :
  reachable s ->
  wg s = pending (at_ (relayToLocal s)) + pending (at_ (localToRelay s))
  /\ wg s <= 2
  /\ (forall d, at_ (get d s) = ClosedBoth -> 1 <= wg s)
  /\ (returned s = true -> hostProxyClosed s = true /\ localServiceClosed s = true).
Proof.
  intros Hreach. pose proof (reachable_inv s Hreach) as Hinv.
  pose proof Hinv as [Hd Hs Hw Hr]. split; [exact Hw|]. split; [| split].
  - rewrite Hw. destruct (at_ (relayToLocal s)), (at_ (localToRelay s)); cbn; lia.
  - intros d HD. rewrite Hw. destruct d; cbn in HD; rewrite HD; cbn; lia.
  - intros Hret. specialize (Hr Hret). rewrite Hr in Hw.
    apply (done_closed s RelayToLocal Hinv). cbn.
    destruct (at_ (relayToLocal s)); cbn in Hw; try discriminate. reflexivity.
Qed.

Lemma waitgroup_counts_goroutines_witness :
  wg afterRelayEnds = 1 /\ wg afterRelayEnds <= 2.
Proof.
  destruct (waitgroup_counts_goroutines afterRelayEnds afterRelayEnds_reachable)
    as (Hw & Hle & _).
  split; [exact Hw | exact Hle].
Defined.

Lemma step_monotone a s s' :
  step a s s' ->
  (forall c, closed c s = true -> closed c s' = true)
  /\ (forall d, written (get d s) <= written (get d s'))
  /\ (forall d, inCopy (at_ (get d s)) = false -> inCopy (at_ (get d s')) = false)
  /\ (returned s = true -> returned s' = true).
Proof.
  intros Hstep.
  inversion Hstep; subst; clear Hstep; open_state s;
    repeat match goal with d0 : dir |- _ => destruct d0 end;
    cbn in *; subst; cbn in *;
    (split; [intros c; destruct c; cbn; auto |]);
    (split; [intros d'; destruct d'; cbn; lia |]);
    (split; [intros d'; destruct d'; cbn; auto; congruence |]); auto.
Qed.

(** X9.  Nothing is undone along a run of the bridge: a closed connection stays
    closed, the byte counts only grow, a goroutine that has left [io.Copy]
    does not copy again, and a wait that has returned stays returned. *)
Theorem bridge_runs_are_monotone n s s' :
  run n s s' ->
  (forall c, closed c s = true -> closed c s' = true)
  /\ (forall d, written (get d s) <= written (get d s'))
  /\ (forall d, inCopy (at_ (get d s)) = false -> inCopy (at_ (get d s')) = false)
  /\ (returned s = true -> returned s' = true).
Proof.
  induction 1 as [s | n a s s' s'' Hstep Hrun IH].
  - repeat split; auto.
  - destruct (step_monotone a s s' Hstep) as (H1 & H2 & H3 & H4).
    destruct IH as (I1 & I2 & I3 & I4). repeat split; auto.
    intros d. specialize (H2 d). specialize (I2 d). lia.
Qed.

Lemma bridge_runs_are_monotone_witness :
  written (get RelayToLocal init)
  <= written (get RelayToLocal
                  (set RelayToLocal (mkCopier Reading 7) (move RelayToLocal Writing init))).
Proof.
  assert (Hrun : run 2 init
                   (set RelayToLocal (mkCopier Reading 7) (move RelayToLocal Writing init))).
  { eapply run_S; [apply (read_data RelayToLocal init); reflexivity |].
    eapply run_S; [| apply run_0].
    apply (write_ok RelayToLocal (move RelayToLocal Writing init) 7); reflexivity. }
  destruct (bridge_runs_are_monotone 2 _ _ Hrun) as (_ & Hw & _).
  apply (Hw RelayToLocal).
Defined.

End BridgeMore.

(** What a copy goroutine logs: a line at level INFO when [io.Copy]
    returned no error or an error that [isNetworkCloseError] accepts, and a
    line at level ERROR otherwise. *)
Lemma copyLog_levels (logCtx : string) (d : Bridge.dir) (n : nat) (errCopy : option error) :
  exists msg,
    Bridge.copyLog logCtx d n errCopy = Log msg
    /\ GoStr.HasPrefix msg "INFO: "
       = (match errCopy with None => true | Some _ => isNetworkCloseError errCopy end)
    /\ GoStr.HasPrefix msg "ERROR: "
       = (match errCopy with None => false | Some _ => negb (isNetworkCloseError errCopy) end).
Proof.
  unfold Bridge.copyLog. destruct errCopy as [e|]; cbn [andb negb].
  - destruct (isNetworkCloseError (Some e)); cbn [negb]; eexists;
      (split; [reflexivity|]); split; reflexivity.
  - eexists. split; [reflexivity|]. split; reflexivity.
Qed.

(** ** More on host identities *)

Lemma hex_pair_roundtrip (b : Byte.byte) :
  Byte.of_nat (16 * hexValue (HostID.hexDigit (Byte.to_nat b / 16))
               + hexValue (HostID.hexDigit (Byte.to_nat b mod 16))) = Some b.
Proof. destruct b; vm_compute; reflexivity. Qed.

Lemma DecodeString_EncodeToString (src : list Byte.byte) :
  DecodeString (HostID.EncodeToString src) = Some src.
Proof.
  induction src as [|b src IH]; [reflexivity|].
  cbn [HostID.EncodeToString DecodeString]. now rewrite hex_pair_roundtrip, IH.
Qed.

(** The hexadecimal encoding loses nothing: two byte strings with the same
    encoding are equal. *)
Lemma EncodeToString_injective (a b : list Byte.byte) :
  HostID.EncodeToString a = HostID.EncodeToString b -> a = b.
Proof.
  intros H. apply (f_equal DecodeString) in H.
  rewrite !DecodeString_EncodeToString in H. now injection H.
Qed.

(** X11.  Generated identities collide only if the random bytes do: when two
    calls with the same length and a working random source return the same
    identity, the random source has filled every position of the two buffers
    with the same byte. *)
Theorem generated_identities_collide_only_on_equal_bytes
    (byteLength : Z) (fill fill' : nat -> Byte.byte) :
  (0 <= byteLength)%Z ->
  HostID.generateRandomHostID byteLength (HostID.RandOk fill)
  = HostID.generateRandomHostID byteLength (HostID.RandOk fill') ->
  forall i, i < Z.to_nat byteLength -> fill i = fill' i.
Proof.
  intros Hn Heq i Hi. unfold HostID.generateRandomHostID in Heq.
  destruct (Z.ltb_spec byteLength 0) as [Hneg | _]; [lia|].
  injection Heq as Heq. apply EncodeToString_injective in Heq.
  unfold HostID.randRead, HostID.make in Heq. rewrite repeat_length in Heq.
  apply (proj1 map_ext_in_iff Heq). apply in_seq. lia.
Qed.

Lemma generated_identities_collide_only_on_equal_bytes_witness :
  let fill := fun _ : nat => Byte.xab in
  let fill' := fun i : nat => if (i <? 4)%nat then Byte.xab else Byte.x00 in
  HostID.generateRandomHostID 4 (HostID.RandOk fill) = Some "abababab"
  /\ HostID.generateRandomHostID 4 (HostID.RandOk fill') = Some "abababab"
  /\ fill 3 = fill' 3.
Proof.
  intros fill fill'. split; [reflexivity | split; [reflexivity |]].
  apply (generated_identities_collide_only_on_equal_bytes 4 fill fill').
  - lia.
  - reflexivity.
  - cbn. lia.
Defined.

Lemma digitsFuel_length (fuel n k : nat) (acc : string) :
  (Z.of_nat n < 10 ^ Z.of_nat k)%Z -> 1 <= k ->
  String.length (Fmt.digitsFuel fuel n acc) <= k + String.length acc.
Proof.
  revert n k acc. induction fuel as [|fuel IH]; intros n k acc Hn Hk; cbn [Fmt.digitsFuel].
  - lia.
  - destruct (Nat.eqb_spec (n / 10) 0) as [E | Hne]; [cbn [String.length]; lia|].
    destruct k as [|k]; [lia|].
    assert (Hdiv : (Z.of_nat (n / 10) < 10 ^ Z.of_nat k)%Z).
    { rewrite Nat2Z.inj_div. change (Z.of_nat 10) with 10%Z.
      apply Z.div_lt_upper_bound; [lia|].
      rewrite Nat2Z.inj_succ, Z.pow_succ_r in Hn by lia. exact Hn. }
    destruct k as [|k].
    { change (10 ^ Z.of_nat 0)%Z with 1%Z in Hdiv. lia. }
    specialize (IH (n / 10) (S k) (String (Fmt.digit (n mod 10)) acc) Hdiv).
    cbn [String.length] in IH. lia.
Qed.

Lemma zeros_length (k : nat) : String.length (Fmt.zeros k) = k.
Proof. induction k as [|k IH]; cbn; [reflexivity | now rewrite IH]. Qed.

Lemma append_length (a b : string) :
  String.length (a ++ b) = String.length a + String.length b.
Proof. induction a as [|c a IH]; cbn; [reflexivity | now rewrite IH]. Qed.

(** X12.  The fallback identity.  When the random source fails the identity
    starts with [randfail], so it is never mistaken for a hexadecimal
    identity, and for a clock at or after the epoch it has exactly 16
    bytes. *)
Theorem fallback_identity_shape (byteLength unixNano : Z) (e : error) :
  (0 <= byteLength)%Z ->
  exists id,
    HostID.generateRandomHostID byteLength (HostID.RandFails e unixNano) = Some id
    /\ GoStr.HasPrefix id "randfail" = true
    /\ HostID.allHex id = false
    /\ ((0 <= unixNano)%Z -> String.length id = 16).
Proof.
  intros Hlen. unfold HostID.generateRandomHostID.
  destruct (Z.ltb_spec byteLength 0) as [|_]; [lia|].
  eexists. split; [reflexivity|]. split; [reflexivity|]. split; [reflexivity|].
  intros Hclock. rewrite append_length. cbn [String.length].
  assert (Hrem : (0 <= Z.rem unixNano 100000000 < 100000000)%Z).
  { apply Z.rem_bound_pos; lia. }
  unfold Fmt.d08. destruct (Z.ltb_spec (Z.rem unixNano 100000000) 0) as [|_]; [lia|].
  rewrite append_length, zeros_length.
  assert (Hn : (Z.of_nat (Z.abs_nat (Z.rem unixNano 100000000)) < 10 ^ Z.of_nat 8)%Z).
  { change (10 ^ Z.of_nat 8)%Z with 100000000%Z. lia. }
  pose proof (digitsFuel_length (S (Z.abs_nat (Z.rem unixNano 100000000)))
                (Z.abs_nat (Z.rem unixNano 100000000)) 8 "" Hn) as Hle.
  unfold Fmt.decimal. cbn [String.length] in Hle. lia.
Qed.

Lemma fallback_identity_shape_witness :
  exists id,
    HostID.generateRandomHostID 4 (HostID.RandFails io_EOF 1730000000000000042) = Some id
    /\ GoStr.HasPrefix id "randfail" = true
    /\ String.length id = 16.
Proof.
  destruct (fallback_identity_shape 4 1730000000000000042 io_EOF) as (id & H1 & H2 & _ & H4).
  - lia.
  - exists id. split; [exact H1|]. split; [exact H2|]. apply H4. lia.
Defined.

(** ** Start-up *)

(** X13.  The initial identity.  With [-hostID] set to [auto] in any letter case,
    or left empty, and a working random source, the initial identity is 8
    hexadecimal digits; with any other value it is that value, unchanged. *)
Theorem initial_identity (f : flags) (env : startEnv) :
  (GoStr.ToLower (hostIDFlag f) = "auto" \/ hostIDFlag f = "" ->
   forall fill, rand env = HostID.RandOk fill ->
     String.length (fst (initialHostIDOf f env)) = 8
     /\ HostID.allHex (fst (initialHostIDOf f env)) = true)
  /\ (GoStr.ToLower (hostIDFlag f) <> "auto" -> hostIDFlag f <> "" ->
      fst (initialHostIDOf f env) = hostIDFlag f).
Proof.
  unfold initialHostIDOf. split.
  - intros Hauto fill Hrand.
    assert (Hcond : (GoStr.ToLower (hostIDFlag f) =? "auto") || (hostIDFlag f =? "") = true).
    { destruct Hauto as [-> | ->]; [reflexivity | now rewrite orb_true_r]. }
    rewrite Hcond, Hrand. cbn [fst]. unfold HostID.generateRandomHostID. cbn [Z.ltb Z.compare].
    split.
    + rewrite EncodeToString_length, randRead_length. reflexivity.
    + apply EncodeToString_allHex.
  - intros H1 H2.
    destruct (String.eqb_spec (GoStr.ToLower (hostIDFlag f)) "auto"); [contradiction|].
    destruct (String.eqb_spec (hostIDFlag f) ""); [contradiction|]. reflexivity.
Qed.

Lemma initial_identity_witness :
  String.length
    (fst (initialHostIDOf
            (mkFlags 32212 true Sample.relayAddr "AUTO" "" true true true true true)
            (mkStartEnv (HostID.RandOk (fun _ => Byte.xab)) (inl Sample.localAddr) [] None)))
  = 8.
Proof.
  destruct (initial_identity
              (mkFlags 32212 true Sample.relayAddr "AUTO" "" true true true true true)
              (mkStartEnv (HostID.RandOk (fun _ => Byte.xab)) (inl Sample.localAddr) [] None))
    as [Hauto _].
  apply (Hauto (or_introl eq_refl) (fun _ => Byte.xab) eq_refl).
Defined.

(** X14.  What start-up leaves behind.  If the listener or the TLS credentials
    fail, start-up ends in [log.Fatalf] and has printed no identity line.
    Otherwise the server is serving, so that the first
    [tryGracefulShutdown] acts and returns true; it has the password hash
    of the flags; and in relay mode it has no identity
    yet and has printed none, so that a [CREATE_TUNNEL] that arrives before
    [HOST_REGISTERED] launches no tunnel. *)
Theorem startup_outcomes (f : flags) (env : startEnv) :
  match main_startup f env with
  | Fatal tr =>
      ((exists e, listenResult env = inr e) \/ (exists e, tlsResult env = Some e))
      /\ stdout tr = []
  | Started s g id tr =>
      (exists addr, listenResult env = inl addr /\ localGrpcAddr s = addr)
      /\ tlsResult env = None
      /\ id = fst (initialHostIDOf f env)
      /\ sessionPasswordHash s = sessionPasswordFlag f
      /\ (forall timeout race, snd (fst (tryGracefulShutdown s timeout race)) = true)
      /\ (enableRelay f = true ->
          currentRelayHostID s = "" /\ stdout tr = []
          /\ forall CompareHashAndPassword SplitHostPort JoinHostPort
                    relayAddr localAddr response args errSend,
               exists tr',
                 dispatch CompareHashAndPassword SplitHostPort JoinHostPort g
                          relayAddr localAddr s response ("CREATE_TUNNEL" :: args) errSend
                 = Next s tr'
                 /\ launched tr' = [])
  end.
Proof.
  unfold main_startup.
  destruct (initialHostIDOf f env) as [id tr0] eqn:E.
  pose proof (initialHostIDOf_silent f env id tr0 E) as H0.
  destruct (listenResult env) as [addr | e].
  2:{ split; [left; now exists e |]. rewrite !stdout_app, H0. reflexivity. }
  destruct (tlsResult env) as [e|].
  { split; [right; now exists e |]. rewrite !stdout_app, H0. reflexivity. }
  split; [now exists addr |].
  split; [reflexivity|]. split; [reflexivity|]. split; [reflexivity|].
  split.
  { intros timeout race. destruct race; reflexivity. }
  intros Hrelay. cbn [currentRelayHostID]. rewrite Hrelay, andb_false_r.
  split; [reflexivity|]. split.
  - rewrite !stdout_app, H0. unfold guiSetup, commonSetup. rewrite Hrelay.
    destruct (headless f); reflexivity.
  - intros CHP SHP JHP relayAddr localAddr response args errSend.
    unfold dispatch. cbn [String.eqb Ascii.eqb Bool.eqb]. unfold onCreateTunnel.
    cbn [currentRelayHostID String.eqb].
    destruct (List.length ("CREATE_TUNNEL" :: args) <? 3)%nat;
      eexists; split; reflexivity.
Qed.

Lemma startup_outcomes_witness :
  exists s g id tr,
    main_startup
      (mkFlags 32212 true Sample.relayAddr "LauncherHost" "" true true true false true)
      (mkStartEnv (HostID.RandOk (fun _ => Byte.xab)) (inl Sample.localAddr) [] None)
    = Started s g id tr
    /\ currentRelayHostID s = "" /\ stdout tr = [].
Proof.
  pose proof (startup_outcomes
                (mkFlags 32212 true Sample.relayAddr "LauncherHost" "" true true true false true)
                (mkStartEnv (HostID.RandOk (fun _ => Byte.xab)) (inl Sample.localAddr) [] None))
    as H.
  cbn in H. destruct H as (_ & _ & _ & _ & _ & Hrelay).
  destruct (Hrelay eq_refl) as (Hid & Hout & _).
  do 4 eexists. split; [reflexivity|]. split; [exact Hid | exact Hout].
Defined.

(** ** Keyboard input on the host *)

Lemma lower_idempotent (c : ascii) : GoStr.lower (GoStr.lower c) = GoStr.lower c.
Proof. destruct c as [[] [] [] [] [] [] [] []]; reflexivity. Qed.

Lemma ToLower_idempotent (s : string) : GoStr.ToLower (GoStr.ToLower s) = GoStr.ToLower s.
Proof.
  induction s as [|c s IH]; [reflexivity|].
  cbn [GoStr.ToLower]. now rewrite lower_idempotent, IH.
Qed.

(** X15.  The key names handed to the injection library are in lower case: for
    every ASCII key name the mapped name is unchanged by [strings.ToLower]. *)
Theorem mapped_key_is_lower_case (fyneKeyName : string) :
  GoStrMore.isAscii fyneKeyName = true ->
  let '(key, _, _) := Keys.mapFyneKeyToRobotGo fyneKeyName in
  GoStr.ToLower key = key.
Proof.
  intros _. unfold Keys.mapFyneKeyToRobotGo.
  repeat match goal with
         | |- context [if GoStrMore.oneOf fyneKeyName ?l then _ else _] =>
             destruct (GoStrMore.oneOf fyneKeyName l);
             [first [reflexivity | apply ToLower_idempotent] |]
         end.
  unfold Keys.mapDefault.
  destruct (GoStr.HasPrefix fyneKeyName "Key" && (String.length fyneKeyName =? 4)%nat).
  - destruct (GoStrMore.sliceFrom fyneKeyName 3) as [|c0 rest].
    + destruct (String.length fyneKeyName =? 1)%nat; apply ToLower_idempotent.
    + destruct ((String.length (String c0 rest) =? 1)%nat && Keys.isUpperOrDigit c0).
      * apply ToLower_idempotent.
      * destruct (String.length fyneKeyName =? 1)%nat; apply ToLower_idempotent.
  - destruct (String.length fyneKeyName =? 1)%nat; apply ToLower_idempotent.
Qed.

Lemma mapped_key_is_lower_case_witness :
  let '(key, _, _) := Keys.mapFyneKeyToRobotGo "PageDown" in GoStr.ToLower key = key.
Proof. apply (mapped_key_is_lower_case "PageDown"). reflexivity. Defined.

(** X16.  Letter, digit and single-character keys.  The name [Key] followed by
    one upper-case letter or digit maps to that character in lower case, and
    a name of a single character maps to that character in lower case; in
    both cases the key is not special and nothing is logged. *)
Theorem character_keys (c : ascii) :
  (Keys.isUpperOrDigit c = true ->
   Keys.mapFyneKeyToRobotGo ("Key" ++ String c "") = (String (GoStr.lower c) "", false, []))
  /\ Keys.mapFyneKeyToRobotGo (String c "") = (String (GoStr.lower c) "", false, []).
Proof.
  split.
  - intros Hc. unfold Keys.mapFyneKeyToRobotGo, GoStrMore.oneOf.
    cbn [existsb String.eqb Ascii.eqb Bool.eqb orb append].
    unfold Keys.mapDefault.
    cbn [GoStr.HasPrefix Ascii.eqb Bool.eqb andb String.length Nat.eqb
         GoStrMore.sliceFrom].
    now rewrite Hc.
  - unfold Keys.mapFyneKeyToRobotGo, GoStrMore.oneOf.
    cbn [existsb String.eqb Ascii.eqb Bool.eqb orb].
    repeat match goal with
           | |- context [if Ascii.eqb c ?d then false else false] =>
               replace (if Ascii.eqb c d then false else false) with false
                 by (destruct (Ascii.eqb c d); reflexivity)
           end.
    cbn [orb]. unfold Keys.mapDefault.
    destruct (GoStr.HasPrefix (String c "") "Key") eqn:E.
    + cbn in E. rewrite andb_false_r in E. discriminate.
    + reflexivity.
Qed.

Lemma character_keys_witness :
  Keys.mapFyneKeyToRobotGo "KeyB" = ("b", false, []).
Proof.
  destruct (character_keys "B") as [H _]. apply H. reflexivity.
Defined.

Lemma robots_app (a b : list effect) : robots (a ++ b) = (robots a ++ robots b)%list.
Proof.
  induction a as [|e a IH]; [reflexivity|].
  destruct e; cbn; now rewrite IH.
Qed.

Lemma mapFyneKeyToRobotGo_only_logs (fyneKeyName : string) :
  robots (snd (Keys.mapFyneKeyToRobotGo fyneKeyName)) = [].
Proof.
  unfold Keys.mapFyneKeyToRobotGo.
  repeat match goal with
         | |- context [if GoStrMore.oneOf fyneKeyName ?l then _ else _] =>
             destruct (GoStrMore.oneOf fyneKeyName l); [reflexivity |]
         end.
  unfold Keys.mapDefault.
  destruct (GoStr.HasPrefix fyneKeyName "Key" && (String.length fyneKeyName =? 4)%nat);
    [destruct (GoStrMore.sliceFrom fyneKeyName 3) as [|c0 rest];
     [| destruct ((String.length (String c0 rest) =? 1)%nat && Keys.isUpperOrDigit c0);
        [reflexivity|]] |];
    destruct (String.length fyneKeyName =? 1)%nat; try reflexivity;
    destruct (negb (fyneKeyName =? "")); reflexivity.
Qed.

(** X17.  What a keyboard event can make the host do.  A [keyup] releases a
    modifier or does nothing; it never taps a key or types.  A [keychar]
    types its character string, or does nothing when that is empty,
    whatever key name it carries.  A [keydown] is either the five calls of
    Ctrl+Alt+Delete or at most one call.  Any other event type does
    nothing. *)
Theorem keyboard_event_effects (reqMsg : Keys.keyEvent) :
  let calls := robots (Keys.processKeyboardInput reqMsg) in
  (Keys.keyboardEventType reqMsg = "keyup" ->
   calls = [] \/ exists k, Keys.isModifierKey k = true /\ calls = [KeyToggle k "up"])
  /\ (Keys.keyboardEventType reqMsg = "keychar" ->
      calls = if Keys.keyCharStr reqMsg =? "" then []
              else [TypeStr (Keys.keyCharStr reqMsg)])
  /\ (Keys.keyboardEventType reqMsg = "keydown" ->
      calls = [KeyToggle "ctrl" "down"; KeyToggle "alt" "down"; KeyTap "delete";
               KeyToggle "alt" "up"; KeyToggle "ctrl" "up"]
      \/ List.length calls <= 1)
  /\ (Keys.keyboardEventType reqMsg <> "keydown" ->
      Keys.keyboardEventType reqMsg <> "keyup" ->
      Keys.keyboardEventType reqMsg <> "keychar" ->
      calls = []).
Proof.
  unfold Keys.processKeyboardInput.
  pose proof (mapFyneKeyToRobotGo_only_logs (Keys.keyName reqMsg)) as Hlog.
  destruct (Keys.mapFyneKeyToRobotGo (Keys.keyName reqMsg)) as [[k special] lg].
  cbn [snd] in Hlog. cbn zeta.
  assert (Hmapped : forall (l : list effect),
             robots ((if negb (Keys.keyName reqMsg =? "")
                      then [Say ("Mapped FyneKeyName '" ++ Keys.keyName reqMsg
                                 ++ "' to robotgoKeyName '" ++ k ++ "' (isSpecial: "
                                 ++ Fmt.t special ++ ")")]
                      else []) ++ l) = robots l).
  { intros l. destruct (negb (Keys.keyName reqMsg =? "")); reflexivity. }
  cbn [robots]. rewrite robots_app, Hlog, Hmapped. cbn [app].
  repeat split.
  - intros ->. cbn [String.eqb Ascii.eqb Bool.eqb andb].
    destruct (negb (k =? "")); [| now left].
    destruct (Keys.isModifierKey k) eqn:Ek; [right; now exists k | now left].
  - intros ->. cbn [String.eqb Ascii.eqb Bool.eqb andb].
    destruct (Keys.keyCharStr reqMsg =? ""); reflexivity.
  - intros ->. cbn [String.eqb Ascii.eqb Bool.eqb andb].
    destruct ((k =? "delete") && Keys.modifierCtrl reqMsg && Keys.modifierAlt reqMsg);
      [now left | right].
    destruct (negb (k =? "")); [destruct (Keys.isModifierKey k), special |
                                destruct (negb (Keys.keyCharStr reqMsg =? ""))];
      cbn; lia.
  - intros H1 H2 H3.
    destruct (String.eqb_spec (Keys.keyboardEventType reqMsg) "keydown"); [contradiction|].
    destruct (String.eqb_spec (Keys.keyboardEventType reqMsg) "keyup"); [contradiction|].
    destruct (String.eqb_spec (Keys.keyboardEventType reqMsg) "keychar"); [contradiction|].
    reflexivity.
Qed.

Lemma keyboard_event_effects_witness :
  robots (Keys.processKeyboardInput (Keys.mkKeyEvent "keychar" "KeyQ" "@" false false false false))
  = [TypeStr "@"].
Proof.
  destruct (keyboard_event_effects
              (Keys.mkKeyEvent "keychar" "KeyQ" "@" false false false false))
    as (_ & Hchar & _).
  apply Hchar. reflexivity.
Defined.

(** ** Input events on the host *)

Section InputFacts.

Variable float32 : Type.
Variable ofInt : Z -> float32.
Variable toInt : float32 -> Z.
Variable mul : float32 -> float32 -> float32.
Variable neg : float32 -> float32.
Variable gt0 lt0 : float32 -> bool.
Variable fmt2f : float32 -> string.

Local Abbreviation handleInputEvent' :=
  (handleInputEvent float32 ofInt toInt mul neg gt0 lt0 fmt2f).
Local Abbreviation handleInputEvents' :=
  (handleInputEvents float32 ofInt toInt mul neg gt0 lt0 fmt2f).

Lemma processKeyboardInput_keyboard_only (k : Keys.keyEvent) :
  forallb isKeyboardCall (robots (Keys.processKeyboardInput k)) = true.
Proof.
  unfold Keys.processKeyboardInput.
  pose proof (mapFyneKeyToRobotGo_only_logs (Keys.keyName k)) as Hlog.
  destruct (Keys.mapFyneKeyToRobotGo (Keys.keyName k)) as [[key special] lg].
  cbn [snd] in Hlog. cbn zeta. cbn [robots]. rewrite !robots_app, Hlog. cbn [app].
  destruct (negb (Keys.keyName k =? "")); cbn [robots app];
    destruct ((Keys.keyboardEventType k =? "keydown") && (key =? "delete")
              && Keys.modifierCtrl k && Keys.modifierAlt k);
    try reflexivity;
    destruct (Keys.keyboardEventType k =? "keydown");
    try (destruct (negb (key =? "")); [destruct (Keys.isModifierKey key), special |
                                       destruct (negb (Keys.keyCharStr k =? ""))];
         reflexivity);
    destruct (Keys.keyboardEventType k =? "keyup");
    try (destruct (negb (key =? "")); [destruct (Keys.isModifierKey key) |]; reflexivity);
    destruct (Keys.keyboardEventType k =? "keychar");
    try (destruct (negb (Keys.keyCharStr k =? "")); reflexivity);
    reflexivity.
Qed.

(** X18.  Mouse control denied.  When the host does not allow mouse control, the
    calls made for any sequence of requests are exactly the keyboard calls
    of its keyboard events: no pointer move, button or scroll call is ever
    made, and keyboard events are acted on whatever the other permissions
    of the server are. *)
Theorem mouse_denied_means_no_pointer_calls
    (s : server) (inputEvents : list (inputRequest float32)) (scaleX scaleY : float32) :
  allowMouseControl s = false ->
  robots (handleInputEvents' s inputEvents scaleX scaleY)
  = flat_map (fun reqMsg =>
                if message float32 reqMsg =? "keyboard_event"
                then robots (Keys.processKeyboardInput (keys float32 reqMsg))
                else [])
             inputEvents
  /\ forallb isKeyboardCall (robots (handleInputEvents' s inputEvents scaleX scaleY)) = true.
Proof.
  intros Hdenied. unfold handleInputEvents. cbn [robots]. rewrite robots_app.
  cbn [robots]. rewrite app_nil_r.
  assert (Hone : forall reqMsg,
             robots (handleInputEvent' s reqMsg scaleX scaleY)
             = if message float32 reqMsg =? "keyboard_event"
               then robots (Keys.processKeyboardInput (keys float32 reqMsg))
               else []).
  { intros reqMsg. unfold handleInputEvent. rewrite Hdenied. cbn [negb].
    destruct (String.eqb_spec (message float32 reqMsg) "mouse_event") as [E | _].
    - rewrite E. reflexivity.
    - cbn [andb]. destruct (message float32 reqMsg =? "keyboard_event"); reflexivity. }
  assert (Hall : robots (flat_map (fun reqMsg => handleInputEvent' s reqMsg scaleX scaleY)
                                  inputEvents)
                 = flat_map (fun reqMsg =>
                               if message float32 reqMsg =? "keyboard_event"
                               then robots (Keys.processKeyboardInput (keys float32 reqMsg))
                               else [])
                            inputEvents).
  { induction inputEvents as [|r rest IH]; [reflexivity|].
    cbn [flat_map]. now rewrite robots_app, Hone, IH. }
  rewrite Hall. split; [reflexivity|].
  clear Hall. induction inputEvents as [|r rest IH]; [reflexivity|].
  cbn [flat_map]. rewrite forallb_app, IH, andb_true_r.
  destruct (message float32 r =? "keyboard_event"); [| reflexivity].
  apply processKeyboardInput_keyboard_only.
Qed.

(** X19.  A batch of mouse moves.  When mouse control is allowed, a
    [batched_mouse_moves] request makes one pointer move per non-nil point,
    in the order of the batch, each coordinate scaled by its factor, and no
    other call. *)
Theorem batched_moves_in_order
    (s : server) (reqMsg : inputRequest float32) (scaleX scaleY : float32) :
  allowMouseControl s = true ->
  message float32 reqMsg = "mouse_event" ->
  mouseEventType float32 reqMsg = "batched_mouse_moves" ->
  robots (handleInputEvent' s reqMsg scaleX scaleY)
  = flat_map (fun point =>
                match point with
                | Some (x, y) =>
                    [Move (scaled float32 ofInt toInt mul x scaleX)
                          (scaled float32 ofInt toInt mul y scaleY)]
                | None => []
                end)
             (batchedMouseMoves float32 reqMsg).
Proof.
  intros Hallow Hmsg Htype. unfold handleInputEvent, mouseEffects.
  rewrite Hallow, Hmsg, Htype. cbn [String.eqb Ascii.eqb Bool.eqb andb negb].
  assert (Hbatch : forall points,
             robots (moveBatch float32 ofInt toInt mul points scaleX scaleY)
             = flat_map (fun point =>
                           match point with
                           | Some (x, y) =>
                               [Move (scaled float32 ofInt toInt mul x scaleX)
                                     (scaled float32 ofInt toInt mul y scaleY)]
                           | None => []
                           end) points).
  { induction points as [|[[x y]|] rest IH]; cbn; [reflexivity | now rewrite IH | exact IH]. }
  destruct (batchedMouseMoves float32 reqMsg) as [|p rest] eqn:E; [reflexivity|].
  cbn [robots]. apply Hbatch.
Qed.

End InputFacts.

Lemma mouse_denied_means_no_pointer_calls_witness :
  robots (handleInputEvents Z (fun z => z) (fun z => z) Z.mul Z.opp (Z.ltb 0) (fun z => Z.ltb z 0)
            Fmt.d
            (mkServer Sample.localAddr "" "host1" (Some Serving) false false true true)
            [mkInputRequest Z "mouse_event" 10 20 "left" "down" 0%Z 0%Z []
               (Keys.mkKeyEvent "" "" "" false false false false);
             mkInputRequest Z "keyboard_event" 0 0 "" "" 0%Z 0%Z []
               (Keys.mkKeyEvent "keychar" "" "a" false false false false)]
            1%Z 1%Z)
  = [TypeStr "a"].
Proof.
  destruct (mouse_denied_means_no_pointer_calls
              Z (fun z => z) (fun z => z) Z.mul Z.opp (Z.ltb 0) (fun z => Z.ltb z 0) Fmt.d
              (mkServer Sample.localAddr "" "host1" (Some Serving) false false true true)
              [mkInputRequest Z "mouse_event" 10 20 "left" "down" 0%Z 0%Z []
                 (Keys.mkKeyEvent "" "" "" false false false false);
               mkInputRequest Z "keyboard_event" 0 0 "" "" 0%Z 0%Z []
                 (Keys.mkKeyEvent "keychar" "" "a" false false false false)]
              1%Z 1%Z eq_refl) as [H _].
  exact H.
Defined.

Lemma batched_moves_in_order_witness :
  robots (handleInputEvent Z (fun z => z) (fun z => z) Z.mul Z.opp (Z.ltb 0)
            (fun z => Z.ltb z 0) Fmt.d
            (Sample.registered "")
            (mkInputRequest Z "mouse_event" 0 0 "" "batched_mouse_moves" 0%Z 0%Z
               [Some (1, 2); None; Some (3, 4)]%Z
               (Keys.mkKeyEvent "" "" "" false false false false))
            2%Z 3%Z)
  = [Move 2 6; Move 6 12].
Proof.
  apply (batched_moves_in_order
           Z (fun z => z) (fun z => z) Z.mul Z.opp (Z.ltb 0) (fun z => Z.ltb z 0) Fmt.d
           (Sample.registered "")
           (mkInputRequest Z "mouse_event" 0 0 "" "batched_mouse_moves" 0%Z 0%Z
              [Some (1, 2); None; Some (3, 4)]%Z
              (Keys.mkKeyEvent "" "" "" false false false false))
           2%Z 3%Z eq_refl eq_refl eq_refl).
Defined.

(** ** The feed service *)

Lemma subseq_refl {A : Type} (l : list A) : subseq l l.
Proof. induction l; constructor; assumption. Qed.

Lemma subseq_insert {A : Type} (x : A) (a b c : list A) :
  subseq a (b ++ c) -> subseq a (b ++ x :: c).
Proof.
  revert a. induction b as [|y b IH]; intros a H; cbn in *.
  - now apply subseq_skip.
  - inversion H; subst.
    + apply subseq_keep. now apply IH.
    + apply subseq_skip. now apply IH.
Qed.

Lemma pump_accounts {A : Type} (capacity : nat) (steps : list (Feed.chanStep A))
    (q : list A) :
  List.length q <= capacity ->
  let r := Feed.pump capacity q steps in
  List.length (Feed.queued r) <= capacity
  /\ subseq (Feed.delivered r ++ Feed.queued r) (q ++ arrivals steps)
  /\ List.length (Feed.delivered r) + List.length (Feed.queued r)
     + List.length (Feed.dropped r)
     = List.length q + List.length (arrivals steps)
  /\ List.length (Feed.said r) = List.length (Feed.dropped r)
  /\ (List.length q + List.length (arrivals steps) <= capacity ->
      Feed.dropped r = [] /\ (Feed.delivered r ++ Feed.queued r)%list = (q ++ arrivals steps)%list).
Proof.
  revert q. induction steps as [|st steps IH]; intros q Hq; cbn [Feed.pump arrivals].
  - cbn. rewrite app_nil_r.
    refine (conj _ (conj _ (conj _ (conj _ _)))); auto. apply subseq_refl.
  - destruct st as [x |].
    + unfold Feed.trySend. destruct (Nat.ltb_spec (List.length q) capacity) as [Hlt | Hge].
      * assert (Hq' : List.length (q ++ [x]) <= capacity) by (rewrite length_app; cbn; lia).
        specialize (IH (q ++ [x])%list Hq'). cbn zeta in IH.
        destruct IH as (I1 & I2 & I3 & I4 & I5).
        rewrite <- app_assoc in I2, I5. cbn [app] in I2, I5.
        rewrite length_app in I3, I5. cbn [List.length] in I3, I5 |- *.
        refine (conj _ (conj _ (conj _ (conj _ _)))); auto; try lia.
        intros Hfew. apply I5. lia.
      * specialize (IH q Hq). cbn zeta in IH. destruct IH as (I1 & I2 & I3 & I4 & I5).
        cbn [Feed.delivered Feed.queued Feed.dropped Feed.said List.length].
        refine (conj _ (conj _ (conj _ (conj _ _)))); auto; try lia.
        now apply subseq_insert.
    + destruct q as [|x q'].
      * apply (IH [] Hq).
      * assert (Hq' : List.length q' <= capacity) by (cbn in Hq; lia).
        specialize (IH q' Hq'). cbn zeta in IH. destruct IH as (I1 & I2 & I3 & I4 & I5).
        cbn [Feed.delivered Feed.queued Feed.dropped Feed.said List.length app].
        refine (conj _ (conj _ (conj _ (conj _ _)))); auto; try lia;
          try (now apply subseq_keep).
        intros Hfew. cbn [List.length] in Hfew.
        destruct I5 as [I5a I5b]; [lia|]. split; [exact I5a | now rewrite I5b].
Qed.

(** X20.  Input events between the stream and the handler.  While
    [receiveInputEvents] runs with the channel of 120 that [GetFeed] makes,
    the channel never holds more than 120 requests; the requests the
    handler has taken, followed by those still queued, are the arrived
    requests in their order of arrival with the dropped ones left out; every
    arrived request is taken, queued or dropped, one log line per drop; and
    when no more than 120 requests arrive in all, none is dropped.  The
    function returns the error of the stream, for which [GetFeed] returns
    nil exactly when it is [io.EOF] or has status Canceled or Unavailable. *)
Theorem input_events_keep_their_order {A : Type}
    (steps : list (Feed.chanStep A)) (recvErr : Feed.streamErr) :
  let r := fst (Feed.receiveInputEvents steps recvErr Feed.inputEventsCapacity) in
  List.length (Feed.queued r) <= 120
  /\ subseq (Feed.delivered r ++ Feed.queued r) (arrivals steps)
  /\ List.length (Feed.delivered r) + List.length (Feed.queued r)
     + List.length (Feed.dropped r)
     = List.length (arrivals steps)
  /\ (List.length (arrivals steps) <= 120 ->
      Feed.dropped r = [] /\ (Feed.delivered r ++ Feed.queued r)%list = arrivals steps)
  /\ snd (Feed.receiveInputEvents steps recvErr Feed.inputEventsCapacity) = recvErr
  /\ (Feed.GetFeed_result recvErr = None
      <-> recvErr = Feed.StreamEOF \/ Feed.canceledOrUnavailable recvErr = true)
  /\ (Feed.GetFeed_result recvErr <> None -> Feed.GetFeed_result recvErr = Some recvErr).
Proof.
  unfold Feed.receiveInputEvents, Feed.inputEventsCapacity. cbn [fst snd Feed.delivered
    Feed.queued Feed.dropped].
  destruct (pump_accounts 120 steps (@nil A)) as (H1 & H2 & H3 & _ & H5); [cbn; lia|].
  cbn [app List.length] in *.
  refine (conj H1 (conj H2 (conj H3 (conj H5 (conj eq_refl (conj _ _)))))).
  - unfold Feed.GetFeed_result. split.
    + destruct recvErr as [|[] msg|msg]; cbn; auto; discriminate.
    + intros [E | E]; [now subst | now rewrite E].
  - unfold Feed.GetFeed_result. intros Hne.
    destruct recvErr as [|[] msg|msg]; cbn in *; auto; contradiction.
Qed.

Lemma input_events_keep_their_order_witness :
  Feed.dropped (fst (Feed.receiveInputEvents
                       [Feed.Arrives 1; Feed.Arrives 2; Feed.Taken; Feed.Arrives 3]
                       Feed.StreamEOF Feed.inputEventsCapacity)) = []
  /\ (Feed.delivered (fst (Feed.receiveInputEvents
                             [Feed.Arrives 1; Feed.Arrives 2; Feed.Taken; Feed.Arrives 3]
                             Feed.StreamEOF Feed.inputEventsCapacity))
      ++ Feed.queued (fst (Feed.receiveInputEvents
                             [Feed.Arrives 1; Feed.Arrives 2; Feed.Taken; Feed.Arrives 3]
                             Feed.StreamEOF Feed.inputEventsCapacity)))%list
     = [1; 2; 3].
Proof.
  destruct (input_events_keep_their_order
              [Feed.Arrives 1; Feed.Arrives 2; Feed.Taken; Feed.Arrives 3] Feed.StreamEOF)
    as (_ & _ & _ & H & _).
  apply H. cbn. lia.
Defined.

Lemma wrapInt32_add (a b : Z) :
  Feed.wrapInt32 (Feed.wrapInt32 a + b) = Feed.wrapInt32 (a + b).
Proof.
  unfold Feed.wrapInt32. f_equal.
  replace ((a + 2147483648) mod 4294967296 - 2147483648 + b + 2147483648)%Z
    with ((a + 2147483648) mod 4294967296 + b)%Z by lia.
  rewrite Zplus_mod_idemp_l. f_equal. lia.
Qed.

Lemma sendScreenFeed_numbers (turns : list Feed.feedTurn) (c : Z) :
  Feed.wrapInt32 c = c ->
  map Feed.frameNumber (fst (Feed.sendScreenFeed c turns))
  = map (fun i => Feed.wrapInt32 (c + Z.of_nat i))
        (seq 0 (List.length (fst (Feed.sendScreenFeed c turns))))
  /\ Forall (fun f => Feed.frameData f <> [] /\ Feed.contentType f = "video/mp2t")
            (fst (Feed.sendScreenFeed c turns))
  /\ (snd (Feed.sendScreenFeed c turns) = None
      \/ snd (Feed.sendScreenFeed c turns) = Some None
      \/ exists desc,
           snd (Feed.sendScreenFeed c turns)
           = Some (Some (Feed.statusErrorf Feed.Internal desc))).
Proof.
  revert c. induction turns as [|t turns IH]; intros c Hc; cbn [Feed.sendScreenFeed].
  - cbn. repeat split; auto.
  - destruct t as [r s |].
    2:{ cbn. repeat split; auto. }
    destruct r as [data | | msg].
    + destruct data as [|b data]; [apply IH; exact Hc|].
      destruct s as [| e].
      * assert (Hc' : Feed.wrapInt32 (Feed.wrapInt32 (c + 1)) = Feed.wrapInt32 (c + 1)).
        { rewrite <- (Z.add_0_r (Feed.wrapInt32 (c + 1))) at 1.
          rewrite wrapInt32_add. now rewrite Z.add_0_r. }
        destruct (IH _ Hc') as (I1 & I2 & I3).
        destruct (Feed.sendScreenFeed (Feed.wrapInt32 (c + 1)) turns) as [frames result].
        cbn [fst snd] in *. cbn [map List.length seq Feed.frameNumber].
        split; [| split; [| exact I3]].
        -- rewrite Z.add_0_r, Hc. f_equal. rewrite I1, <- seq_shift, map_map.
           apply map_ext. intros i. rewrite wrapInt32_add. f_equal. lia.
        -- constructor; [| exact I2]. cbn. split; [discriminate | reflexivity].
      * destruct (Feed.canceledOrUnavailable e); cbn [fst snd map List.length seq];
          rewrite Z.add_0_r, Hc;
          (split; [reflexivity |]);
          (split; [constructor; [cbn; split; [discriminate | reflexivity] | constructor] |]);
          [right; now left | right; right; now eexists].
    + cbn. repeat split; auto. right. right. now eexists.
    + apply IH. exact Hc.
Qed.

(** X21.  The screen feed.  The frames [sendScreenFeed] hands to the stream are
    numbered 0, 1, 2, ... in order (as [int32], so with wrap-around), with no
    number skipped for the frames that could not be read or were empty;
    every frame it sends is non-empty and marked [video/mp2t]; and when it
    returns, it returns nil or an error of status Internal. *)
Theorem screen_frames_are_numbered (turns : list Feed.feedTurn) :
  map Feed.frameNumber (fst (Feed.sendScreenFeed 0 turns))
  = map (fun i => Feed.wrapInt32 (Z.of_nat i))
        (seq 0 (List.length (fst (Feed.sendScreenFeed 0 turns))))
  /\ Forall (fun f => Feed.frameData f <> [] /\ Feed.contentType f = "video/mp2t")
            (fst (Feed.sendScreenFeed 0 turns))
  /\ (snd (Feed.sendScreenFeed 0 turns) = None
      \/ snd (Feed.sendScreenFeed 0 turns) = Some None
      \/ exists desc,
           snd (Feed.sendScreenFeed 0 turns)
           = Some (Some (Feed.statusErrorf Feed.Internal desc))).
Proof. exact (sendScreenFeed_numbers turns 0 eq_refl). Qed.

(** ** The launcher *)


















Lemma hex_is_not_colon (c : ascii) :
  HostID.isHexDigit c = true -> Ascii.eqb c ":" = false.
Proof.
  destruct c as [[] [] [] [] [] [] [] []]; vm_compute; intros H;
    first [reflexivity | discriminate H].
Qed.

Lemma allHex_no_colon (s : string) :
  HostID.allHex s = true -> GoStr.Contains s ":" = false.
Proof.
  induction s as [|c s IH]; [reflexivity|].
  cbn [HostID.allHex GoStr.Contains GoStr.HasPrefix]. intros H.
  apply andb_true_iff in H. destruct H as [Hc Hs].
  rewrite (hex_is_not_colon c Hc), (IH Hs). reflexivity.
Qed.

(** X23.  Direct address or host identity.  An input that is all hexadecimal
    digits, as generated identities are, is never taken for a direct
    address.  An input that is taken for a direct address starts the client
    on that address whatever the relay would do: the relay is not asked and
    no session token is passed. *)
Theorem direct_or_relay
    (SplitHostPort : string -> (string * string) + error)
    (JoinHostPort : string -> string -> string)
    (userInput : string) :
  (HostID.allHex userInput = true -> Launcher.isPotentiallyDirect userInput = false)
  /\ (Launcher.isPotentiallyDirect userInput = true ->
      forall path env password insecure relayAddr,
        Launcher.onSubmit SplitHostPort JoinHostPort (inl path) env userInput password
                          insecure relayAddr
        = Launcher.LaunchClient path
            (("-address=" ++ userInput)
             :: (if insecure then ["-allowLocalInsecure=true"] else []))).
Proof.
  split.
  - intros H. unfold Launcher.isPotentiallyDirect. now rewrite (allHex_no_colon _ H).
  - intros Hdirect path env password insecure relayAddr. unfold Launcher.onSubmit.
    destruct (String.eqb_spec userInput "") as [-> | _]; [discriminate|].
    rewrite Hdirect. reflexivity.
Qed.

Lemma direct_or_relay_witness :
  Launcher.isPotentiallyDirect "dead0bef" = false
  /\ Launcher.onSubmit Sample.SplitHostPort Sample.JoinHostPort (inl "/opt/app/client")
       (mkRelayEnv (Some io_EOF) None (inr io_EOF)) "10.0.0.7:32212" "" false Sample.relayAddr
     = Launcher.LaunchClient "/opt/app/client" ["-address=10.0.0.7:32212"].
Proof.
  split.
  - destruct (direct_or_relay Sample.SplitHostPort Sample.JoinHostPort "dead0bef") as [H _].
    apply H. reflexivity.
  - destruct (direct_or_relay Sample.SplitHostPort Sample.JoinHostPort "10.0.0.7:32212")
      as [_ H].
    apply (H eq_refl "/opt/app/client" (mkRelayEnv (Some io_EOF) None (inr io_EOF)) "" false
             Sample.relayAddr).
Defined.

(** X24.  Both ends meet.  Let host and client use the same relay control
    address, and let the relay send [CREATE_TUNNEL port token] to the
    registered host and [SESSION_READY port token] to the client.  Then the
    tunnel the host launches and the client the launcher starts are given
    the same data address, the relay's host joined with [port], and the
    same session token. *)
Theorem both_ends_meet
    (CompareHashAndPassword : string -> string -> option error)
    (SplitHostPort : string -> (string * string) + error)
    (JoinHostPort : string -> string -> string)
    (g : gui) (relayAddr localGrpcSvcAddr : string) (s : server)
    (rawHost rawClient port token : string) (restHost restClient : list string)
    (errSend : option error)
    (path targetHostID password : string) (insecure : bool) (host p : string) :
  SplitHostPort relayAddr = inl (host, p) ->
  GoStr.Fields (GoStr.TrimSpace rawHost) = "CREATE_TUNNEL" :: port :: token :: restHost ->
  GoStr.Fields (GoStr.TrimSpace rawClient) = "SESSION_READY" :: port :: token :: restClient ->
  currentRelayHostID s <> "" ->
  relayLabelShown g = false \/ 6 <= String.length token ->
  targetHostID <> "" -> Launcher.isPotentiallyDirect targetHostID = false ->
  (exists tr,
     processLine CompareHashAndPassword SplitHostPort JoinHostPort g relayAddr
                 localGrpcSvcAddr s rawHost errSend = Next s tr
     /\ launched tr = [(localGrpcSvcAddr, JoinHostPort host port, token,
                        currentRelayHostID s)])
  /\ Launcher.onSubmit SplitHostPort JoinHostPort (inl path)
       (mkRelayEnv None None (inl rawClient)) targetHostID password insecure relayAddr
     = Launcher.LaunchClient path
         (Launcher.clientArgs (JoinHostPort host port) true token insecure).
Proof.
  intros Hsplit HpartsH HpartsC Hreg Htok Hne Hrelay. split.
  - unfold processLine. rewrite HpartsH.
    unfold dispatch. cbn [String.eqb Ascii.eqb Bool.eqb].
    unfold onCreateTunnel. cbn [List.length Nat.ltb Nat.leb nth].
    destruct (String.eqb_spec (currentRelayHostID s) "") as [E | _]; [contradiction|].
    rewrite Hsplit. destruct (relayLabelShown g) eqn:Eshown.
    + destruct Htok as [Hf | Hlen]; [discriminate|].
      destruct (sliceTo_long token 6 Hlen) as [short ->].
      eexists. split; reflexivity.
    + eexists. split; reflexivity.
  - unfold Launcher.onSubmit.
    destruct (String.eqb_spec targetHostID "") as [E | _]; [contradiction|].
    rewrite Hrelay. unfold connectViaRelay.
    cbn [dialResult sendResult recvResult]. rewrite HpartsC.
    unfold interpretResponse. cbn [String.eqb Ascii.eqb Bool.eqb List.length Nat.ltb Nat.leb nth].
    rewrite Hsplit. reflexivity.
Qed.

Lemma both_ends_meet_witness :
  Launcher.onSubmit Sample.SplitHostPort Sample.JoinHostPort (inl "/opt/app/client")
    (mkRelayEnv None None (inl ("SESSION_READY 40000 tok1234567" ++ String "010" "")))
    "host1" "" false Sample.relayAddr
  = Launcher.LaunchClient "/opt/app/client"
      ["-address=relay.example:40000"; "-connectionType=relay"; "-sessionToken=tok1234567"].
Proof.
  destruct (both_ends_meet
              Sample.CompareHashAndPassword Sample.SplitHostPort Sample.JoinHostPort
              Sample.headlessGui Sample.relayAddr Sample.localAddr (Sample.registered "")
              ("CREATE_TUNNEL 40000 tok1234567" ++ String "010" "")
              ("SESSION_READY 40000 tok1234567" ++ String "010" "")
              "40000" "tok1234567" [] [] None
              "/opt/app/client" "host1" "" false "relay.example" "34000"
              eq_refl eq_refl eq_refl) as [_ H].
  - discriminate.
  - left. reflexivity.
  - discriminate.
  - reflexivity.
  - exact H.
Defined.

(** ** The client's overlay *)



Section OverlayFacts.

Variable float32 : Type.
Variable zero c1920 c1080 : float32.
Variable isZero : float32 -> bool.
Variable fdiv fmul : float32 -> float32 -> float32.
Variable toInt32 : float32 -> Z.
Variable canControlMouse canControlKeyboard : bool.

Local Abbreviation step :=
  (overlayStep float32 zero c1920 c1080 isZero fdiv fmul toInt32
               canControlMouse canControlKeyboard).
Local Abbreviation run :=
  (overlayRun float32 zero c1920 c1080 isZero fdiv fmul toInt32
              canControlMouse canControlKeyboard).
Local Abbreviation scale := (scalePoint float32 zero c1920 c1080 isZero fdiv fmul toInt32).
Local Abbreviation flush := (sendBatchedMoves float32 zero).
Local Abbreviation points := (batchedPoints float32).
Local Abbreviation batch := (batchedMoves).

Lemma batchedPoints_app (a b : list (inputRequest float32)) :
  points (a ++ b)%list = (points a ++ points b)%list.
Proof. unfold batchedPoints. apply flat_map_app. Qed.

Lemma unwrap_points (moves : list (Z * Z)) :
  flat_map (fun p : option (Z * Z) => match p with Some xy => [xy] | None => [] end)
           (map Some moves) = moves.
Proof. induction moves as [|m moves IH]; cbn; [reflexivity | now rewrite IH]. Qed.

(** [sendBatchedMoves] offers exactly the points it held and holds none
    afterwards; the button state is untouched. *)
Lemma sendBatchedMoves_flushes (mo : overlay) :
  points (snd (flush mo)) = batch mo
  /\ batch (fst (flush mo)) = []
  /\ mouseBtnState (fst (flush mo)) = mouseBtnState mo.
Proof.
  unfold sendBatchedMoves. destruct (batch mo) as [|m moves] eqn:E.
  - cbn. rewrite E. auto.
  - cbn [fst snd batchedMoves mouseBtnState]. repeat split.
    unfold batchedPoints. cbn [flat_map mouseEventType batchedMouseMoves].
    cbn [String.eqb Ascii.eqb Bool.eqb]. cbn [flat_map].
    rewrite app_nil_r. apply (unwrap_points (m :: moves)).
Qed.

Lemma sendMouseEvent_no_points (sz : float32 * float32) (eventType btn : string)
    (pos : float32 * float32) :
  (eventType =? "batched_mouse_moves") = false ->
  points (sendMouseEvent float32 zero c1920 c1080 isZero fdiv fmul toInt32
                         canControlMouse sz eventType btn pos) = [].
Proof.
  intros H. unfold sendMouseEvent. destruct (negb canControlMouse); [reflexivity|].
  destruct (scale sz pos) as [x y]. unfold batchedPoints.
  cbn [flat_map mouseEventType]. now rewrite H.
Qed.

Lemma sendScrollEvent_no_points (dx dy : float32) :
  points (sendScrollEvent float32 canControlMouse dx dy) = [].
Proof. unfold sendScrollEvent. destruct (negb canControlMouse); reflexivity. Qed.

(** One call keeps the account: the points offered by it and the points
    held after it are the points held before it, followed by the scaled
    position when the call is a move and the mouse may be controlled. *)
Lemma overlayStep_accounts (sz : float32 * float32) (mo : overlay) (ev : uiEvent float32) :
  (points (snd (step sz mo ev)) ++ batch (fst (step sz mo ev)))%list
  = (batch mo
     ++ (if canControlMouse then map (scale sz) (movedPositions float32 [ev]) else []))%list.
Proof.
  pose proof (sendBatchedMoves_flushes mo) as (Hp & He & _).
  assert (Hflush : (points (snd (flush mo)) ++ batch (fst (flush mo)))%list = batch mo).
  { rewrite Hp, He. apply app_nil_r. }
  assert (Hnil : forall l : list (Z * Z),
             (l ++ (if canControlMouse then [] else []))%list = l).
  { intros l. destruct canControlMouse; apply app_nil_r. }
  destruct ev; cbn [overlayStep movedPositions flat_map map app];
    try (destruct (flush mo) as [mo' flushed] eqn:E; cbn [fst snd] in *;
         cbn [batchedMoves]; rewrite batchedPoints_app;
         first [ rewrite sendMouseEvent_no_points by reflexivity
               | rewrite sendScrollEvent_no_points
               | idtac ];
         rewrite ?app_nil_r, Hnil; exact Hflush).
  - destruct canControlMouse; cbn [negb fst snd batchedMoves batchedPoints flat_map map app].
    + reflexivity.
    + now rewrite app_nil_r.
  - destruct (negb canControlKeyboard).
    + cbn [fst snd batchedPoints flat_map app]. now rewrite Hnil.
    + destruct (flush mo) as [mo' flushed] eqn:E; cbn [fst snd] in *.
      rewrite batchedPoints_app. cbn. rewrite app_nil_r, Hnil. exact Hflush.
  - rewrite Hnil. exact Hflush.
Qed.

Lemma movedPositions_cons (ev : uiEvent float32) (events : list (uiEvent float32)) :
  movedPositions float32 (ev :: events)
  = (movedPositions float32 [ev] ++ movedPositions float32 events)%list.
Proof. unfold movedPositions. cbn [flat_map]. now rewrite app_nil_r. Qed.

(** X26.  No pointer move is lost or repeated between the overlay and the
    channel.  Over any sequence of calls on the overlay (moves, presses,
    releases, enter, leave, scroll, typed runes, ticks of the batch timer),
    taken one at a time with the overlay at size [sz]: when the mouse may be
    controlled, the points of the batched requests offered to the channel,
    followed by the points still held, are the points held at the start
    followed by the scaled positions of the moves, in order.  When the mouse
    may not be controlled, moves add nothing. *)
Theorem batching_keeps_every_move (sz : float32 * float32) (events : list (uiEvent float32))
    (mo : overlay) :
  (points (snd (run sz mo events)) ++ batch (fst (run sz mo events)))%list
  = (batch mo
     ++ (if canControlMouse then map (scale sz) (movedPositions float32 events) else []))%list.
Proof.
  revert mo. induction events as [|ev events IH]; intros mo.
  - cbn. destruct canControlMouse; now rewrite app_nil_r.
  - cbn [overlayRun].
    pose proof (overlayStep_accounts sz mo ev) as Hstep.
    destruct (step sz mo ev) as [mo1 out1] eqn:E1. cbn [fst snd] in Hstep.
    specialize (IH mo1).
    destruct (run sz mo1 events) as [mo2 out2] eqn:E2. cbn [fst snd] in *.
    rewrite batchedPoints_app, <- app_assoc, IH, app_assoc, Hstep.
    rewrite (movedPositions_cons ev events).
    destruct canControlMouse; rewrite ?map_app, ?app_nil_r, <- ?app_assoc; reflexivity.
Qed.

(** Every call other than a move leaves no point behind: a press, a
    release, enter, leave, a scroll, a tick of the batch timer, and a typed
    rune when the keyboard may be controlled, end with an empty batch. *)
Lemma every_other_call_flushes (sz : float32 * float32) (mo : overlay)
    (ev : uiEvent float32) :
  match ev with
  | MouseMoved _ _ => True
  | TypedRune _ _ => canControlKeyboard = true -> batch (fst (step sz mo ev)) = []
  | _ => batch (fst (step sz mo ev)) = []
  end.
Proof.
  pose proof (sendBatchedMoves_flushes mo) as (_ & He & _).
  destruct ev; cbn [overlayStep]; try exact I;
    try (destruct (flush mo) as [mo' flushed]; cbn [fst snd batchedMoves] in *; exact He).
  intros ->. cbn [negb].
  destruct (flush mo) as [mo' flushed]; cbn [fst snd batchedMoves] in *; exact He.
Qed.

End OverlayFacts.

(** ** From the client's overlay to the host's pointer *)

Section PointerEndToEnd.

(** [float32] on the client. *)
Variable float32 : Type.
Variable zero c1920 c1080 : float32.
Variable isZero : float32 -> bool.
Variable fdiv fmul : float32 -> float32 -> float32.
Variable toInt32 : float32 -> Z.
Variable canControlMouse canControlKeyboard : bool.

(** [float32] on the host. *)
Variable ofInt : Z -> float32.
Variable toInt : float32 -> Z.
Variable mul : float32 -> float32 -> float32.
Variable neg : float32 -> float32.
Variable gt0 lt0 : float32 -> bool.
Variable fmt2f : float32 -> string.

Local Abbreviation run :=
  (overlayRun float32 zero c1920 c1080 isZero fdiv fmul toInt32
              canControlMouse canControlKeyboard).
Local Abbreviation scale := (scalePoint float32 zero c1920 c1080 isZero fdiv fmul toInt32).
Local Abbreviation step :=
  (overlayStep float32 zero c1920 c1080 isZero fdiv fmul toInt32
               canControlMouse canControlKeyboard).
Local Abbreviation flush := (sendBatchedMoves float32 zero).
Local Abbreviation handle := (handleInputEvent float32 ofInt toInt mul neg gt0 lt0 fmt2f).
Local Abbreviation toHost := (hostMove float32 ofInt toInt mul).

Lemma overlayRun_app (sz : float32 * float32) (a b : list (uiEvent float32)) (mo : overlay) :
  run sz mo (a ++ b)%list
  = (fst (run sz (fst (run sz mo a)) b),
     (snd (run sz mo a) ++ snd (run sz (fst (run sz mo a)) b))%list).
Proof.
  revert mo. induction a as [|ev a IH]; intros mo.
  - cbn. now destruct (run sz mo b).
  - cbn [app overlayRun].
    destruct (overlayStep float32 zero c1920 c1080 isZero fdiv fmul toInt32
                canControlMouse canControlKeyboard sz mo ev) as [mo1 out1].
    rewrite IH. destruct (run sz mo1 a) as [mo2 out2]. cbn [fst snd].
    now rewrite app_assoc.
Qed.

Lemma overlayRun_moves (sz : float32 * float32) (ps : list (float32 * float32))
    (mo : overlay) :
  canControlMouse = true ->
  run sz mo (map (MouseMoved float32) ps)
  = (mkOverlay (mouseBtnState mo) (batchedMoves mo ++ map (scale sz) ps), []).
Proof.
  intros Hc. revert mo. induction ps as [|p ps IH]; intros mo.
  - cbn. rewrite app_nil_r. now destruct mo.
  - cbn [map overlayRun overlayStep].
    replace (negb canControlMouse) with false by now rewrite Hc.
    rewrite IH. cbn [mouseBtnState batchedMoves app]. now rewrite <- app_assoc.
Qed.

Lemma robots_moveBatch (moves : list (Z * Z)) (scaleX scaleY : float32) :
  robots (moveBatch float32 ofInt toInt mul (map Some moves) scaleX scaleY)
  = map (toHost scaleX scaleY) moves.
Proof.
  induction moves as [|[x y] moves IH]; cbn; [reflexivity | now rewrite IH].
Qed.

(** The host's calls for what [sendBatchedMoves] offers. *)
Lemma flushed_moves_on_host (s : server) (mo : overlay) (scaleX scaleY : float32) :
  allowMouseControl s = true ->
  robots (flat_map (fun r => handle s r scaleX scaleY)
                   (snd (sendBatchedMoves float32 zero mo)))
  = map (toHost scaleX scaleY) (batchedMoves mo).
Proof.
  intros Ha. unfold sendBatchedMoves.
  destruct (batchedMoves mo) as [|m moves]; [reflexivity|].
  cbn [snd flat_map]. rewrite app_nil_r.
  unfold handleInputEvent, mouseEffects. rewrite Ha.
  cbn [message mouseEventType batchedMouseMoves String.eqb Ascii.eqb Bool.eqb andb negb].
  cbn [map]. cbn [robots]. apply (robots_moveBatch (m :: moves)).
Qed.

Lemma overlayStep_down (sz : float32 * float32) (mo : overlay) (b : mouseButton)
    (pos : float32 * float32) :
  step sz mo (MouseDownAt float32 b pos)
  = (mkOverlay (buttonName b) (batchedMoves (fst (flush mo))),
     (snd (flush mo)
      ++ sendMouseEvent float32 zero c1920 c1080 isZero fdiv fmul toInt32
                        canControlMouse sz "down" (buttonName b) pos)%list).
Proof. cbn [overlayStep]. now destruct (flush mo). Qed.

Lemma overlayStep_up (sz : float32 * float32) (mo : overlay) (b : mouseButton)
    (pos : float32 * float32) :
  step sz mo (MouseUpAt float32 b pos)
  = (mkOverlay (if mouseBtnState (fst (flush mo)) =? buttonName b then ""
                else mouseBtnState (fst (flush mo)))
               (batchedMoves (fst (flush mo))),
     (snd (flush mo)
      ++ sendMouseEvent float32 zero c1920 c1080 isZero fdiv fmul toInt32
                        canControlMouse sz "up" (buttonName b) pos)%list).
Proof. cbn [overlayStep]. now destruct (flush mo). Qed.

Lemma overlayRun_cons (sz : float32 * float32) (mo : overlay) (ev : uiEvent float32)
    (rest : list (uiEvent float32)) :
  run sz mo (ev :: rest)
  = (fst (run sz (fst (step sz mo ev)) rest),
     (snd (step sz mo ev) ++ snd (run sz (fst (step sz mo ev)) rest))%list).
Proof.
  cbn [overlayRun]. destruct (step sz mo ev) as [mo1 out1]. cbn [fst snd].
  now destruct (run sz mo1 rest).
Qed.

(** The host's calls for a press or a release sent by the overlay. *)
Lemma press_on_host (s : server) (sz : float32 * float32) (scaleX scaleY : float32)
    (btn : string) (pos : float32 * float32) :
  canControlMouse = true ->
  allowMouseControl s = true ->
  robots (flat_map (fun r => handle s r scaleX scaleY)
            (sendMouseEvent float32 zero c1920 c1080 isZero fdiv fmul toInt32
                            canControlMouse sz "down" btn pos))
  = [toHost scaleX scaleY (scale sz pos); MouseDown btn].
Proof.
  intros Hc Ha. unfold sendMouseEvent. rewrite Hc. cbn [negb].
  unfold hostMove. destruct (scale sz pos) as [x y]. cbn [flat_map].
  unfold handleInputEvent, mouseEffects. rewrite Ha. reflexivity.
Qed.

Lemma release_on_host (s : server) (sz : float32 * float32) (scaleX scaleY : float32)
    (btn : string) (pos : float32 * float32) :
  canControlMouse = true ->
  allowMouseControl s = true ->
  robots (flat_map (fun r => handle s r scaleX scaleY)
            (sendMouseEvent float32 zero c1920 c1080 isZero fdiv fmul toInt32
                            canControlMouse sz "up" btn pos))
  = [toHost scaleX scaleY (scale sz pos); MouseUp btn].
Proof.
  intros Hc Ha. unfold sendMouseEvent. rewrite Hc. cbn [negb].
  unfold hostMove. destruct (scale sz pos) as [x y]. cbn [flat_map].
  unfold handleInputEvent, mouseEffects. rewrite Ha. reflexivity.
Qed.

(** X27.  A click after moves, from the client's overlay to the host's pointer.
    With mouse control allowed on both sides and no point held at the
    start, the overlay turns moves at [ps], a press of button [b] at [down]
    and its release at [up] into requests which, handled by the host in
    that order, move the pointer through every scaled position of [ps],
    then to the press position, press the button, move to the release
    position and release it; nothing else is done with the pointer, no
    point stays behind and no button is remembered as held. *)
Theorem click_after_moves_reaches_host
    (s : server) (sz : float32 * float32) (scaleX scaleY : float32)
    (mo : overlay) (ps : list (float32 * float32)) (b : mouseButton)
    (down up : float32 * float32) :
  canControlMouse = true ->
  allowMouseControl s = true ->
  batchedMoves mo = [] ->
  let events := (map (MouseMoved float32) ps
                 ++ [MouseDownAt float32 b down; MouseUpAt float32 b up])%list in
  let '(mo', requests) := run sz mo events in
  robots (flat_map (fun r => handle s r scaleX scaleY) requests)
  = (map (toHost scaleX scaleY) (map (scale sz) ps)
     ++ [toHost scaleX scaleY (scale sz down); MouseDown (buttonName b);
         toHost scaleX scaleY (scale sz up); MouseUp (buttonName b)])%list
  /\ batchedMoves mo' = []
  /\ mouseBtnState mo' = "".
Proof.
  intros Hc Ha Hb events. subst events.
  rewrite overlayRun_app, (overlayRun_moves sz ps mo Hc). cbn [fst snd app].
  rewrite Hb. cbn [app].
  set (mo1 := mkOverlay (mouseBtnState mo) (map (scale sz) ps)).
  pose proof (flushed_moves_on_host s mo1 scaleX scaleY Ha) as Hflush.
  pose proof (sendBatchedMoves_flushes float32 zero mo1) as (_ & Hempty & _).
  rewrite overlayRun_cons, overlayStep_down. cbn [fst snd].
  rewrite Hempty.
  rewrite overlayRun_cons, overlayStep_up.
  cbn [sendBatchedMoves batchedMoves mouseBtnState fst snd overlayRun].
  rewrite String.eqb_refl, app_nil_r. cbn [app].
  rewrite !flat_map_app, !robots_app, Hflush.
  rewrite (press_on_host s sz scaleX scaleY _ _ Hc Ha).
  rewrite (release_on_host s sz scaleX scaleY _ _ Hc Ha).
  subst mo1. cbn [batchedMoves]. rewrite <- app_assoc. cbn [app]. auto.
Qed.

End PointerEndToEnd.

Lemma click_after_moves_reaches_host_witness :
  let id := fun z : Z => z in
  let '(mo', requests) :=
    overlayRun Z 0%Z 1920%Z 1080%Z (Z.eqb 0) Z.div Z.mul id true true
               (960, 540)%Z (mkOverlay "" [])
               [MouseMoved Z (1, 2)%Z; MouseMoved Z (3, 4)%Z;
                MouseDownAt Z Primary (5, 6)%Z; MouseUpAt Z Primary (5, 6)%Z] in
  robots (flat_map (fun r => handleInputEvent Z id id Z.mul Z.opp (Z.ltb 0)
                                (fun z => Z.ltb z 0) Fmt.d (Sample.registered "") r 1%Z 1%Z)
                   requests)
  = [Move 2 4; Move 6 8; Move 10 12; MouseDown "left"; Move 10 12; MouseUp "left"]
  /\ batchedMoves mo' = []
  /\ mouseBtnState mo' = "".
Proof.
  intros id.
  exact (click_after_moves_reaches_host
           Z 0%Z 1920%Z 1080%Z (Z.eqb 0) Z.div Z.mul id true true
           id id Z.mul Z.opp (Z.ltb 0) (fun z => Z.ltb z 0) Fmt.d
           (Sample.registered "") (960, 540)%Z 1%Z 1%Z (mkOverlay "" [])
           [(1, 2); (3, 4)]%Z Primary (5, 6)%Z (5, 6)%Z eq_refl eq_refl eq_refl).
Defined.

(** ** The status label around a tunnel *)

Lemma append_nil_r (s : string) : s ++ "" = s.
Proof. induction s as [|c s IH]; cbn; [reflexivity | now rewrite IH]. Qed.

Lemma statusTexts_app (a b : list event) :
  statusTexts (a ++ b)%list = (statusTexts a ++ statusTexts b)%list.
Proof.
  induction a as [|e a IH]; [reflexivity|].
  destruct e as [ | |w text| | | | | | | | |]; cbn; try exact IH.
  destruct w; cbn; now rewrite ?IH.
Qed.

Lemma statusTexts_setRelayStatus (g : gui) (text : string) :
  statusTexts (setRelayStatus g text) = if relayLabelShown g then [text] else [].
Proof. unfold setRelayStatus. now destruct (relayLabelShown g). Qed.

(** X10.  The status label is put back.  A tunnel that reaches its copy loops
    has set the status label, if it is shown, to the text of an active
    session and nothing else.  When the tunnel ends, the label is touched
    only if it still shows that session: it then gets the text it had before
    the tunnel, or the waiting text if there was none or if that text was
    itself about an active session.  So the tunnel never leaves a text that
    starts with [Relay: Active session] of its own making; and the last two
    things it does are to close the local connection and then the relay
    connection. *)
Theorem status_label_put_back
    (g : gui) (env : tunnelEnv)
    (localGrpcServiceAddr relayDataAddrForHost sessionToken registeredHostID : string) :
  match handleHostSideTunnel_setup g env localGrpcServiceAddr relayDataAddrForHost
                                   sessionToken registeredHostID with
  | SetupBridge tr logCtx originalRelayStatusText =>
      let shown := "Relay: Active session (ID: " ++ registeredHostID ++ ")" in
      let waiting := "Relay: Registered as '" ++ registeredHostID
                     ++ "'. Waiting for clients..." in
      statusTexts tr = (if relayLabelShown g then [shown] else [])
      /\ originalRelayStatusText = (if relayLabelShown g then relayStatusText env else "")
      /\ forall currentText,
           let fin := handleHostSideTunnel_finish g logCtx registeredHostID
                                                  originalRelayStatusText currentText in
           (relayLabelShown g = true -> currentText = shown ->
            statusTexts fin
            = [if (relayStatusText env =? "")
                  || GoStr.HasPrefix (relayStatusText env) "Relay: Active session"
               then waiting else relayStatusText env])
           /\ (GoStr.Contains currentText ("Active session (ID: " ++ registeredHostID ++ ")")
               = false -> statusTexts fin = [])
           /\ Forall (fun text => GoStr.HasPrefix text "Relay: Active session" = false)
                     (statusTexts fin)
           /\ exists before,
                fin = (before ++ [ConnClose localServiceConn; ConnClose hostProxyConn])%list
                /\ Forall (fun e => forall c, e <> ConnClose c) before
  | _ => True
  end.
Proof.
  unfold handleHostSideTunnel_setup.
  destruct (GoStr.sliceTo sessionToken 6) as [short|]; [| exact I].
  destruct (dialRelayData env) as [remote | err]; [| exact I].
  destruct (identWrite env) as [err|]; [exact I |].
  destruct (dialLocalService env) as [err|]; [exact I |].
  cbv zeta.
  split; [| split].
  - rewrite !statusTexts_app, statusTexts_setRelayStatus. reflexivity.
  - reflexivity.
  - intros currentText. unfold handleHostSideTunnel_finish.
    set (marker := "Active session (ID: " ++ registeredHostID ++ ")").
    refine (conj _ (conj _ (conj _ _))).
    + intros Hshown ->. rewrite Hshown.
      assert (Hc : GoStr.Contains ("Relay: Active session (ID: " ++ registeredHostID ++ ")")
                                  marker = true).
      { apply Contains_iff. exists "Relay: ", "". subst marker.
        now rewrite append_nil_r. }
      rewrite Hc.
      destruct (relayStatusText env =? "") eqn:E; cbn [negb andb orb].
      * reflexivity.
      * destruct (GoStr.HasPrefix (relayStatusText env) "Relay: Active session");
          reflexivity.
    + intros Hno. rewrite Hno. now destruct (relayLabelShown g).
    + destruct (relayLabelShown g); [| constructor].
      destruct (GoStr.Contains currentText marker); [| constructor].
      destruct (relayStatusText env =? "") eqn:E; cbn [negb andb].
      { repeat constructor. }
      destruct (GoStr.HasPrefix (relayStatusText env) "Relay: Active session") eqn:Ep;
        cbn [negb app statusTexts]; repeat constructor. exact Ep.
    + eexists. split; [rewrite app_assoc; reflexivity |].
      apply Forall_app. split; [repeat constructor; discriminate |].
      destruct (relayLabelShown g); [| constructor].
      destruct (GoStr.Contains currentText marker); [| constructor].
      match goal with
      | |- context [if ?b then _ else _] => destruct b
      end; repeat constructor; discriminate.
Qed.

Lemma status_label_put_back_witness :
  statusTexts
    (handleHostSideTunnel_finish Sample.windowGui "[Tunnel tok123 Host host1]" "host1"
       "Relay: Registered as 'host1'. Waiting for clients..."
       "Relay: Active session (ID: host1)")
  = ["Relay: Registered as 'host1'. Waiting for clients..."].
Proof.
  pose proof (status_label_put_back
                Sample.windowGui
                (mkTunnelEnv (inl "relay.example:40000") None None
                             "Relay: Registered as 'host1'. Waiting for clients...")
                Sample.localAddr "relay.example:40000" "tok1234567" "host1") as H.
  cbn in H. destruct H as (_ & _ & H).
  destruct (H "Relay: Active session (ID: host1)") as (Hback & _).
  exact (Hback eq_refl eq_refl).
Defined.
